(** * cv_analyzer: the schema-driven extraction pipeline

    A shallow embedding of the pipeline of the repository: the YAML schema
    loader ([schema/yaml_loader.py]), the response validator
    ([schema/validator.py]), the prompt renderer
    ([llm_client/prompt_templates.py]), the extraction clients with their
    correction retry ([llm_client/openai_client.py],
    [llm_client/litellm_client.py]) and the per-document processing and
    derived-field rule of [app.py].

    Python values are one inductive type, dictionaries with string keys are
    [gmap string obj], exceptions are an explicit result type with the
    class of the exception and its [str()] text. *)

From stdpp Require Import gmap strings list fin_maps.
From Stdlib Require Import ZArith Lia Ascii String.

Open Scope string_scope.
Open Scope Z_scope.

(* ===================================================================== *)
(** * Python values, exceptions and the builtins the code relies on       *)
(* ===================================================================== *)

Module Py.

(** A Python [float]: a binary64 number [mantissa * 2 ^ exponent], an
    infinity or a NaN. *)
Inductive pyfloat :=
| FNan
| FInf (negative : bool)
| FNum (mantissa exponent : Z).

(** The objects [json.loads] and [yaml.safe_load] produce, restricted to
    the JSON data model: dictionaries have string keys. *)
#[warnings="-register-all"]
Inductive obj :=
| VNone
| VBool (b : bool)
| VInt (z : Z)
| VFloat (f : pyfloat)
| VStr (s : string)
| VList (l : list obj)
| VDict (d : gmap string obj).

(** Exception classes that occur in the modelled code.  [JSONDecodeError]
    and pydantic's [ValidationError] derive from [ValueError]; everything
    derives from [Exception]. *)
Inductive exn_class :=
| Exception_
| ValueError
| TypeError
| KeyError
| AttributeError
| ImportError
| JSONDecodeError
| YAMLError
| PydanticValidationError
| JsonSchemaValidationError.

(** An exception object: its class and the text [str(e)] gives. *)
Record exn := mk_exn { exn_cls : exn_class; exn_str : string }.

Definition exn_class_eqb (a b : exn_class) : bool :=
  match a, b with
  | Exception_, Exception_ | ValueError, ValueError | TypeError, TypeError
  | KeyError, KeyError | AttributeError, AttributeError
  | ImportError, ImportError | JSONDecodeError, JSONDecodeError
  | YAMLError, YAMLError
  | PydanticValidationError, PydanticValidationError
  | JsonSchemaValidationError, JsonSchemaValidationError => true
  | _, _ => false
  end.

(** [issubclass c base]. *)
Definition subclass (c base : exn_class) : bool :=
  match base with
  | Exception_ => true
  | ValueError =>
      match c with
      | ValueError | JSONDecodeError | PydanticValidationError => true
      | _ => false
      end
  | _ => exn_class_eqb c base
  end.

(** [isinstance(e, (c1, ..., cn))], the test of an [except] clause. *)
Definition caught_by (e : exn) (classes : list exn_class) : bool :=
  existsb (subclass (exn_cls e)) classes.

(** The outcome of running a piece of Python: a value or a raised
    exception. *)
Inductive res (A : Type) :=
| Ok (a : A)
| Raise (e : exn).
Arguments Ok {A} a.
Arguments Raise {A} e.

Definition res_bind {A B} (f : A → res B) (c : res A) : res B :=
  match c with
  | Ok a => f a
  | Raise e => Raise e
  end.

#[export] Instance res_ret : MRet res := @Ok.
#[export] Instance res_mbind : MBind res := @res_bind.

Definition raise {A} (c : exn_class) (msg : string) : res A :=
  Raise (mk_exn c msg).

(** [try: c except classes as e: handler e]. *)
Definition try_except {A} (c : res A) (classes : list exn_class)
    (handler : exn → res A) : res A :=
  match c with
  | Ok a => Ok a
  | Raise e => if caught_by e classes then handler e else Raise e
  end.

Definition is_ok {A} (c : res A) : bool :=
  match c with Ok _ => true | Raise _ => false end.

(** ** Strings

    A [str] is held as its UTF-8 bytes; a byte string that is not
    well-formed UTF-8 stands for no [str].  The case table below covers
    Basic Latin and the Latin-1 Supplement, where it agrees with
    [str.lower]; it leaves every other code point as it is, so [lower] is
    [str.lower] on the strings of these two blocks only.  Outside them
    only U+0130 (to "i" and U+0307), U+0178, U+1E9E, U+212A (to "k") and
    U+212B have a lowercase with a character of the two blocks, and none
    of these can yield a token that the code compares a lowered string
    with or looks for in one. *)

Definition byte_of (c : ascii) : N := N_of_ascii c.

Definition is_upper_ascii (c : ascii) : bool :=
  ((65 <=? byte_of c) && (byte_of c <=? 90))%N.

(** Second byte of a two-byte sequence led by 0xC3 that encodes an
    uppercase letter of U+00C0..U+00DE (U+00D7, the multiplication sign,
    has no case). *)
Definition is_upper_latin1_tail (c : ascii) : bool :=
  ((128 <=? byte_of c) && (byte_of c <=? 158) && negb (byte_of c =? 151))%N.

Definition shift_case (c : ascii) : ascii := ascii_of_N (byte_of c + 32).

Fixpoint lower_from (after_c3 : bool) (s : string) : string :=
  match s with
  | EmptyString => EmptyString
  | String c rest =>
      let c' :=
        if is_upper_ascii c then shift_case c
        else if after_c3 && is_upper_latin1_tail c then shift_case c
        else c in
      String c' (lower_from (byte_of c =? 195)%N rest)
  end.

(** [s.lower()]. *)
Definition lower (s : string) : string := lower_from false s.

(** The UTF-8 encoding of a code point. *)
Definition utf8 (cp : N) : string :=
  (if cp <? 128 then String (ascii_of_N cp) ""
   else if cp <? 2048 then
     String (ascii_of_N (192 + cp / 64)) (String (ascii_of_N (128 + cp mod 64)) "")
   else if cp <? 65536 then
     String (ascii_of_N (224 + cp / 4096))
       (String (ascii_of_N (128 + (cp / 64) mod 64))
          (String (ascii_of_N (128 + cp mod 64)) ""))
   else
     String (ascii_of_N (240 + cp / 262144))
       (String (ascii_of_N (128 + (cp / 4096) mod 64))
          (String (ascii_of_N (128 + (cp / 64) mod 64))
             (String (ascii_of_N (128 + cp mod 64)) ""))))%N.

(** The characters [str.strip()] removes, those for which [str.isspace()]
    holds: U+0009..U+000D, U+001C..U+0020, U+0085, U+00A0, U+1680,
    U+2000..U+200A, U+2028, U+2029, U+202F, U+205F and U+3000. *)
Definition whitespace_code_points : list N :=
  [9; 10; 11; 12; 13; 28; 29; 30; 31; 32; 133; 160; 5760;
   8192; 8193; 8194; 8195; 8196; 8197; 8198; 8199; 8200; 8201; 8202;
   8232; 8233; 8239; 8287; 12288]%N.

Definition whitespace : list string := Eval vm_compute in map utf8 whitespace_code_points.

(** The string is one whitespace character. *)
Definition is_space (s : string) : bool := existsb (String.eqb s) whitespace.

(** [s.lstrip()]: a whitespace character takes one, two or three bytes. *)
Fixpoint lstrip (s : string) : string :=
  match s with
  | EmptyString => EmptyString
  | String a r1 =>
      if is_space (String a "") then lstrip r1
      else
        match r1 with
        | EmptyString => s
        | String b r2 =>
            if is_space (String a (String b "")) then lstrip r2
            else
              match r2 with
              | EmptyString => s
              | String c r3 =>
                  if is_space (String a (String b (String c ""))) then lstrip r3
                  else s
              end
        end
  end.

(** [s.rstrip()]: what is left of a string whose tail was stripped is
    dropped when it is one whitespace character. *)
Fixpoint rstrip (s : string) : string :=
  match s with
  | EmptyString => EmptyString
  | String c rest =>
      let kept := String c (rstrip rest) in
      if is_space kept then EmptyString else kept
  end.

(** [s.strip()]. *)
Definition strip (s : string) : string := rstrip (lstrip s).

(** [s in [t1, ..., tn]] for strings. *)
Definition str_in (s : string) (l : list string) : bool :=
  existsb (String.eqb s) l.

(** [sep.join(parts)]. *)
Fixpoint join (sep : string) (parts : list string) : string :=
  match parts with
  | [] => ""
  | [p] => p
  | p :: rest => p +:+ sep +:+ join sep rest
  end.

(** ** The code points of a string *)

(** The code points that the bytes of [s] encode, [pending] holding the
    bits read of a sequence that needs [more] bytes. *)
Fixpoint code_points_from (pending : N) (more : nat) (s : string) : list N :=
  match s with
  | EmptyString => []
  | String c rest =>
      let b := byte_of c in
      match more with
      | S more' =>
          let cp := (pending * 64 + b mod 64)%N in
          match more' with
          | O => cp :: code_points_from 0 0 rest
          | S _ => code_points_from cp more' rest
          end
      | O =>
          if (b <? 128)%N then b :: code_points_from 0 0 rest
          else if (b <? 224)%N then code_points_from (b mod 32) 1 rest
          else if (b <? 240)%N then code_points_from (b mod 16) 2 rest
          else code_points_from (b mod 8) 3 rest
      end
  end.

(** The characters of [s]. *)
Definition code_points (s : string) : list N := code_points_from 0 0 s.

(** [str(n)] for an [int]. *)
Definition digit_char (d : Z) : ascii := ascii_of_N (Z.to_N d + 48).

Fixpoint pos_digits (fuel : nat) (n : Z) (acc : string) : string :=
  match fuel with
  | O => acc
  | S fuel' =>
      let acc' := String (digit_char (n mod 10)) acc in
      if n / 10 =? 0 then acc' else pos_digits fuel' (n / 10) acc'
  end.

Definition str_of_int (z : Z) : string :=
  if z <? 0 then "-" +:+ pos_digits (Z.to_nat (Z.log2 (- z)) + 1) (- z) ""
  else pos_digits (Z.to_nat (Z.log2 z) + 1) z "".

(** ** Truth values, dictionary access *)

(** [bool(v)]. *)
Definition truthy (v : obj) : bool :=
  match v with
  | VNone => false
  | VBool b => b
  | VInt z => negb (z =? 0)
  | VFloat (FNum m _) => negb (m =? 0)
  | VFloat _ => true
  | VStr s => negb (String.eqb s "")
  | VList l => match l with [] => false | _ => true end
  | VDict d => negb (bool_decide (d = ∅))
  end.

(** [v == s] for a [str] literal [s]. *)
Definition eq_str (v : obj) (s : string) : bool :=
  match v with
  | VStr s' => String.eqb s' s
  | _ => false
  end.

(** [v in [s1, ..., sn]] for a list of [str] literals. *)
Definition in_strs (v : obj) (l : list string) : bool :=
  existsb (eq_str v) l.

Definition key_error {A} (k : string) : res A :=
  raise KeyError ("'" +:+ k +:+ "'").

(** [d[k]] on a dictionary. *)
Definition getitem (d : gmap string obj) (k : string) : res obj :=
  match d !! k with
  | Some v => Ok v
  | None => key_error k
  end.

(** [v[k]] with a string subscript on any object: only a dictionary
    supports it. *)
Definition subscript (v : obj) (k : string) : res obj :=
  match v with
  | VDict d => getitem d k
  | _ => raise TypeError "indices must be integers or the object is not subscriptable"
  end.

(** [d.get(k, default)]. *)
Definition get (d : gmap string obj) (k : string) (default : obj) : obj :=
  match d !! k with
  | Some v => v
  | None => default
  end.

(** [k in d]. *)
Definition contains (d : gmap string obj) (k : string) : bool :=
  bool_decide (is_Some (d !! k)).

(** [isinstance(v, (int, float))]; [bool] is a subclass of [int]. *)
Definition is_number (v : obj) : bool :=
  match v with
  | VBool _ | VInt _ | VFloat _ => true
  | _ => false
  end.

(** [isinstance(v, bool)], [isinstance(v, list)], [isinstance(v, dict)]. *)
Definition is_bool (v : obj) : bool :=
  match v with VBool _ => true | _ => false end.
Definition is_list (v : obj) : bool :=
  match v with VList _ => true | _ => false end.
Definition is_dict (v : obj) : bool :=
  match v with VDict _ => true | _ => false end.

(** Lists and dictionaries cannot be members of a [set]. *)
Definition hashable (v : obj) : bool :=
  match v with
  | VList _ | VDict _ => false
  | _ => true
  end.

(** [type(v).__name__]. *)
Definition type_name (v : obj) : string :=
  match v with
  | VNone => "NoneType"
  | VBool _ => "bool"
  | VInt _ => "int"
  | VFloat _ => "float"
  | VStr _ => "str"
  | VList _ => "list"
  | VDict _ => "dict"
  end.

(** The [TypeError] of hashing a list or a dictionary. *)
Definition unhashable {A} (v : obj) : res A :=
  raise TypeError ("unhashable type: '" +:+ type_name v +:+ "'").

(** A number as [m * 2 ^ e]. *)
Definition as_scaled (v : obj) : option (Z * Z) :=
  match v with
  | VBool b => Some (if b then 1 else 0, 0)
  | VInt z => Some (z, 0)
  | VFloat (FNum m e) => Some (m, e)
  | _ => None
  end.

(** [a == b] between hashable objects: numbers compare by value across
    [bool], [int] and [float], a NaN equals nothing, strings compare with
    strings only. *)
Definition py_eqb (a b : obj) : bool :=
  match a, b with
  | VNone, VNone => true
  | VStr s, VStr t => String.eqb s t
  | VFloat (FInf s), VFloat (FInf t) => Bool.eqb s t
  | _, _ =>
      match as_scaled a, as_scaled b with
      | Some (m1, e1), Some (m2, e2) =>
          let e := Z.min e1 e2 in
          m1 * 2 ^ (e1 - e) =? m2 * 2 ^ (e2 - e)
      | _, _ => false
      end
  end.

(** [a < b] between floats. *)
Definition float_ltb (a b : pyfloat) : bool :=
  match a, b with
  | FNan, _ | _, FNan => false
  | FInf s, FInf t => s && negb t
  | FInf s, FNum _ _ => s
  | FNum _ _, FInf t => negb t
  | FNum m1 e1, FNum m2 e2 =>
      let e := Z.min e1 e2 in
      m1 * 2 ^ (e1 - e) <? m2 * 2 ^ (e2 - e)
  end.

(** [a is b] between two objects of a loaded schema, where it goes beyond
    [a == b]: PyYAML builds every [.nan] as the one object [nan_value],
    which is not equal to itself. *)
Definition same_object (a b : obj) : bool :=
  match a, b with
  | VFloat FNan, VFloat FNan => true
  | _, _ => false
  end.

(** The test by which a [set] or a [dict] recognises a member or a key:
    it is the object itself or equal to it. *)
Definition same_key (a b : obj) : bool := same_object a b || py_eqb a b.

(** [for x in v]: the code iterates over lists only; the other iterables
    of Python are not modelled and raise. *)
Definition iter_list (v : obj) : res (list obj) :=
  match v with
  | VList l => Ok l
  | _ => raise TypeError "object is not a list"
  end.

(** Every character of the string satisfies the test. *)
Fixpoint forallb_string (p : ascii → bool) (s : string) : bool :=
  match s with
  | EmptyString => true
  | String c rest => p c && forallb_string p rest
  end.

(** The line feed, and strings that hold none. *)
Definition LF : ascii := ascii_of_N 10.
Definition newline : string := String LF EmptyString.

Fixpoint has_char (c : ascii) (s : string) : bool :=
  match s with
  | EmptyString => false
  | String c' rest => Ascii.eqb c c' || has_char c rest
  end.

Definition one_line (s : string) : Prop := has_char LF s = false.

(** [s.startswith(p)]. *)
Fixpoint startswith (p s : string) : bool :=
  match p, s with
  | EmptyString, _ => true
  | String a p', String b s' => Ascii.eqb a b && startswith p' s'
  | String _ _, EmptyString => false
  end.

(** The double quote character as a string. *)
Definition dq : string := String (ascii_of_N 34) EmptyString.

(** [s.split(c)] for a one-character separator. *)
Fixpoint split_from (sep : ascii) (current : string) (s : string) : list string :=
  match s with
  | EmptyString => [current]
  | String c rest =>
      if Ascii.eqb c sep then current :: split_from sep "" rest
      else split_from sep (current +:+ String c EmptyString) rest
  end.

Definition split_on (sep : ascii) (s : string) : list string := split_from sep "" s.

(** [p in s] for strings. *)
Fixpoint has_substring (p s : string) : bool :=
  startswith p s ||
  match s with
  | EmptyString => false
  | String _ rest => has_substring p rest
  end.

(** [s.split("\n")]. *)
Fixpoint split_lines_from (current : string) (s : string) : list string :=
  match s with
  | EmptyString => [current]
  | String c rest =>
      if Ascii.eqb c LF then current :: split_lines_from "" rest
      else split_lines_from (current +:+ String c EmptyString) rest
  end.

Definition split_lines (s : string) : list string := split_lines_from "" s.

(** A byte that continues a UTF-8 sequence (10xxxxxx). *)
Definition is_continuation (c : ascii) : bool :=
  ((128 <=? byte_of c) && (byte_of c <=? 191))%N.

(** [s[:n]]: the first [n] characters of [s]. *)
Fixpoint slice_to (n : nat) (s : string) : string :=
  match s with
  | EmptyString => EmptyString
  | String c rest =>
      if is_continuation c then String c (slice_to n rest)
      else match n with
           | O => EmptyString
           | S n' => String c (slice_to n' rest)
           end
  end.

(** The assignment [d[k] = v] on a dictionary kept as the list of its
    items in insertion order. *)
Fixpoint assoc_set {A} (k : string) (v : A) (l : list (string * A))
    : list (string * A) :=
  match l with
  | [] => [(k, v)]
  | (k', v') :: rest =>
      if String.eqb k k' then (k, v) :: rest else (k', v') :: assoc_set k v rest
  end.

(** The text conversions and the character data of the interpreter that
    the code relies on and that are taken as given: [float(s)] on a string
    ([None] stands for its [ValueError]), [repr] of a float, which never
    spans lines, [repr] of a list or dictionary, and the decimal digit
    value of a code point in the Unicode database of the interpreter.
    The digits are the characters of category Nd, which the class [\d] of
    [re] matches and [int] converts; their set grows with the version of
    Unicode, but of the ASCII characters it holds "0" to "9" only. *)
Class PyText := {
  float_of_str : string → option pyfloat;
  repr_float : pyfloat → string;
  repr_float_one_line : ∀ f, one_line (repr_float f);
  repr_container : obj → string;
  decimal : N → option Z;
  decimal_ascii : ∀ cp, (cp < 128)%N →
    decimal cp = if ((48 <=? cp) && (cp <=? 57))%N then Some (Z.of_N cp - 48) else None;
  decimal_range : ∀ cp d, decimal cp = Some d → 0 ≤ d ≤ 9
}.

(** ** Decimal digits, [re.search(r"\d+", s)] and [int(s)] *)

Definition is_digit `{PyText} (cp : N) : bool :=
  match decimal cp with Some _ => true | None => false end.

(** The longest prefix of decimal digits. *)
Fixpoint take_digits `{PyText} (l : list N) : list N :=
  match l with
  | [] => []
  | cp :: rest => if is_digit cp then cp :: take_digits rest else []
  end.

Fixpoint search_digits_in `{PyText} (l : list N) : option (list N) :=
  match l with
  | [] => None
  | cp :: rest => if is_digit cp then Some (take_digits l) else search_digits_in rest
  end.

(** [re.search(r"\d+", s)]: the characters of the leftmost, longest run of
    decimal digits, [None] when the string holds no digit. *)
Definition search_digits `{PyText} (s : string) : option (list N) :=
  search_digits_in (code_points s).

Fixpoint digits_to_Z `{PyText} (acc : Z) (run : list N) : Z :=
  match run with
  | [] => acc
  | cp :: rest => digits_to_Z (10 * acc + default 0 (decimal cp)) rest
  end.

(** CPython refuses to convert a decimal string of more than
    [sys.get_int_max_str_digits()] digits. *)
Definition int_max_str_digits : nat := 4300.

(** [int(s)] on a string of decimal digits. *)
Definition int_of_digits `{PyText} (run : list N) : res Z :=
  if Nat.ltb int_max_str_digits (List.length run)
  then raise ValueError "Exceeds the limit (4300 digits) for integer string conversion"
  else Ok (digits_to_Z 0 run).

(** [str(v)], what an f-string substitutes for [{v}]. *)
Definition py_str `{PyText} (v : obj) : string :=
  match v with
  | VNone => "None"
  | VBool true => "True"
  | VBool false => "False"
  | VInt z => str_of_int z
  | VFloat f => repr_float f
  | VStr s => s
  | VList _ | VDict _ => repr_container v
  end.

(** [float(s)]. *)
Definition py_float `{PyText} (s : string) : res obj :=
  match float_of_str s with
  | Some f => Ok (VFloat f)
  | None => raise ValueError ("could not convert string to float: " +:+ s)
  end.

(** [str(n)] for an index or counter. *)
Definition str_of_nat (n : nat) : string := str_of_int (Z.of_nat n).

End Py.
Import Py.

(* ===================================================================== *)
(** * schema/yaml_loader.py                                               *)
(* ===================================================================== *)

Module YamlLoader.
Section WithText.
Context `{PyText}.

Definition valid_types : list string :=
  ["string"; "integer"; "float"; "boolean"; "categorical";
   "list[string]"; "list[integer]"; "list[object]"; "object"].

(** [name in seen_names], the set being held as the list of its members. *)
Definition seen (name : obj) (seen_names : list obj) : bool :=
  existsb (same_key name) seen_names.

(** [_validate_variable(var, index, seen_names)].  The set [seen_names] is
    mutated by the call; the model returns its new content. *)
Definition _validate_variable (var : obj) (index : nat)
    (seen_names : list obj) : res (list obj) :=
  match var with
  | VDict d =>
      if negb (contains d "name") then
        raise ValueError
          ("Variable " +:+ str_of_nat index +:+ " debe tener un campo 'name'")
      else if negb (contains d "type") then
        raise ValueError
          ("Variable " +:+ str_of_nat index +:+ " (" +:+ py_str (get d "name" (VStr "?"))
           +:+ ") debe tener un campo 'type'")
      else
        name ← getitem d "name";
        if negb (hashable name) then
          unhashable name
        else if seen name seen_names then
          raise ValueError ("Nombre de variable duplicado: " +:+ py_str name)
        else
          let seen_names := (seen_names ++ [name])%list in
          var_type ← getitem d "type";
          if negb (in_strs var_type valid_types) then
            raise ValueError
              ("Tipo inválido para variable '" +:+ py_str name +:+ "': "
               +:+ py_str var_type +:+ ". Tipos válidos: " +:+ join ", " valid_types)
          else if eq_str var_type "categorical" && negb (contains d "allowed_values") then
            raise ValueError
              ("Variable categorical '" +:+ py_str name +:+ "' debe tener 'allowed_values'")
          else if eq_str var_type "categorical"
                  && negb (is_list (get d "allowed_values" VNone)) then
            raise ValueError
              ("'allowed_values' de '" +:+ py_str name +:+ "' debe ser una lista")
          else if eq_str var_type "integer" && contains d "min"
                  && negb (is_number (get d "min" VNone)) then
            raise ValueError ("'min' de '" +:+ py_str name +:+ "' debe ser un número")
          else if eq_str var_type "integer" && contains d "max"
                  && negb (is_number (get d "max" VNone)) then
            raise ValueError ("'max' de '" +:+ py_str name +:+ "' debe ser un número")
          else if eq_str var_type "list[object]" && negb (contains d "properties") then
            raise ValueError
              ("Variable list[object] '" +:+ py_str name +:+ "' debe tener 'properties'")
          else if eq_str var_type "list[object]"
                  && negb (is_dict (get d "properties" VNone)) then
            raise ValueError
              ("'properties' de '" +:+ py_str name +:+ "' debe ser un diccionario")
          else if contains d "required" && negb (is_bool (get d "required" VNone)) then
            raise ValueError ("'required' de '" +:+ py_str name +:+ "' debe ser booleano")
          else Ok seen_names
  | _ =>
      raise ValueError
        ("Variable " +:+ str_of_nat index +:+ " debe ser un diccionario")
  end.

(** The loop [for i, var in enumerate(schema["variables"])]. *)
Fixpoint validate_variables (vars : list obj) (index : nat)
    (seen_names : list obj) : res (list obj) :=
  match vars with
  | [] => Ok seen_names
  | var :: rest =>
      seen_names ← _validate_variable var index seen_names;
      validate_variables rest (S index) seen_names
  end.

(** [load_yaml_schema(yaml_content)], from the outcome [loaded] of its
    first statement [yaml.safe_load(yaml_content)]. *)
Definition load_yaml_schema (loaded : res obj) : res (gmap string obj) :=
  schema ← try_except loaded [YAMLError]
              (λ e, raise ValueError ("Error parseando YAML: " +:+ exn_str e));
  match schema with
  | VDict d =>
      if negb (contains d "version") then
        raise ValueError "El esquema debe incluir un campo 'version'"
      else if negb (contains d "variables") then
        raise ValueError "El esquema debe incluir un campo 'variables'"
      else
        match get d "variables" VNone with
        | VList vars =>
            _ ← validate_variables vars 0%nat [];
            Ok d
        | _ => raise ValueError "El campo 'variables' debe ser una lista"
        end
  | _ => raise ValueError "El esquema debe ser un diccionario"
  end.

(** [schema.get("variables", [])]. *)
Definition variables_or_empty (schema : gmap string obj) : obj :=
  get schema "variables" (VList []).

(** [get_variable_names(schema)]. *)
Definition get_variable_names (schema : gmap string obj) : res (list obj) :=
  vars ← iter_list (variables_or_empty schema);
  mapM (λ var, subscript var "name") vars.

End WithText.
End YamlLoader.

(* ===================================================================== *)
(** * schema/validator.py: the coercion pass                              *)
(* ===================================================================== *)

Module Validator.
Import YamlLoader.

(** [for key, value in d.items(): d[key] = body(key, value)]: every entry
    is visited once and only the entry being visited is assigned. *)
Definition for_items (body : string → obj → res obj)
    (d : gmap string obj) : res (gmap string obj) :=
  map_fold (λ key value acc, m ← acc; v ← body key value; mret (<[key := v]> m))
           (Ok d) d.


(** ** The pydantic model built from a schema *)

(** Types of the entries of a [list[object]] item, from
    [_type_string_to_python] or a [Literal]. *)
Inductive item_annotation :=
| IStr | IInt | IFloat | IBool
| ILiteral (allowed : list obj).

(** The annotations [_get_pydantic_field] and [create_pydantic_model]
    produce. *)
Inductive annotation :=
| AStr | AEmailStr | AInt | AFloat | ABool
| ALiteral (allowed : list obj)
| AListStr | AListInt
| AListModel (nested_fields : list (string * item_annotation))
| AListDict
| ADict
| AAny
| AOptional (a : annotation).

(** A [Field(...)] object: the bounds and the default ([None] when the
    field has no default and is therefore required). *)
Record FieldInfo := mk_field {
  field_ge : option obj;
  field_le : option obj;
  field_default : option obj
}.

(** The second component of a field definition: a [Field] or [...]. *)
Inductive field_config :=
| Config (f : FieldInfo)
| Ellipsis.

Definition model_fields : Type := list (string * (annotation * field_config)).

(** One entry of [ValidationError.errors()]: the location below the
    model and the message. *)
Definition error_entry : Type := list string * string.

(** What pydantic does and the code does not decide: whether
    [create_model] accepts a set of names, which of the names it is given
    become fields of the model (not a name with a leading underscore,
    which is made a private attribute or taken as an argument of
    [create_model] itself, and is then neither validated nor dumped), and
    the validation of one input against one annotated field, which gives
    the validated value or the error entries located below that field. *)
Class Pydantic := {
  create_model_raises : list string → option exn;
  is_field_name : string → bool;
  validate_field : annotation → field_config → obj → list error_entry + obj
}.

(** What the [json] and [jsonschema] libraries do: [json.loads], the
    check of a schema against its meta-schema, and the validation of one
    property value against its subschema (the message of the violation,
    if any). *)
Class JsonLib := {
  json_loads : string → res obj;
  check_schema_raises : list (obj * obj) → option exn;
  property_violation : obj → obj → option string
}.

Section WithLibraries.
Context `{PyText} `{Pydantic} `{JsonLib}.

(** ** The coercion pass *)

(** [{var["name"]: var["type"] for var in schema.get("variables", [])}].
    The dictionary is only ever read at the keys of the record, which are
    strings; an entry whose name is not a string can never be hit, so only
    the string-named entries are kept. *)
Definition type_map_insert (acc : res (gmap string obj)) (var : obj)
    : res (gmap string obj) :=
  m ← acc;
  name ← subscript var "name";
  ty ← subscript var "type";
  if negb (hashable name) then unhashable name
  else Ok (match name with VStr n => <[n := ty]> m | _ => m end).

Definition type_map_of (schema : gmap string obj) : res (gmap string obj) :=
  vars ← iter_list (variables_or_empty schema);
  foldl type_map_insert (Ok ∅) vars.

Definition true_tokens : list string :=
  ["true"; "yes"; "sí"; "si"; "1"; "verdadero"].
Definition false_tokens : list string := ["false"; "no"; "0"; "falso"].

(** The three coercions of the loop body, for a value that is a [str]. *)
Definition coerce_integer (s : string) : res obj :=
  try_except
    (match search_digits s with
     | Some run => n ← int_of_digits run; mret (VInt n)
     | None => mret VNone
     end)
    [ValueError; AttributeError]
    (λ _, mret VNone).

Definition coerce_float (s : string) : res obj :=
  try_except (py_float s) [ValueError] (λ _, mret VNone).

Definition coerce_boolean (s : string) : res obj :=
  let value_lower := strip (lower s) in
  if str_in value_lower true_tokens then mret (VBool true)
  else if str_in value_lower false_tokens then mret (VBool false)
  else mret VNone.

(** The body of the loop of [_preprocess_data]: the object stored under
    [key] when the iteration leaves it. *)
Definition coerce_entry (type_map : gmap string obj) (key : string)
    (value : obj) : res obj :=
  match type_map !! key, value with
  | None, _ | _, VNone => mret value
  | Some expected_type, VStr s =>
      if eq_str expected_type "integer" then coerce_integer s
      else if eq_str expected_type "float" then coerce_float s
      else if eq_str expected_type "boolean" then coerce_boolean s
      else mret value
  | Some _, _ => mret value
  end.

(** [_preprocess_data(data, schema)]. *)
Definition _preprocess_data (data schema : gmap string obj)
    : res (gmap string obj) :=
  type_map ← type_map_of schema;
  for_items (coerce_entry type_map) data.


(** ** [create_pydantic_model] *)

(** [_type_string_to_python(type_str)]: [type_map.get(type_str, str)]. *)
Definition _type_string_to_python (type_str : string) : item_annotation :=
  if String.eqb type_str "string" then IStr
  else if String.eqb type_str "integer" then IInt
  else if String.eqb type_str "float" then IFloat
  else if String.eqb type_str "boolean" then IBool
  else IStr.

(** The loop over [var["properties"].items()]: a string gives a primitive
    type, a list an enumeration, anything else no field. *)
Definition nested_fields_of (properties : gmap string obj)
    : list (string * item_annotation) :=
  omap (λ '(prop_name, prop_type),
          match prop_type with
          | VStr type_str => Some (prop_name, _type_string_to_python type_str)
          | VList allowed => Some (prop_name, ILiteral allowed)
          | _ => None
          end)
       (map_to_list properties).

(** [create_model] called with the fields unpacked, given in order: the
    fields of the model it returns. *)
Definition create_model {A} (fields : list (string * A)) : res (list (string * A)) :=
  match create_model_raises (fields.*1) with
  | Some e => Raise e
  | None => Ok (List.filter (λ field, is_field_name field.1) fields)
  end.

(** The Field for an [integer]: built from [kwargs] when a bound is given. *)
Definition integer_field (var : gmap string obj) : field_config :=
  if contains var "min" || contains var "max"
  then Config (mk_field (var !! "min") (var !! "max") None)
  else Ellipsis.

(** [_get_pydantic_field(var)]; [Ellipsis] stands for [field_config] being
    [None]. *)
Definition _get_pydantic_field (var : gmap string obj)
    : res (annotation * field_config) :=
  var_type ← getitem var "type";
  if eq_str var_type "string" then
    if contains var "format" && eq_str (get var "format" VNone) "email"
    then mret (AEmailStr, Ellipsis)
    else mret (AStr, Ellipsis)
  else if eq_str var_type "integer" then mret (AInt, integer_field var)
  else if eq_str var_type "float" then mret (AFloat, Ellipsis)
  else if eq_str var_type "boolean" then mret (ABool, Ellipsis)
  else if eq_str var_type "categorical" then
    allowed_values ← getitem var "allowed_values";
    allowed ← iter_list allowed_values;
    mret (ALiteral allowed, Ellipsis)
  else if eq_str var_type "list[string]" then mret (AListStr, Ellipsis)
  else if eq_str var_type "list[integer]" then mret (AListInt, Ellipsis)
  else if eq_str var_type "list[object]" then
    if contains var "properties" then
      match get var "properties" VNone, get var "name" VNone with
      | VDict properties, VStr _ =>
          nested_model ← create_model (nested_fields_of properties);
          mret (AListModel nested_model, Ellipsis)
      | _, _ => raise AttributeError "object has no attribute 'items' or 'title'"
      end
    else mret (AListDict, Ellipsis)
  else if eq_str var_type "object" then mret (ADict, Ellipsis)
  else mret (AAny, Ellipsis).

(** The adjustment for a field that is not required: the type becomes
    [Optional] and the Field gets the default [None], by construction or,
    for a Field that exists, by assignment to its [default], which the
    model takes to be honoured as pydantic 2.9 does. *)
Definition make_optional (t : annotation * field_config)
    : annotation * field_config :=
  let '(python_type, config) := t in
  (AOptional python_type,
   match config with
   | Ellipsis => Config (mk_field None None (Some VNone))
   | Config f => Config (mk_field (field_ge f) (field_le f) (Some VNone))
   end).

(** [fields[name] = t] on the dictionary [fields], whose keys may be any
    hashable object. *)
Fixpoint dict_set {A} (k : obj) (v : A) (l : list (obj * A)) : list (obj * A) :=
  match l with
  | [] => [(k, v)]
  | (k', v') :: rest =>
      if same_key k k' then (k', v) :: rest else (k', v') :: dict_set k v rest
  end.

(** One round of the loop of [create_pydantic_model]. *)
Definition add_field (acc : res (list (obj * (annotation * field_config))))
    (var : obj) : res (list (obj * (annotation * field_config))) :=
  fields ← acc;
  match var with
  | VDict d =>
      name ← getitem d "name";
      _ ← getitem d "type";
      let required := get d "required" (VBool false) in
      t ← _get_pydantic_field d;
      let t := if negb (truthy required) then make_optional t else t in
      if hashable name then mret (dict_set name t fields)
      else unhashable name
  | _ => raise TypeError "indices must be integers or the object is not subscriptable"
  end.

(** Unpacking [fields] into keyword arguments needs string keys. *)
Definition keywords {A} (fields : list (obj * A)) : res (list (string * A)) :=
  mapM (λ '(k, v),
          match k with
          | VStr n => mret (n, v)
          | _ => raise TypeError "keywords must be strings"
          end)
       fields.

(** [create_pydantic_model(schema)].  The configuration passed to
    [create_model] sets [str_strip_whitespace], [validate_default] and
    [arbitrary_types_allowed] and leaves [extra] at pydantic's default,
    [ignore]. *)
Definition create_pydantic_model (schema : gmap string obj) : res model_fields :=
  variables ← getitem schema "variables";
  vars ← iter_list variables;
  fields ← foldl add_field (Ok []) vars;
  fields ← keywords fields;
  create_model fields.

(** ** Instantiating the model on the unpacked [data], and [model_dump()] *)

(** The outcome for one declared field: taken from the input and
    validated, or defaulted, or reported missing. *)
Definition field_outcome (data : gmap string obj) (name : string)
    (t : annotation * field_config) : list error_entry + obj :=
  match data !! name with
  | Some v =>
      match validate_field t.1 t.2 v with
      | inl errors => inl (map (λ '(loc, msg), (name :: loc, msg)) errors)
      | inr validated => inr validated
      end
  | None =>
      match t.2 with
      | Config {| field_default := Some d |} => inr d
      | _ => inl [([name], "Field required")]
      end
  end.

(** All declared fields in order: the error entries and the validated
    fields.  Keys of [data] that name no field are not looked at, which is
    the behaviour [extra='ignore'] prescribes. *)
Fixpoint validate_fields (fields : model_fields) (data : gmap string obj)
    : list error_entry * gmap string obj :=
  match fields with
  | [] => ([], ∅)
  | (name, t) :: rest =>
      let '(errors, validated) := validate_fields rest data in
      match field_outcome data name t with
      | inl errs => ((errs ++ errors)%list, validated)
      | inr v => (errors, <[name := v]> validated)
      end
  end.

(** The model called on the unpacked [data], then [model_dump()]: the
    dumped instance, or the entries of the [ValidationError]. *)
Definition instantiate (fields : model_fields) (data : gmap string obj)
    : list error_entry + gmap string obj :=
  match validate_fields fields data with
  | ([], validated) => inr validated
  | (errors, _) => inl errors
  end.

(** [_format_pydantic_errors(error)]. *)
Definition _format_pydantic_errors (errors : list error_entry) : string :=
  "Errores de validación:" +:+ newline
  +:+ join newline
        (map (λ '(loc, msg), "  • " +:+ join " -> " loc +:+ ": " +:+ msg) errors).

(** The triple [(es_válido, datos_validados, mensaje_error)]. *)
Definition validation : Type := bool * option (gmap string obj) * option string.

Definition unexpected (e : exn) : validation :=
  (false, None, Some ("Error inesperado en validación: " +:+ exn_str e)).

(** [_validate_with_pydantic(data, schema)]. *)
Definition _validate_with_pydantic (data schema : gmap string obj) : validation :=
  match _preprocess_data data schema with
  | Raise e => unexpected e
  | Ok data =>
      match create_pydantic_model schema with
      | Raise e => unexpected e
      | Ok model =>
          match instantiate model data with
          | inr validated_dict => (true, Some validated_dict, None)
          | inl errors => (false, None, Some (_format_pydantic_errors errors))
          end
      end
  end.


(** ** The jsonschema path *)

(** [_variable_to_json_schema_property(var)]. *)
Definition base_property (var : gmap string obj) (var_type : obj) : gmap string obj :=
  if eq_str var_type "string" then
    let prop := {[ "type" := VStr "string" ]} in
    match var !! "format" with
    | Some f => <["format" := f]> prop
    | None => prop
    end
  else if eq_str var_type "integer" then
    let prop := {[ "type" := VStr "integer" ]} in
    let prop := match var !! "min" with
                | Some m => <["minimum" := m]> prop
                | None => prop
                end in
    match var !! "max" with
    | Some m => <["maximum" := m]> prop
    | None => prop
    end
  else if eq_str var_type "float" then {[ "type" := VStr "number" ]}
  else if eq_str var_type "boolean" then {[ "type" := VStr "boolean" ]}
  else if eq_str var_type "list[string]" then
    <["items" := VDict {[ "type" := VStr "string" ]}]> {[ "type" := VStr "array" ]}
  else if eq_str var_type "list[integer]" then
    <["items" := VDict {[ "type" := VStr "integer" ]}]> {[ "type" := VStr "array" ]}
  else ∅.

Definition items_props_of (properties : gmap string obj) : gmap string obj :=
  omap (λ prop_type,
          match prop_type with
          | VStr _ => Some (VDict {[ "type" := prop_type ]})
          | VList _ =>
              Some (VDict (<["enum" := prop_type]> {[ "type" := VStr "string" ]}))
          | _ => None
          end)
       properties.

Definition _variable_to_json_schema_property (var : gmap string obj) : res obj :=
  var_type ← getitem var "type";
  prop ←
    (if eq_str var_type "categorical" then
       allowed ← getitem var "allowed_values";
       mret (<["enum" := allowed]> {[ "type" := VStr "string" ]})
     else if eq_str var_type "list[object]" then
       let prop : gmap string obj := {[ "type" := VStr "array" ]} in
       match var !! "properties" with
       | Some (VDict properties) =>
           mret (<["items" :=
                     VDict (<["properties" := VDict (items_props_of properties)]>
                              {[ "type" := VStr "object" ]})]> prop)
       | Some _ => raise AttributeError "object has no attribute 'items'"
       | None => mret prop
       end
     else if eq_str var_type "object" then
       let prop : gmap string obj := {[ "type" := VStr "object" ]} in
       mret (match var !! "properties" with
             | Some properties => <["properties" := properties]> prop
             | None => prop
             end)
     else mret (base_property var var_type));
  let prop := match var !! "description" with
              | Some d => <["description" := d]> prop
              | None => prop
              end in
  if negb (truthy (get var "required" (VBool false)))
  then mret (VDict {[ "anyOf" := VList [VDict prop; VDict {[ "type" := VStr "null" ]}] ]})
  else mret (VDict prop).

(** The JSON Schema [schema_to_json_schema] returns: an object schema with
    its [properties], with ["additionalProperties": False], and with
    [required] when that list is not empty. *)
Record JsonSchema := mk_json_schema {
  js_properties : list (obj * obj);
  js_additional_properties : bool;
  js_required : list obj
}.

Definition add_property (acc : res (list (obj * obj) * list obj)) (var : obj)
    : res (list (obj * obj) * list obj) :=
  '(properties, required) ← acc;
  match var with
  | VDict d =>
      name ← getitem d "name";
      _ ← getitem d "type";
      prop ← _variable_to_json_schema_property d;
      if hashable name then
        mret (dict_set name prop properties,
              if truthy (get d "required" (VBool false))
              then (required ++ [name])%list else required)
      else unhashable name
  | _ => raise TypeError "indices must be integers or the object is not subscriptable"
  end.

(** [schema_to_json_schema(schema)]. *)
Definition schema_to_json_schema (schema : gmap string obj) : res JsonSchema :=
  variables ← getitem schema "variables";
  vars ← iter_list variables;
  '(properties, required) ← foldl add_property (Ok ([], [])) vars;
  mret (mk_json_schema properties false required).

(** The subschema declared for a key of the instance. *)
Fixpoint property_of (properties : list (obj * obj)) (key : string) : option obj :=
  match properties with
  | [] => None
  | (k, prop) :: rest => if py_eqb k (VStr key) then Some prop else property_of rest key
  end.

(** [jsonschema.validate(instance=data, schema=json_schema)] on an object
    schema: the path and message of a violation, or [None].  An
    undeclared key violates [additionalProperties], a missing required
    name violates [required], a declared key is checked against its
    subschema.  Which violation is reported when there are several is the
    library's choice and is not modelled beyond this order; of several
    undeclared keys, which the library lists in one message, the model
    names one. *)
Definition jsonschema_validate (instance : gmap string obj) (js : JsonSchema)
    : res (option (string * string)) :=
  match check_schema_raises (js_properties js) with
  | Some e => Raise e
  | None =>
      let undeclared :=
        if js_additional_properties js then []
        else List.filter (λ key, bool_decide (property_of (js_properties js) key = None))
                         (map fst (map_to_list instance)) in
      let missing :=
        List.filter (λ name, match name with
                             | VStr n => negb (contains instance n)
                             | _ => true
                             end)
                    (js_required js) in
      let violations :=
        omap (λ '(key, v),
                prop ← property_of (js_properties js) key;
                msg ← property_violation prop v;
                Some ("$." +:+ key, msg))
             (map_to_list instance) in
      match undeclared, missing, violations with
      | key :: _, _, _ =>
          mret (Some ("$", "Additional properties are not allowed ('" +:+ key
                           +:+ "' was unexpected)"))
      | [], name :: _, _ =>
          mret (Some ("$", "'" +:+ py_str name +:+ "' is a required property"))
      | [], [], violation :: _ => mret (Some violation)
      | [], [], [] => mret None
      end
  end.

(** [_validate_with_jsonschema(data, schema)]. *)
Definition _validate_with_jsonschema (data schema : gmap string obj) : validation :=
  match (json_schema ← schema_to_json_schema schema;
         jsonschema_validate data json_schema) with
  | Raise e => unexpected e
  | Ok (Some (json_path, message)) =>
      (false, None,
       Some ("Error de validación en '" +:+ json_path +:+ "': " +:+ message))
  | Ok None => (true, Some data, None)
  end.

(** [validate_extraction(data, schema, use_pydantic=True)]. *)
Definition validate_extraction (data schema : gmap string obj)
    (use_pydantic : bool) : validation :=
  if use_pydantic then _validate_with_pydantic data schema
  else _validate_with_jsonschema data schema.

(** ** Parsing the response text *)

Definition fence : string := "```".

(** [lines[:-1]]. *)
Definition drop_last {A} (l : list A) : list A := removelast l.

(** The removal of a Markdown code fence around the text. *)
Definition strip_fences (text : string) : string :=
  if startswith fence text then
    let lines := split_lines text in
    let lines := match lines with
                 | first :: rest => if startswith fence first then rest else lines
                 | [] => lines
                 end in
    let lines := match last lines with
                 | Some l => if String.eqb (strip l) fence then drop_last lines else lines
                 | None => lines
                 end in
    join newline lines
  else text.

(** [parse_json_safely(text)]: the pair [(datos_parseados, error)]; an
    exception of [json.loads] other than [JSONDecodeError] is not caught. *)
Definition parse_json_safely (text : string)
    : res (option (gmap string obj) * option string) :=
  let text := strip_fences (strip text) in
  try_except
    (data ← json_loads text;
     match data with
     | VDict d => mret (Some d, None)
     | _ => mret (None, Some "El JSON parseado no es un objeto")
     end)
    [JSONDecodeError]
    (λ e, mret (None, Some ("Error parseando JSON: " +:+ exn_str e))).

(** [generate_correction_prompt(original_response, validation_error, schema)]. *)
Definition generate_correction_prompt (original_response validation_error : string)
    (schema : gmap string obj) : string :=
  join newline
    ["Tu respuesta anterior no pudo validarse correctamente.";
     "";
     "Error encontrado:";
     validation_error;
     "";
     "Tu respuesta original fue:";
     slice_to (Z.to_nat 500) original_response +:+ "...";
     "";
     "Por favor, corrige el JSON para que cumpla exactamente con el esquema requerido.";
     "Asegúrate de:";
     "1. Que el JSON sea válido (sin comas extra, comillas correctas)";
     "2. Que todos los campos required estén presentes";
     "3. Que los tipos de datos sean correctos (integer como número, no string)";
     "4. Que los valores categorical sean exactamente uno de los permitidos";
     "5. Que las listas tengan el formato correcto";
     "";
     "Responde ÚNICAMENTE con el JSON corregido, sin explicaciones ni markdown."].

End WithLibraries.
End Validator.

(* ===================================================================== *)
(** * llm_client/prompt_templates.py                                      *)
(* ===================================================================== *)

Module PromptTemplates.

Definition template_of (titulo experiencia_campo descripcion_experiencia exclusiones
    rango_edad conocimientos_relevantes industrias_relevantes : string)
    : gmap string obj :=
  list_to_map
    [("titulo", VStr titulo);
     ("experiencia_campo", VStr experiencia_campo);
     ("descripcion_experiencia", VStr descripcion_experiencia);
     ("exclusiones", VStr exclusiones);
     ("rango_edad", VStr rango_edad);
     ("conocimientos_relevantes", VStr conocimientos_relevantes);
     ("industrias_relevantes", VStr industrias_relevantes)].

Definition personalizado_template : gmap string obj :=
  template_of "" "experiencia_confirmada" "" "" "25-45" "" "".

(** [ESPECIALIDAD_TEMPLATES.get(especialidad, ESPECIALIDAD_TEMPLATES["personalizado"])]. *)
Definition ESPECIALIDAD_TEMPLATES (especialidad : string) : gmap string obj :=
  if String.eqb especialidad "electricista" then
    template_of "Electricista de Mantenimiento Industrial"
      "experiencia_electricista_confirmada"
      "trabajo previo con tareas de mantenimiento eléctrico, electricidad industrial, electrónica industrial"
      "electricidad de obra de construcción" "25-45"
      "PLC, electricidad industrial, neumática, electrónica"
      "fábricas industriales y rubros afines alimenticio"
  else if String.eqb especialidad "electromecanico" then
    template_of "Electromecánico de Mantenimiento Industrial"
      "experiencia_electromecanico_confirmada"
      "trabajo previo con tareas de mantenimiento electromecánico industrial"
      "electricidad de obra de construcción" "25-45"
      "PLC, electricidad industrial, neumática, electromecánica"
      "fábricas industriales y rubros afines alimenticio"
  else if String.eqb especialidad "mecanico" then
    template_of "Mecánico Industrial"
      "experiencia_mecanico_industrial_confirmada"
      "trabajo previo con tareas de mantenimiento mecánico, soldador industrial"
      "mecánico de obra de construcción" "25-45"
      "soldadura de caños pequeñas medidas, soldaduras piping"
      "fábricas industriales"
  else if String.eqb especialidad "pañolero" then
    template_of "Pañolero Industrial"
      "experiencia_pañol_depositos_confirmada"
      "trabajo previo con tareas de pañol industrial, depósitos"
      "ninguna" "25-50"
      "PLC, electricidad industrial, neumática, electrónica, hidráulica"
      "fábricas industriales y rubros afines alimenticio"
  else personalizado_template.

Definition DEFAULT_SCORE_CRITERIA : string :=
  join newline
    ["🎯 Criterios para el score (1-10):";
     "";
     "Educación relevante (hasta 2 puntos):";
     "• +1 si culminó el secundario";
     "• +1 si el secundario es técnico";
     "";
     "Experiencia (hasta 4 puntos):";
     "• +1 si tiene más de 2 años";
     "• +1 si tiene más de 3 años";
     "• +1 si trabajó en fábricas industriales y rubros afines";
     "• +1 si tuvo responsabilidades específicas o lideró tareas";
     "";
     "Claridad y presentación del CV (hasta 1 punto):";
     "• 1 punto si está bien organizado, con fechas y descripciones claras";
     "";
     "Conocimientos técnicos (hasta 2 puntos):";
     "• Presencia de conocimientos relevantes para la posición";
     "";
     "Ubicación geográfica (hasta 1 punto):";
     "• +1 si reside en la zona objetivo o radio cercano";
     "";
     "Penalizaciones:";
     "• -2 puntos si el candidato tiene 2 o más oficios NO relacionados a electricidad (ej: plomero, durlero, gasista, etc.)"].

(** The attributes of a [PromptConfig]. *)
Record PromptConfig := mk_prompt_config {
  especialidad : string;
  localidad : string;
  radio_km : Z;
  criterios_score : string;
  campos_adicionales : gmap string obj;
  template : gmap string obj
}.

(** [PromptConfig.__init__]. *)
Definition PromptConfig_init (especialidad localidad : string) (radio_km : Z)
    (criterios_score : option string)
    (campos_adicionales : option (gmap string obj)) : PromptConfig :=
  let criterios :=
    match criterios_score with
    | Some c => if String.eqb c "" then DEFAULT_SCORE_CRITERIA else c
    | None => DEFAULT_SCORE_CRITERIA
    end in
  let campos := default ∅ campos_adicionales in
  let template := ESPECIALIDAD_TEMPLATES especialidad in
  let template :=
    if String.eqb especialidad "personalizado" && negb (bool_decide (campos = ∅))
    then campos ∪ template else template in
  mk_prompt_config especialidad localidad radio_km criterios campos template.

(** [create_default_config()]. *)
Definition create_default_config : PromptConfig :=
  PromptConfig_init "personalizado" "Buenos Aires" 10 (Some DEFAULT_SCORE_CRITERIA) None.

Section WithText.
Context `{PyText}.

(** [get_system_prompt()]. *)
Definition get_system_prompt (self : PromptConfig) : string :=
  join newline
    ["Sos un analista de recursos humanos especializado en perfiles técnicos.";
     "Tu tarea es analizar el contenido de UN SOLO CV y devolver un JSON con información estructurada del candidato.";
     "";
     "IMPORTANTE:";
     "- Debes responder EXCLUSIVAMENTE con JSON válido";
     "- No incluyas explicaciones, comentarios ni texto adicional";
     "- El JSON debe cumplir exactamente con el esquema proporcionado";
     "- Si un campo no puede deducirse con alta confianza, usa null, false o lista vacía []";
     "- Para campos numéricos, usa números (no strings)";
     "- Para campos booleanos, usa true o false (no strings)";
     "- Para campos categorical, usa exactamente uno de los valores permitidos";
     "- Sé preciso y conservador: mejor null/false que inventar información";
     "- Si un campo no se menciona explícitamente, asumí que es falso o null"].

(** [get_user_prompt_header(schema)]. *)
Definition get_user_prompt_header (self : PromptConfig) : string :=
  let titulo := get (template self) "titulo" (VStr "Perfil Técnico") in
  let header := "Vas a analizar un CV para una posición de: " +:+ py_str titulo in
  if negb (String.eqb (localidad self) "") then
    header +:+ newline +:+ "Ubicación de la posición: " +:+ localidad self +:+ ", Argentina"
    +:+ newline +:+ "Radio aceptable: " +:+ str_of_int (radio_km self) +:+ " km"
  else header.

(** [get_field_definitions()]. *)
Definition get_field_definitions (self : PromptConfig) : res string :=
  let experiencia_campo := get (template self) "experiencia_campo" (VStr "experiencia_confirmada") in
  let descripcion_exp := get (template self) "descripcion_experiencia" (VStr "") in
  let exclusiones := get (template self) "exclusiones" (VStr "") in
  let rango_edad := get (template self) "rango_edad" (VStr "25-45") in
  let definitions :=
    join newline
      ["";
       "Definiciones para campos específicos:";
       "";
       "• primaria_completa: true si se menciona finalización de estudios primarios";
       "• secundaria_completa: true si terminó la secundaria (aclarar si es escuela técnica)";
       "• terciario_completo: true si cursó y finalizó una tecnicatura relacionada";
       "• " +:+ py_str experiencia_campo +:+ ": true si se menciona "
         +:+ py_str descripcion_exp
         +:+ " y se puede corroborar con fechas o descripciones"] in
  let definitions :=
    if truthy exclusiones
    then definitions +:+ newline +:+ "  False si menciona " +:+ py_str exclusiones
    else definitions in
  match rango_edad with
  | VStr rango =>
      let definitions :=
        match split_on "-" rango with
        | [lo; hi] =>
            definitions +:+ newline +:+ "• edad_en_rango: true si edad está entre "
            +:+ lo +:+ " y " +:+ hi +:+ " años, false en otro caso"
        | _ => definitions
        end in
      mret (definitions +:+ newline
            +:+ "• lugar_residencia_proximo: true si reside en un radio menor o igual a "
            +:+ str_of_int (radio_km self) +:+ "km de " +:+ localidad self)
  | _ => raise AttributeError "object has no attribute 'split'"
  end.

(** [get_score_instructions()]. *)
Definition get_score_instructions (self : PromptConfig) : string :=
  join newline
    ["";
     "score_general: Número del 1 al 10 según los siguientes criterios:";
     "";
     criterios_score self;
     "";
     "IMPORTANTE: Evalúa cuidadosamente cada criterio y asigna puntos justificados."].

(** The bounds shown for an [integer]: [" (min=.., max=..)"]. *)
Definition range_info (var : gmap string obj) : string :=
  if contains var "min" || contains var "max" then
    " (" +:+ join ", "
               ((match var !! "min" with
                 | Some m => ["min=" +:+ py_str m]
                 | None => []
                 end ++
                 match var !! "max" with
                 | Some m => ["max=" +:+ py_str m]
                 | None => []
                 end)%list)
    +:+ ")"
  else "".

(** The description of the type of a variable, the middle of its line. *)
Definition type_description (var : gmap string obj) (var_type : obj) : res string :=
  if eq_str var_type "string" then mret (dq +:+ "string" +:+ dq)
  else if eq_str var_type "boolean" then mret "true o false"
  else if eq_str var_type "integer" then mret ("number (entero)" +:+ range_info var)
  else if eq_str var_type "categorical" then
    allowed_values ← getitem var "allowed_values";
    values ← iter_list allowed_values;
    let allowed := join ", " (map (λ v, dq +:+ py_str v +:+ dq) values) in
    mret ("uno de: [" +:+ allowed +:+ "]")
  else if eq_str var_type "list[string]" then
    mret ("[" +:+ dq +:+ "string" +:+ dq +:+ ", ...]")
  else if eq_str var_type "list[object]" then mret "[{...}, ...]"
  else mret (py_str var_type).

(** The line [format_schema_for_prompt] appends for one variable. *)
Definition format_variable (var : obj) : res string :=
  match var with
  | VDict d =>
      name ← getitem d "name";
      var_type ← getitem d "type";
      let required := get d "required" (VBool false) in
      description ← type_description d var_type;
      mret ("  " +:+ dq +:+ py_str name +:+ dq +:+ ": " +:+ description
            +:+ (if truthy required then " [REQUERIDO]"
                 else " [opcional, puede ser null]"))
  | _ => raise TypeError "indices must be integers or the object is not subscriptable"
  end.

Definition schema_header : string := "Esquema JSON requerido:" +:+ newline +:+ "{".

(** The list [lines] just before it is joined. *)
Definition schema_prompt_lines (schema : gmap string obj) : res (list string) :=
  variables ← getitem schema "variables";
  vars ← iter_list variables;
  lines ← mapM format_variable vars;
  mret ([schema_header] ++ lines ++ ["}"])%list.

(** [format_schema_for_prompt(schema)]. *)
Definition format_schema_for_prompt (self : PromptConfig)
    (schema : gmap string obj) : res string :=
  lines ← schema_prompt_lines schema;
  mret (join newline lines).

(** [build_full_prompt(cv_text, schema)]. *)
Definition build_full_prompt (self : PromptConfig) (cv_text : string)
    (schema : gmap string obj) : res (string * string) :=
  let system_prompt := get_system_prompt self in
  schema_text ← format_schema_for_prompt self schema;
  field_definitions ← get_field_definitions self;
  let user_prompt_parts :=
    [get_user_prompt_header self;
     "";
     schema_text;
     "";
     field_definitions;
     "";
     get_score_instructions self;
     "";
     "Instrucciones adicionales:";
     "• Para 'edad': extrae la edad en años si se menciona explícitamente";
     "• Para 'localidad_residencia': extrae la localidad/ciudad donde reside (ej: 'Lanús, Buenos Aires')";
     "• Para 'años_experiencia': suma todos los años de experiencia laboral relevante";
     "• Para 'nivel_educativo_alcanzado': elige el nivel MÁS ALTO alcanzado";
     "• Para 'stack_tecnológico': lista todas las tecnologías, lenguajes y frameworks mencionados";
     "• Para 'idiomas': extrae idioma y nivel (si se menciona)";
     "• Para 'emails' y 'teléfonos': extrae exactamente como aparecen";
     "• Para 'observaciones': escribe un resumen del perfil en MÁXIMO 3 oraciones destacando:";
     "  - Aspectos relevantes NO capturados en otros campos";
     "  - Soft skills o habilidades interpersonales mencionadas";
     "  - Proyectos especiales, logros o certificaciones adicionales";
     "  - Cualquier información diferenciadora del candidato";
     "• Si no encuentras información para un campo, usa null, false o [] (no inventes)";
     "";
     "Texto del CV a analizar:";
     "---";
     slice_to (Z.to_nat 10000) cv_text;
     "---";
     "";
     "Responde SOLO con el JSON, sin explicaciones adicionales."] in
  mret (system_prompt, join newline user_prompt_parts).

End WithText.
End PromptTemplates.

(* ===================================================================== *)
(** * llm_client: the provider, the clients and the correction retry      *)
(* ===================================================================== *)

Module LLMClient.
Import YamlLoader Validator PromptTemplates.

(** The arguments of one chat-completion call. *)
Record Request := mk_request {
  req_model : string;
  req_system : string;
  req_user : string;
  req_temperature : pyfloat;
  req_max_tokens : option Z
}.

(** The attributes of a client set by [BaseLLMClient.__init__]. *)
Record Client := mk_client {
  model : string;
  temperature : pyfloat;
  max_tokens : option Z
}.

(** The float literal [0.1]: the binary64 number nearest to one tenth. *)
Definition float_0_1 : pyfloat := FNum 3602879701896397 (-55).

(** The model provider: from its current state and a request it gives the
    text of the first choice, or raises, and moves to a new state. *)
Class Provider := {
  provider : Type;
  complete : Request → provider → res string * provider
}.

Section WithProvider.
Context `{PyText} `{Pydantic} `{JsonLib} `{Provider}.

(** The world a client acts on: the provider and the log of the requests
    sent to it, oldest first. *)
Record World := mk_world {
  provider_state : provider;
  calls : list Request
}.

(** Computations that call the provider and may raise. *)
Definition M (A : Type) : Type := World → res A * World.

Definition M_ret {A} (a : A) : M A := λ w, (Ok a, w).

Definition M_bind {A B} (f : A → M B) (c : M A) : M B :=
  λ w, match c w with
       | (Ok a, w') => f a w'
       | (Raise e, w') => (Raise e, w')
       end.

#[export] Instance M_mret : MRet M := @M_ret.
#[export] Instance M_mbind : MBind M := @M_bind.

(** A computation that does not touch the provider. *)
Definition lift {A} (c : res A) : M A := λ w, (c, w).

(** [try: c except Exception as e: raise Exception(prefix + str(e))]. *)
Definition rewrap {A} (prefix : string) (c : M A) : M A :=
  λ w, match c w with
       | (Ok a, w') => (Ok a, w')
       | (Raise e, w') => (raise Exception_ (prefix +:+ exn_str e), w')
       end.

(** [self.client.chat.completions.create(...)] followed by
    [response.choices[0].message.content]. *)
Definition chat_completion (request : Request) : M string :=
  λ w, let '(outcome, p) := complete request (provider_state w) in
       (outcome, mk_world p (calls w ++ [request])%list).

(** The [retry] decorator of tenacity with [stop_after_attempt(n)],
    [retry_if_exception_type((Exception,))] (also its default) and
    [reraise=True]: the call is repeated while it raises and fewer than
    [n] attempts were made, and the last exception is raised again.  The
    waits between attempts are not modelled. *)
Fixpoint retrying {A} (further_attempts : nat) (attempt : M A) : M A :=
  λ w, match attempt w with
       | (Ok a, w') => (Ok a, w')
       | (Raise e, w') =>
           match further_attempts with
           | O => (Raise e, w')
           | S n => retrying n attempt w'
           end
       end.

Definition retry {A} (stop_after_attempt : nat) (attempt : M A) : M A :=
  retrying (stop_after_attempt - 1) attempt.

(** [if parse_error:] on the second component of [parse_json_safely]. *)
Definition error_text (parse_error : option string) : option string :=
  match parse_error with
  | Some msg => if String.eqb msg "" then None else Some msg
  | None => None
  end.

(** [validate_extraction(data, schema)] on the first component of
    [parse_json_safely]; [None] has no [copy]. *)
Definition validate_parsed (data : option (gmap string obj))
    (schema : gmap string obj) : validation :=
  match data with
  | Some d => validate_extraction d schema true
  | None => unexpected (mk_exn AttributeError "'NoneType' object has no attribute 'copy'")
  end.

Definition correction_addendum (user_prompt correction_prompt : string) : string :=
  join newline
    [user_prompt;
     "";
     "---";
     "IMPORTANTE: Tu respuesta anterior tuvo el siguiente error:";
     correction_prompt;
     "";
     "Por favor, genera una respuesta completa y correcta que incluya TODOS los campos del schema."].

(** The validated dictionary of a successful [validate_extraction]. *)
Definition validated_or_empty (validated_data : option (gmap string obj))
    : gmap string obj :=
  default ∅ validated_data.

End WithProvider.
End LLMClient.

(** ** llm_client/openai_client.py *)

Module OpenAIClient.
Import YamlLoader Validator PromptTemplates LLMClient.
Section WithProvider.
Context `{PyText} `{Pydantic} `{JsonLib} `{Provider}.

(** [OpenAIClient._build_extraction_prompt]. *)
Definition _build_extraction_prompt (self : Client) (text : string)
    (schema : gmap string obj) (prompt_config : option PromptConfig)
    : res (string * string) :=
  let prompt_config := default create_default_config prompt_config in
  build_full_prompt prompt_config text schema.

(** [OpenAIClient._retry_with_correction]. *)
Definition _retry_with_correction (self : Client) (correction_prompt : string)
    (schema : gmap string obj) (retry_count : nat) (text : string)
    (prompt_config : option PromptConfig) : M (gmap string obj) :=
  '(system_prompt, user_prompt) ←
     lift (_build_extraction_prompt self text schema prompt_config);
  let full_user_prompt := correction_addendum user_prompt correction_prompt in
  response_text ←
    rewrap ("Error en reintento " +:+ str_of_nat retry_count +:+ ": ")
      (chat_completion
         (mk_request (model self) system_prompt full_user_prompt
                     float_0_1 (max_tokens self)));
  '(data, parse_error) ← lift (parse_json_safely response_text);
  match error_text parse_error with
  | Some parse_error =>
      lift (raise ValueError
              ("Error parseando JSON en reintento " +:+ str_of_nat retry_count
               +:+ ": " +:+ parse_error))
  | None =>
      let '(is_valid, validated_data, validation_error) :=
        validate_parsed data schema in
      if negb is_valid then
        lift (raise ValueError
                ("Validación falló en reintento " +:+ str_of_nat retry_count
                 +:+ ": " +:+ py_str (from_option VStr VNone validation_error)))
      else mret (validated_or_empty validated_data)
  end.

(** The body of [OpenAIClient.extract_profile], without its decorator. *)
Definition extract_profile_body (self : Client) (text : string)
    (schema : gmap string obj) (prompt_config : option PromptConfig)
    (retry_count : nat) : M (gmap string obj) :=
  let prompt_config := Some (default create_default_config prompt_config) in
  '(system_prompt, user_prompt) ←
     lift (_build_extraction_prompt self text schema prompt_config);
  response_text ←
    rewrap "Error llamando a OpenAI API: "
      (chat_completion
         (mk_request (model self) system_prompt user_prompt
                     (temperature self) (max_tokens self)));
  '(data, parse_error) ← lift (parse_json_safely response_text);
  match error_text parse_error with
  | Some parse_error =>
      if Nat.ltb retry_count 1 then
        let correction_prompt :=
          generate_correction_prompt response_text parse_error schema in
        _retry_with_correction self correction_prompt schema (retry_count + 1)
                               text prompt_config
      else
        lift (raise ValueError
                ("No se pudo parsear JSON después de "
                 +:+ str_of_nat (retry_count + 1) +:+ " intentos: " +:+ parse_error))
  | None =>
      let '(is_valid, validated_data, validation_error) :=
        validate_parsed data schema in
      if negb is_valid then
        let validation_error := py_str (from_option VStr VNone validation_error) in
        if Nat.ltb retry_count 1 then
          let correction_prompt :=
            generate_correction_prompt response_text validation_error schema in
          _retry_with_correction self correction_prompt schema (retry_count + 1)
                                 text prompt_config
        else
          lift (raise ValueError
                  ("Validación falló después de "
                   +:+ str_of_nat (retry_count + 1) +:+ " intentos: "
                   +:+ validation_error))
      else mret (validated_or_empty validated_data)
  end.

(** [OpenAIClient.extract_profile], decorated with
    [@retry(stop=stop_after_attempt(1), ...)] and called, as everywhere in
    the repository, without a [retry_count]. *)
Definition extract_profile (self : Client) (text : string)
    (schema : gmap string obj) (prompt_config : option PromptConfig)
    : M (gmap string obj) :=
  retry 1 (extract_profile_body self text schema prompt_config 0).

End WithProvider.
End OpenAIClient.

(** ** llm_client/litellm_client.py *)

Module LiteLLMClient.
Import YamlLoader Validator PromptTemplates LLMClient.
Section WithProvider.
Context `{PyText} `{Pydantic} `{JsonLib} `{Provider}.

(** [kwargs["max_tokens"]], set only [if self.max_tokens:].  The
    [api_base] of the client is not part of the modelled request. *)
Definition given_max_tokens (self : Client) : option Z :=
  match max_tokens self with
  | Some n => if n =? 0 then None else Some n
  | None => None
  end.

(** [LiteLLMClient._build_extraction_prompt]. *)
Definition _build_extraction_prompt (self : Client) (text : string)
    (schema : gmap string obj) (prompt_config : option PromptConfig)
    : res (string * string) :=
  let prompt_config := default create_default_config prompt_config in
  build_full_prompt prompt_config text schema.

(** [LiteLLMClient._retry_with_correction]. *)
Definition _retry_with_correction (self : Client) (correction_prompt : string)
    (schema : gmap string obj) (retry_count : nat) (text : string)
    (prompt_config : option PromptConfig) : M (gmap string obj) :=
  '(system_prompt, user_prompt) ←
     lift (_build_extraction_prompt self text schema prompt_config);
  let full_user_prompt := correction_addendum user_prompt correction_prompt in
  response_text ←
    rewrap "Error en reintento: "
      (chat_completion
         (mk_request (model self) system_prompt full_user_prompt
                     float_0_1 (given_max_tokens self)));
  '(data, parse_error) ← lift (parse_json_safely response_text);
  match error_text parse_error with
  | Some parse_error =>
      lift (raise ValueError ("Error parseando JSON en reintento: " +:+ parse_error))
  | None =>
      let '(is_valid, validated_data, validation_error) :=
        validate_parsed data schema in
      if negb is_valid then
        lift (raise ValueError
                ("Validación falló en reintento: "
                 +:+ py_str (from_option VStr VNone validation_error)))
      else mret (validated_or_empty validated_data)
  end.

(** The body of [LiteLLMClient.extract_profile], without its decorator. *)
Definition extract_profile_body (self : Client) (text : string)
    (schema : gmap string obj) (prompt_config : option PromptConfig)
    (retry_count : nat) : M (gmap string obj) :=
  let prompt_config := Some (default create_default_config prompt_config) in
  '(system_prompt, user_prompt) ←
     lift (_build_extraction_prompt self text schema prompt_config);
  response_text ←
    rewrap "Error llamando a LiteLLM: "
      (chat_completion
         (mk_request (model self) system_prompt user_prompt
                     (temperature self) (given_max_tokens self)));
  '(data, parse_error) ← lift (parse_json_safely response_text);
  match error_text parse_error with
  | Some parse_error =>
      if Nat.ltb retry_count 1 then
        let correction_prompt :=
          generate_correction_prompt response_text parse_error schema in
        _retry_with_correction self correction_prompt schema (retry_count + 1)
                               text prompt_config
      else
        lift (raise ValueError ("No se pudo parsear JSON: " +:+ parse_error))
  | None =>
      let '(is_valid, validated_data, validation_error) :=
        validate_parsed data schema in
      if negb is_valid then
        let validation_error := py_str (from_option VStr VNone validation_error) in
        if Nat.ltb retry_count 1 then
          let correction_prompt :=
            generate_correction_prompt response_text validation_error schema in
          _retry_with_correction self correction_prompt schema (retry_count + 1)
                                 text prompt_config
        else
          lift (raise ValueError ("Validación falló: " +:+ validation_error))
      else mret (validated_or_empty validated_data)
  end.

(** [LiteLLMClient.extract_profile], decorated with
    [@retry(stop=stop_after_attempt(3), ...)] and called, as everywhere in
    the repository, without a [retry_count]. *)
Definition extract_profile (self : Client) (text : string)
    (schema : gmap string obj) (prompt_config : option PromptConfig)
    : M (gmap string obj) :=
  retry 3 (extract_profile_body self text schema prompt_config 0).

End WithProvider.
End LiteLLMClient.

(* ===================================================================== *)
(** * parsing, ingestion: the collaborators of the pipeline               *)
(* ===================================================================== *)

Module Collaborators.

Definition bytes : Type := string.

(** What the storage and document libraries do, and the two helpers of
    the repository whose result is only passed on: the normalisation of
    the text ([utils/text_clean.py]) and the OCR parser
    ([parsing/ocr.py]), which gives the text, whether a photo was found
    and the number of images. *)
Class Libraries := {
  normalize_text : string → string;
  sha1_hexdigest : bytes → string;
  drive_get_media : string → res bytes;
  parse_with_docling : option bytes → string → res (string * bool * Z);
  _parse_with_pymupdf : option bytes → res string;
  _parse_with_pdfplumber : option bytes → res string;
  docx_text_parts : option bytes → res (list string)
}.

(** What a parser returns: the text, or with OCR the dictionary with
    ["text"], ["has_photo"] and ["images_count"]. *)
Inductive parsed :=
| PText (text : string)
| PDoc (text : string) (has_photo : bool) (images_count : Z).

Section WithLibraries.
Context `{Libraries}.

(** [download_file(file_id, service)] of [ingestion/drive.py], with a
    service. *)
Definition download_file (file_id : string) : res bytes :=
  try_except (drive_get_media file_id) [Exception_]
    (λ e, raise Exception_
            ("Error descargando archivo " +:+ file_id +:+ ": " +:+ exn_str e)).

(** [compute_hash(content)] of [ingestion/hashing.py], with the default
    algorithm. *)
Definition compute_hash (content : bytes) : string := sha1_hexdigest content.

(** What the traditional parsers return for an extracted text. *)
Definition traditional (use_ocr : bool) (text : string) : parsed :=
  if use_ocr then PDoc text false 0 else PText text.

(** The part of [parse_pdf] after the OCR attempt: pymupdf, then
    pdfplumber. *)
Definition parse_pdf_traditional (file_content : option bytes) (use_ocr : bool)
    : res parsed :=
  let first :=
    try_except
      (text ← _parse_with_pymupdf file_content;
       mret (if negb (String.eqb (strip text) "") then Some text else None))
      [Exception_]
      (λ _, mret None) in
  match first with
  | Ok (Some text) => mret (traditional use_ocr text)
  | Ok None =>
      try_except
        (text ← _parse_with_pdfplumber file_content;
         if negb (String.eqb (strip text) "") then mret (traditional use_ocr text)
         else raise ValueError "El PDF no contiene texto extraíble")
        [Exception_]
        (λ e, raise ValueError
                ("Error parseando PDF con ambos métodos: " +:+ exn_str e))
  | Raise e => Raise e
  end.

(** The OCR attempt that opens both parsers: its result, or [None] when
    it raised and the traditional method takes over. *)
Definition ocr_attempt (file_content : option bytes) (mime_type : string)
    : option parsed :=
  match parse_with_docling file_content mime_type with
  | Ok (text, has_photo, images_count) => Some (PDoc text has_photo images_count)
  | Raise _ => None
  end.

(** [parse_pdf(file_content, use_ocr)]. *)
Definition parse_pdf (file_content : option bytes) (use_ocr : bool) : res parsed :=
  match (if use_ocr then ocr_attempt file_content "application/pdf" else None) with
  | Some result => mret result
  | None => parse_pdf_traditional file_content use_ocr
  end.

(** [parse_docx(file_content, use_ocr)]. *)
Definition parse_docx (file_content : option bytes) (use_ocr : bool) : res parsed :=
  match (if use_ocr
         then ocr_attempt file_content
                "application/vnd.openxmlformats-officedocument.wordprocessingml.document"
         else None) with
  | Some result => mret result
  | None =>
      try_except
        (text_parts ← docx_text_parts file_content;
         match text_parts with
         | [] => raise ValueError "El documento DOCX no contiene texto extraíble"
         | _ => mret (traditional use_ocr (join (newline +:+ newline) text_parts))
         end)
        [Exception_]
        (λ e, raise ValueError ("Error parseando DOCX: " +:+ exn_str e))
  end.

End WithLibraries.
End Collaborators.

(* ===================================================================== *)
(** * app.py: derived fields and per-document processing                  *)
(* ===================================================================== *)

Module App.
Import YamlLoader Validator PromptTemplates LLMClient Collaborators.

(** ** [calculate_derived_fields] *)

Fixpoint common_prefix (a b : list nat) : list nat :=
  match a, b with
  | x :: a', y :: b' => if Nat.eqb x y then x :: common_prefix a' b' else []
  | _, _ => []
  end.

Definition common_shape (shapes : list (list nat)) : list nat :=
  match shapes with
  | [] => []
  | s :: rest => foldl common_prefix s rest
  end.

(** The shape of [np.asarray(v, dtype=object)]: nested lists become
    dimensions as far as their lengths agree; strings, dictionaries and
    the other objects are elements. *)
Fixpoint np_shape (v : obj) : list nat :=
  match v with
  | VList l => List.length l :: common_shape (List.map np_shape l)
  | _ => []
  end.

(** The element of an array that has exactly one. *)
Fixpoint sole_element (v : obj) : obj :=
  match v with
  | VList l => match l with
               | [x] => sole_element x
               | _ => v
               end
  | _ => v
  end.

(** [pd.isna] on one object: [None] and NaN are missing. *)
Definition is_missing (v : obj) : bool :=
  match v with
  | VNone | VFloat FNan => true
  | _ => false
  end.

(** The truth value of [pd.isna(value)], as the [if] of [to_bool] takes
    it.  For a list [pd.isna] returns an array, whose truth value exists
    only when it has one element; for an empty array NumPy 2.2 and later
    raise as well, which is what is modelled (earlier versions warn and
    give [False]). *)
Definition isna_truth (value : obj) : res bool :=
  match value with
  | VList _ =>
      match foldr Nat.mul 1%nat (np_shape value) with
      | 1%nat => Ok (is_missing (sole_element value))
      | O =>
          raise ValueError
            "The truth value of an empty array is ambiguous. Use `array.size > 0` to check that an array is not empty."
      | _ =>
          raise ValueError
            "The truth value of an array with more than one element is ambiguous. Use a.any() or a.all()"
      end
  | _ => Ok (is_missing value)
  end.

(** The local function [to_bool] of [calculate_derived_fields]. *)
Definition to_bool (value : obj) : res bool :=
  match value with
  | VNone => Ok false
  | _ =>
      if eq_str value "" then Ok false
      else
        missing ← isna_truth value;
        if (missing : bool) then Ok false
        else match value with
             | VBool b => Ok b
             | VStr s => Ok (str_in (lower s) ["true"; "yes"; "sí"; "si"; "1"])
             | VInt _ | VFloat _ => Ok (truthy value)
             | _ => Ok false
             end
  end.

Definition possible_exp_fields : list string :=
  ["experiencia_electricista_confirmada";
   "experiencia_electromecanico_confirmada";
   "experiencia_mecanico_industrial_confirmada";
   "experiencia_pañol_depositos_confirmada";
   "experiencia_confirmada"].

(** The loop over [possible_exp_fields]: the first field present decides,
    [False] when none is. *)
Fixpoint experiencia_confirmada_of (fields : list string)
    (result : gmap string obj) : res bool :=
  match fields with
  | [] => Ok false
  | field :: rest =>
      if contains result field then to_bool (get result field (VBool false))
      else experiencia_confirmada_of rest result
  end.

(** The value computed for ["preaprobado"]. *)
Definition preaprobado_value (result : gmap string obj) : res bool :=
  edad_en_rango ← to_bool (get result "edad_en_rango" (VBool false));
  experiencia_confirmada ← experiencia_confirmada_of possible_exp_fields result;
  hay_foto ← to_bool (get result "hay_foto_en_cv" (VBool false));
  secundaria_tecnica ← to_bool (get result "secundaria_tecnica" (VBool false));
  mret (edad_en_rango && experiencia_confirmada && hay_foto && secundaria_tecnica).

(** [calculate_derived_fields(result)].  The dictionary is updated in
    place and returned: the first component is its content when the call
    ends, the second tells whether the call returned (that dictionary) or
    raised. *)
Definition calculate_derived_fields (result : gmap string obj)
    : gmap string obj * res unit :=
  match preaprobado_value result with
  | Ok value => (<["preaprobado" := VBool value]> result, Ok tt)
  | Raise e => (result, Raise e)
  end.

(** ** [process_single_cv] and the loop of [process_all_cvs] *)

(** The entries of a [file_info] dictionary, as the application builds
    them for uploaded and for Drive files; [content] is [None] until a
    Drive file is downloaded, [file_id] exists for Drive files only. *)
Record FileInfo := mk_file_info {
  fi_name : string;
  fi_source : string;
  fi_link : option string;
  fi_content : option bytes;
  fi_file_id : option string;
  fi_mime_type : string
}.

Section WithEverything.
Context `{PyText} `{Pydantic} `{JsonLib} `{Provider} `{Libraries}.

(** [parse_file(content, mime_type, use_ocr)]. *)
Definition parse_file (content : option bytes) (mime_type : string)
    (use_ocr : bool) : res parsed :=
  if has_substring "pdf" (lower mime_type) then parse_pdf content use_ocr
  else if has_substring "word" (lower mime_type)
          || has_substring "docx" (lower mime_type) then parse_docx content use_ocr
  else raise ValueError ("Tipo de archivo no soportado: " +:+ mime_type).

(** The dictionary the OCR parser returns, for [str(parsed_result)]. *)
Definition parsed_dict (text : string) (has_photo : bool) (images_count : Z) : obj :=
  VDict (list_to_map [("text", VStr text); ("has_photo", VBool has_photo);
                      ("images_count", VInt images_count)]).

(** The text handed to the normalisation: the OCR text, with a note when
    a photo was found, or the plain text. *)
Definition text_of_parsed (use_ocr : bool) (parsed_result : parsed) : string :=
  match parsed_result with
  | PDoc text has_photo images_count =>
      if use_ocr then
        if has_photo then
          "[NOTA: Este CV contiene " +:+ str_of_int images_count
          +:+ " imagen(es)/foto(s)]" +:+ newline +:+ newline +:+ text
        else text
      else py_str (parsed_dict text has_photo images_count)
  | PText text => text
  end.

(** The comprehension that computes [exp_fields], for what it may raise:
    the test ["experiencia" in v["name"]] needs a name that is a string
    or a container. *)
Definition exp_fields_check (schema : gmap string obj) : res unit :=
  variables ← getitem schema "variables";
  vars ← iter_list variables;
  _ ← mapM (λ v, name ← subscript v "name";
                 match name with
                 | VStr _ | VList _ | VDict _ => mret tt
                 | _ => raise TypeError "argument of this type is not iterable"
                 end) vars;
  mret tt.

(** The first lines of the [try] block: the content, and the dictionary
    [result] with the hash of a downloaded file. *)
Definition obtain_content (file_info : FileInfo) (drive_service : option unit)
    (result : gmap string obj) : gmap string obj * res (option bytes) :=
  if String.eqb (fi_source file_info) "local" then (result, Ok (fi_content file_info))
  else
    match drive_service, fi_file_id file_info with
    | None, _ => (result, raise ValueError "Servicio de Google Drive no disponible")
    | Some _, None => (result, key_error "file_id")
    | Some _, Some file_id =>
        match download_file file_id with
        | Ok content => (<["sha1" := VStr (compute_hash content)]> result, Ok (Some content))
        | Raise e => (result, Raise e)
        end
    end.

(** From the content to the text sent to the model. *)
Definition prepare_text (file_info : FileInfo) (schema : gmap string obj)
    (use_ocr : bool) (content : option bytes) : res string :=
  parsed_result ← parse_file content (fi_mime_type file_info) use_ocr;
  let text := normalize_text (text_of_parsed use_ocr parsed_result) in
  if String.eqb (strip text) "" then
    raise ValueError "No se pudo extraer texto del archivo"
  else
    _ ← exp_fields_check schema;
    mret text.

(** The [except Exception as e: result["error"] = str(e)] clause. *)
Definition record_error (result : gmap string obj) (e : exn) (w : World)
    : res (gmap string obj) * World :=
  if caught_by e [Exception_] then (Ok (<["error" := VStr (exn_str e)]> result), w)
  else (Raise e, w).

(** [process_single_cv(file_info, schema, llm_client, prompt_config,
    drive_service, use_ocr)]; the client is given by its
    [extract_profile]. *)
Definition process_single_cv (file_info : FileInfo) (schema : gmap string obj)
    (llm_client : string → gmap string obj → option PromptConfig → M (gmap string obj))
    (prompt_config : PromptConfig) (drive_service : option unit) (use_ocr : bool)
    : M (gmap string obj) :=
  λ w,
  let result : gmap string obj :=
    list_to_map [("archivo", VStr (fi_name file_info));
                 ("fuente", VStr (fi_source file_info));
                 ("link", VStr (default "" (fi_link file_info)));
                 ("error", VStr "")] in
  let '(result, content) := obtain_content file_info drive_service result in
  match content ≫= prepare_text file_info schema use_ocr with
  | Raise e => record_error result e w
  | Ok text =>
      match llm_client text schema (Some prompt_config) w with
      | (Raise e, w') => record_error result e w'
      | (Ok extracted_data, w') =>
          let result := extracted_data ∪ result in
          match calculate_derived_fields result with
          | (result, Ok _) => (Ok result, w')
          | (result, Raise e) => record_error result e w'
          end
      end
  end.

(** [create_llm_client(llm_config, options)], the client being given by
    its [extract_profile]; the API keys that the constructors look for
    are not modelled. *)
Definition create_llm_client (provider_name model_name : string)
    (temperature_option : pyfloat) (max_tokens_option : Z)
    : string → gmap string obj → option PromptConfig → M (gmap string obj) :=
  let self := mk_client model_name temperature_option (Some max_tokens_option) in
  if String.eqb provider_name "OpenAI" then OpenAIClient.extract_profile self
  else LiteLLMClient.extract_profile self.

(** One round of the loop over the completed futures in
    [process_all_cvs]: [future.result()] is what [process_single_cv]
    returned or raised for that file. *)
Definition collect (file_info : FileInfo) (outcome : res (gmap string obj))
    (acc : list (gmap string obj) * list string)
    : list (gmap string obj) * list string :=
  let '(results, errors) := acc in
  match outcome with
  | Ok result =>
      ((results ++ [result])%list,
       if truthy (get result "error" VNone)
       then (errors ++ ["❌ " +:+ fi_name file_info +:+ ": "
                        +:+ py_str (get result "error" VNone)])%list
       else errors)
  | Raise e =>
      ((results ++ [list_to_map [("archivo", VStr (fi_name file_info));
                                 ("fuente", VStr (fi_source file_info));
                                 ("link", VStr (default "" (fi_link file_info)));
                                 ("error", VStr (exn_str e))]])%list,
       (errors ++ ["Error procesando " +:+ fi_name file_info +:+ ": " +:+ exn_str e])%list)
  end.

(** The processing of a batch: the files are taken in the order in which
    their tasks complete, each task runs [process_single_cv], and the
    loop collects [results] and [errors]. *)
Fixpoint process_batch (completed : list FileInfo) (schema : gmap string obj)
    (llm_client : string → gmap string obj → option PromptConfig → M (gmap string obj))
    (prompt_config : PromptConfig) (drive_service : option unit) (use_ocr : bool)
    (acc : list (gmap string obj) * list string) (w : World)
    : (list (gmap string obj) * list string) * World :=
  match completed with
  | [] => (acc, w)
  | file_info :: rest =>
      let '(outcome, w') :=
        process_single_cv file_info schema llm_client prompt_config
                          drive_service use_ocr w in
      process_batch rest schema llm_client prompt_config drive_service use_ocr
                    (collect file_info outcome acc) w'
  end.

End WithEverything.

End App.

(* ===================================================================== *)
(** * Stand-ins for the libraries, for the worked examples                *)
(* ===================================================================== *)

Module Sample.
Import YamlLoader Validator PromptTemplates LLMClient Collaborators.


(** The first code point of each run of ten decimal digits in Unicode
    14.0, the database of CPython 3.11. *)
Definition decimal_zeros : list N :=
  [48; 1632; 1776; 1984; 2406; 2534; 2662; 2790; 2918; 3046; 3174; 3302;
   3430; 3558; 3664; 3792; 3872; 4160; 4240; 6112; 6160; 6470; 6608; 6784;
   6800; 6992; 7088; 7232; 7248; 42528; 43216; 43264; 43472; 43504; 43600;
   44016; 65296; 66720; 68912; 69734; 69872; 69942; 70096; 70384; 70736;
   70864; 71248; 71360; 71472; 71904; 72016; 72784; 73040; 73120; 92768;
   92864; 93008; 120782; 120792; 120802; 120812; 120822; 123200; 123632;
   125264; 130032]%N.

Definition sample_decimal (cp : N) : option Z :=
  if (cp <? 128)%N then
    if ((48 <=? cp) && (cp <=? 57))%N then Some (Z.of_N cp - 48) else None
  else
    match find (λ zero, (zero <=? cp) && (cp <? zero + 10))%N decimal_zeros with
    | Some zero => Some (Z.of_N (cp - zero))
    | None => None
    end.

Definition ascii_digit (c : ascii) : bool :=
  ((48 <=? byte_of c) && (byte_of c <=? 57))%N.

Fixpoint ascii_number (acc : Z) (s : string) : Z :=
  match s with
  | EmptyString => acc
  | String c rest => ascii_number (10 * acc + (Z.of_N (byte_of c) - 48)) rest
  end.

(** Text conversions that read plain decimal numerals as floats and print
    every finite float alike (the examples never print a float), with the
    decimal digits of Unicode 14.0. *)
Definition sample_text : PyText.
Proof.
  refine {|
    float_of_str := λ s,
      if negb (String.eqb s "") && forallb_string ascii_digit s
      then Some (FNum (ascii_number 0 s) 0) else None;
    repr_float := λ f,
      match f with
      | FNan => "nan"
      | FInf true => "-inf"
      | FInf false => "inf"
      | FNum _ _ => "0.0"
      end;
    repr_float_one_line := λ f,
      match f with
      | FNan => eq_refl
      | FInf true => eq_refl
      | FInf false => eq_refl
      | FNum _ _ => eq_refl
      end;
    repr_container := λ _, "[...]";
    decimal := sample_decimal
  |}.
  - intros cp Hcp. unfold sample_decimal.
    by rewrite (proj2 (N.ltb_lt cp 128) Hcp).
  - intros cp d. unfold sample_decimal. destruct (cp <? 128)%N.
    + destruct ((48 <=? cp) && (cp <=? 57))%N eqn:Hdigit; [|discriminate].
      apply andb_true_iff in Hdigit as [Hlo Hhi].
      apply N.leb_le in Hlo, Hhi. intros [= <-]. lia.
    + destruct (find _ decimal_zeros) as [zero|] eqn:Hfind; [|discriminate].
      apply find_some in Hfind as [_ Hin].
      apply andb_true_iff in Hin as [Hlo Hhi].
      apply N.leb_le in Hlo. apply N.ltb_lt in Hhi. intros [= <-]. lia.
Defined.

Definition type_error (expected : string) : list error_entry + obj :=
  inl [([], "Input should be a valid " +:+ expected)].

(** The kind checks of pydantic, without its conversions between kinds. *)
Fixpoint sample_validate (a : annotation) (v : obj) : list error_entry + obj :=
  match a, v with
  | AOptional _, VNone => inr VNone
  | AOptional a', _ => sample_validate a' v
  | AStr, VStr s | AEmailStr, VStr s => inr (VStr (strip s))
  | AStr, _ | AEmailStr, _ => type_error "string"
  | AInt, VInt _ => inr v
  | AInt, _ => type_error "integer"
  | AFloat, VFloat _ => inr v
  | AFloat, VInt _ => inr v
  | AFloat, _ => type_error "number"
  | ABool, VBool _ => inr v
  | ABool, _ => type_error "boolean"
  | ALiteral allowed, _ =>
      if existsb (py_eqb v) allowed then inr v else type_error "literal"
  | AListStr, VList _ | AListInt, VList _
  | AListModel _, VList _ | AListDict, VList _ => inr v
  | AListStr, _ | AListInt, _ | AListModel _, _ | AListDict, _ => type_error "list"
  | ADict, VDict _ => inr v
  | ADict, _ => type_error "dictionary"
  | AAny, _ => inr v
  end.

Definition within (bound : option obj) (below : bool) (v : obj) : bool :=
  match bound, v with
  | Some (VInt b), VInt z => if below then b <=? z else z <=? b
  | _, _ => true
  end.

Definition sample_pydantic : Pydantic := {|
  create_model_raises := λ _, None;
  is_field_name := λ name, negb (startswith "_" name);
  validate_field := λ a config v,
    match sample_validate a v, config with
    | inr v', Config f =>
        if within (field_ge f) true v' && within (field_le f) false v' then inr v'
        else inl [([], "Input is out of range")]
    | outcome, _ => outcome
    end
|}.

(** A [json] that reads the texts of the examples only, and a
    [jsonschema] without violations below the top level. *)
Definition sample_json : JsonLib := {|
  json_loads := λ text,
    if String.eqb text "{}" then Ok (VDict ∅)
    else raise JSONDecodeError "Expecting value: line 1 column 1 (char 0)";
  check_schema_raises := λ _, None;
  property_violation := λ _ _, None
|}.

(** A model stub that answers every request with the same text and
    counts its calls. *)
Definition stub_provider (answer : string) : Provider := {|
  provider := nat;
  complete := λ _ n, (Ok answer, S n)
|}.

(** A model stub whose transport fails on every call. *)
Definition failing_provider : Provider := {|
  provider := nat;
  complete := λ _ n, (raise Exception_ "Connection error.", S n)
|}.

(** Document libraries that give every file the same text. *)
Definition sample_libraries (text : string) : Libraries := {|
  normalize_text := λ t, t;
  sha1_hexdigest := λ _, "da39a3ee5e6b4b0d3255bfef95601890afd80709";
  drive_get_media := λ _, Ok "%PDF";
  parse_with_docling := λ _ _, Ok (text, false, 0);
  _parse_with_pymupdf := λ _, Ok text;
  _parse_with_pdfplumber := λ _, Ok text;
  docx_text_parts := λ _, Ok [text]
|}.

(** One variable of a schema. *)
Definition variable (entries : list (string * obj)) : obj := VDict (list_to_map entries).

(** The schema of the end-to-end scenario of the tests, with a boolean
    field added. *)
Definition scenario_schema : gmap string obj :=
  list_to_map
    [("version", VInt 1);
     ("variables",
      VList [variable [("name", VStr "nombre"); ("type", VStr "string");
                       ("required", VBool true)];
             variable [("name", VStr "edad"); ("type", VStr "integer");
                       ("min", VInt 18); ("max", VInt 80); ("required", VBool false)];
             variable [("name", VStr "score_general"); ("type", VStr "integer");
                       ("min", VInt 1); ("max", VInt 10); ("required", VBool true)];
             variable [("name", VStr "hay_foto_en_cv"); ("type", VStr "boolean");
                       ("required", VBool false)]])].

(** A schema with one bounded variable:
<<
version: 1
variables:
  - name: <name>
    type: <ty>
    min: <lo>
    max: <hi>
>> *)
Definition bounded_schema (name ty : string) (lo hi : obj) : gmap string obj :=
  list_to_map
    [("version", VInt 1);
     ("variables",
      VList [variable [("name", VStr name); ("type", VStr ty);
                       ("min", lo); ("max", hi)]])].

(** A validated record in which [secundaria_tecnica], declared by a
    custom schema as [list[string]], holds two strings. *)
Definition list_signal_record : gmap string obj :=
  list_to_map
    [("archivo", VStr "cv.pdf"); ("fuente", VStr "local"); ("link", VStr "");
     ("error", VStr "");
     ("edad_en_rango", VBool true);
     ("experiencia_confirmada", VBool true);
     ("hay_foto_en_cv", VBool true);
     ("secundaria_tecnica", VList [VStr "si"; VStr "no"])].

(** A validated record whose four signals are affirmative. *)
Definition approved_record : gmap string obj :=
  list_to_map
    [("nombre", VStr "Ana Gomez");
     ("edad_en_rango", VBool true);
     ("experiencia_electricista_confirmada", VStr "Sí");
     ("hay_foto_en_cv", VInt 1);
     ("secundaria_tecnica", VBool true)].

(** A response that satisfies every declared field and adds a key the
    schema does not have. *)
Definition hallucinated_data : gmap string obj :=
  list_to_map
    [("nombre", VStr "Ana Gomez"); ("score_general", VInt 8);
     ("salario_pretendido", VInt 1000)].

(** A model stub that answers with an empty JSON object, except that its
    second call fails in transport. *)
Definition second_call_fails : Provider := {|
  provider := nat;
  complete := λ _ n,
    (if Nat.eqb n 1 then raise Exception_ "Rate limit reached" else Ok "{}", S n)
|}.

(** A schema with one optional field. *)
Definition optional_schema : gmap string obj :=
  list_to_map
    [("version", VInt 1);
     ("variables", VList [variable [("name", VStr "nombre"); ("type", VStr "string")]])].

(** An uploaded PDF file. *)
Definition uploaded (name : string) : App.FileInfo :=
  App.mk_file_info name "local" (Some "") (Some "%PDF-1.4") None "application/pdf".

(** A schema whose only field has a name that spans two lines:
<<
version: 1
variables:
  - name: "nombre\ncompleto"
    type: string
>> *)
Definition two_line_name : string := "nombre" +:+ newline +:+ "completo".

Definition two_line_schema : gmap string obj :=
  list_to_map
    [("version", VInt 1);
     ("variables",
      VList [variable [("name", VStr two_line_name); ("type", VStr "string")]])].

Definition scenario_data : gmap string obj :=
  list_to_map
    [("nombre", VStr "Ana Gomez"); ("edad", VStr "32 años");
     ("score_general", VStr "8/10"); ("hay_foto_en_cv", VStr "Sí")].

End Sample.

(* ===================================================================== *)
(** * Predicates used to state the properties                             *)
(* ===================================================================== *)

Module Spec.
Import YamlLoader Validator LLMClient.

(** What [_validate_variable] has established about a variable [d] with
    name [name] and type [ty] when it returns, [seen_names] being the
    names met before it. *)
Record checked_variable (d : gmap string obj) (name ty : obj)
    (seen_names : list obj) : Prop := {
  cv_has_name : d !! "name" = Some name;
  cv_has_type : d !! "type" = Some ty;
  cv_hashable : hashable name = true;
  cv_fresh : seen name seen_names = false;
  cv_valid_type : in_strs ty valid_types = true;
  cv_allowed : eq_str ty "categorical" = true →
               ∃ l, d !! "allowed_values" = Some (VList l);
  cv_min : eq_str ty "integer" = true →
           ∀ m, d !! "min" = Some m → is_number m = true;
  cv_max : eq_str ty "integer" = true →
           ∀ m, d !! "max" = Some m → is_number m = true;
  cv_properties : eq_str ty "list[object]" = true →
                  ∃ p, d !! "properties" = Some (VDict p);
  cv_required : ∀ r, d !! "required" = Some r → is_bool r = true
}.

(** What the loop of [load_yaml_schema] has established about the list
    of variables, [seen_names] being the names met before the list. *)
Inductive checked_variables : list obj → list obj → Prop :=
| checked_nil seen_names : checked_variables [] seen_names
| checked_cons d name ty rest seen_names :
    checked_variable d name ty seen_names →
    checked_variables rest (seen_names ++ [name])%list →
    checked_variables (VDict d :: rest) seen_names.

(** A schema that [load_yaml_schema] accepts. *)
Definition compiled (schema : gmap string obj) : Prop :=
  is_Some (schema !! "version") ∧
  ∃ vars, schema !! "variables" = Some (VList vars) ∧ checked_variables vars [].

(** The schema declares a variable named [key] with type [ty]. *)
Definition declares (schema : gmap string obj) (key : string) (ty : obj) : Prop :=
  ∃ vars d, schema !! "variables" = Some (VList vars) ∧ In (VDict d) vars
            ∧ d !! "name" = Some (VStr key) ∧ d !! "type" = Some ty.

(** The schema declares no variable named [key]. *)
Definition undeclared (schema : gmap string obj) (key : string) : Prop :=
  ∀ ty, ¬ declares schema key ty.

(** An object already has the kind a schema type asks for. *)
Definition has_kind (ty v : obj) : bool :=
  if eq_str ty "integer" then match v with VInt _ => true | _ => false end
  else if eq_str ty "float" then match v with VFloat _ => true | _ => false end
  else if eq_str ty "boolean" then match v with VBool _ => true | _ => false end
  else if eq_str ty "string" || eq_str ty "categorical"
       then match v with VStr _ => true | _ => false end
  else if eq_str ty "list[string]" || eq_str ty "list[integer]" || eq_str ty "list[object]"
       then match v with VList _ => true | _ => false end
  else if eq_str ty "object" then match v with VDict _ => true | _ => false end
  else false.

(** What the client finds in a response text: validated data, a parse
    error, a validation error, or an exception of the parser that it does
    not handle. *)
Inductive judgement :=
| Valid (validated : gmap string obj)
| ParseError (msg : string)
| ValidationError (msg : string)
| Crashed (e : exn).

Section Judging.
Context `{PyText} `{Pydantic} `{JsonLib}.

Definition judge (schema : gmap string obj) (response_text : string) : judgement :=
  match parse_json_safely response_text with
  | Raise e => Crashed e
  | Ok (data, parse_error) =>
      match LLMClient.error_text parse_error with
      | Some msg => ParseError msg
      | None =>
          let '(is_valid, validated_data, validation_error) :=
            LLMClient.validate_parsed data schema in
          if negb is_valid
          then ValidationError (py_str (from_option VStr VNone validation_error))
          else Valid (LLMClient.validated_or_empty validated_data)
      end
  end.

(** The response fails parsing or validation, with message [msg]. *)
Definition invalid_response (schema : gmap string obj) (response_text msg : string)
    : Prop :=
  judge schema response_text = ParseError msg ∨
  judge schema response_text = ValidationError msg.

(** A provider whose every response fails parsing or validation. *)
Definition always_invalid `{LLMClient.Provider} (schema : gmap string obj) : Prop :=
  ∀ request state, ∃ response_text state' msg,
    LLMClient.complete request state = (Ok response_text, state') ∧
    invalid_response schema response_text msg.

(** The error [OpenAIClient._retry_with_correction] raises for a response
    that fails. *)
Definition retry_error (retry_count : nat) (j : judgement) : option exn :=
  match j with
  | ParseError msg =>
      Some (mk_exn ValueError
              ("Error parseando JSON en reintento " +:+ str_of_nat retry_count
               +:+ ": " +:+ msg))
  | ValidationError msg =>
      Some (mk_exn ValueError
              ("Validación falló en reintento " +:+ str_of_nat retry_count
               +:+ ": " +:+ msg))
  | Crashed e => Some e
  | Valid _ => None
  end.

End Judging.

(** ** Reading the field names back from the rendered schema

    The repository has no function that reads a rendered schema; the one
    below follows the wording of the round-trip property: the rendering is
    cut into lines, the two lines of the header and the closing brace are
    set aside, and the name of a field is what its line shows between the
    opening quote and the first quote-colon-space. *)

(** The part of [s] before the first occurrence of [marker]. *)
Fixpoint until_marker (marker s : string) : string :=
  if startswith marker s then ""
  else match s with
       | EmptyString => ""
       | String c rest => String c (until_marker marker rest)
       end.

Definition name_marker : string := dq +:+ ": ".
Definition line_opening : string := "  " +:+ dq.

(** [s[n:]] on bytes. *)
Fixpoint string_drop (n : nat) (s : string) : string :=
  match n, s with
  | S n', String _ rest => string_drop n' rest
  | _, _ => s
  end.

Definition field_name_of_line (line : string) : option string :=
  if startswith line_opening line
  then Some (until_marker name_marker (string_drop 3 line))
  else None.

(** The lines between the header and the closing brace. *)
Definition field_lines (rendering : string) : list string :=
  removelast (skipn 2 (split_lines rendering)).

Definition extract_field_names (rendering : string) : list string :=
  omap field_name_of_line (field_lines rendering).

(** A schema whose rendering can be read back line by line: the names are
    strings without a line break and without the sequence
    quote-colon-space, and the allowed values of categorical variables are
    printed without a line break. *)
Definition readable_variable `{PyText} (d : gmap string obj) : Prop :=
  (∃ n, d !! "name" = Some (VStr n) ∧ one_line n
        ∧ has_substring name_marker n = false) ∧
  (∀ l v, d !! "type" = Some (VStr "categorical") →
          d !! "allowed_values" = Some (VList l) → In v l → one_line (py_str v)).

Definition readable `{PyText} (schema : gmap string obj) : Prop :=
  ∀ vars d, schema !! "variables" = Some (VList vars) → In (VDict d) vars →
            readable_variable d.

(** An exception whose text is not empty, and a computation that raises
    only such exceptions. *)
Definition described (e : exn) : Prop := exn_str e ≠ "".

Definition raises_described {A} (c : res A) : Prop :=
  ∀ e, c = Raise e → described e.

(** A result record that reports an error. *)
Definition reports_error (result : gmap string obj) : Prop :=
  ∃ msg, result !! "error" = Some (VStr msg) ∧ msg ≠ "".

(** A result record that carries the extracted data: every extracted
    field other than the roll-up, with its value, and the roll-up. *)
Definition carries (result extracted_data : gmap string obj) : Prop :=
  (∀ key v, key ≠ "preaprobado" → extracted_data !! key = Some v →
            result !! key = Some v) ∧
  ∃ b, result !! "preaprobado" = Some (VBool b).

End Spec.

(* ===================================================================== *)
(** * Requests, records and scenarios of the statements                   *)
(* ===================================================================== *)

Import YamlLoader Validator PromptTemplates LLMClient Collaborators App Spec.

Section Requests.
Context `{PyText} `{Pydantic} `{JsonLib} `{Provider}.

(** The request of a correction attempt. *)
Definition correction_request (self : Client) (system_prompt user_prompt
    correction_prompt : string) : Request :=
  mk_request (model self) system_prompt
             (correction_addendum user_prompt correction_prompt)
             float_0_1 (max_tokens self).

(** The request of the first attempt. *)
Definition first_request (self : Client) (system_prompt user_prompt : string)
    : Request :=
  mk_request (model self) system_prompt user_prompt (temperature self) (max_tokens self).

Definition sent (w : World) (request : Request) (p : provider) : World :=
  mk_world p (calls w ++ [request])%list.

(** The age range of the template of a configuration is a string. *)
Definition plain_range (cfg : PromptConfig) : Prop :=
  is_Some (match get (template cfg) "rango_edad" (VStr "25-45") with
           | VStr r => Some r
           | _ => None
           end).

(** A computation of a client that raises only exceptions with a text. *)
Definition M_described {A} (c : M A) : Prop :=
  ∀ w e w', c w = (Raise e, w') → described e.

(** [json.loads] raises only exceptions with a text. *)
Definition json_described : Prop :=
  ∀ text, raises_described (json_loads text).

End Requests.

Section Records.
Context `{PyText} `{Pydantic} `{JsonLib} `{Provider} `{Libraries}.

(** The record of one document: what [process_single_cv] returned for
    that document from some state of the provider, reporting an error or
    carrying the data extracted there. *)
Definition document_record
    (llm_client : string → gmap string obj → option PromptConfig → M (gmap string obj))
    (schema : gmap string obj) (cfg : PromptConfig) (drive_service : option unit)
    (use_ocr : bool) (file_info : FileInfo) (result : gmap string obj) : Prop :=
  ∃ w w',
    process_single_cv file_info schema llm_client cfg drive_service use_ocr w
    = (Ok result, w') ∧
    (reports_error result ∨
     ∃ text extracted_data,
       llm_client text schema (Some cfg) w = (Ok extracted_data, w') ∧
       carries result extracted_data).

End Records.

(** ** Scenarios *)


(** A schema whose integer field [edad] has [min: 80] and [max: 18]. *)
Definition inverted_bounds : gmap string obj :=
  Sample.bounded_schema "edad" "integer" (VInt 80) (VInt 18).

(** A schema whose integer field [edad] has a bound that is a text. *)
Definition text_bound : gmap string obj :=
  Sample.bounded_schema "edad" "integer" (VStr "dieciocho") (VInt 80).

(** A provider that answers every request with text that is not JSON. *)
Definition not_json : Provider := Sample.stub_provider "no puedo ayudar con eso".

(** A client with its own sampling temperature. *)
Definition sample_client : Client := mk_client "gpt-4o-mini" (FNum 1 (-1)) (Some 2000).

(** A client at temperature 0.0, the lowest value the slider of the
    application offers. *)
Definition coldest_client : Client := mk_client "gpt-4o-mini" (FNum 0 0) (Some 2000).

(** Three uploaded documents, read by the stub libraries. *)
Definition three_documents : list FileInfo :=
  [Sample.uploaded "uno.pdf"; Sample.uploaded "dos.pdf"; Sample.uploaded "tres.pdf"].

Definition sample_documents : Libraries :=
  Sample.sample_libraries "Ana Gomez, electricista".

(** The OpenAI client of the application over the stub whose second call
    fails. *)
Definition stub_client
    : string → gmap string obj → option PromptConfig
      → @M Sample.second_call_fails (gmap string obj) :=
  @create_llm_client Sample.sample_text Sample.sample_pydantic Sample.sample_json
    Sample.second_call_fails "OpenAI" "gpt-4o-mini" float_0_1 2000.

(* ===================================================================== *)
(** * ingestion/local.py: uploaded files                                  *)
(* ===================================================================== *)

Module LocalFiles.

(** The string read backwards. *)
Fixpoint reversed (s : string) : string :=
  match s with
  | EmptyString => EmptyString
  | String c rest => reversed rest +:+ String c EmptyString
  end.

(** [s.endswith(suffix)]. *)
Definition endswith (suffix s : string) : bool :=
  startswith (reversed suffix) (reversed s).

(** [_infer_mime_type(filename)]. *)
Definition _infer_mime_type (filename : string) : string :=
  let lower_name := lower filename in
  if endswith ".pdf" lower_name then "application/pdf"
  else if endswith ".docx" lower_name then
    "application/vnd.openxmlformats-officedocument.wordprocessingml.document"
  else if endswith ".doc" lower_name then "application/msword"
  else if endswith ".txt" lower_name then "text/plain"
  else "application/octet-stream".

(** [filename.rsplit(".", 1)[1]] when [filename] has a dot: what follows
    the last dot. *)
Fixpoint after_last_dot (filename : string) : option string :=
  match filename with
  | EmptyString => None
  | String c rest =>
      match after_last_dot rest with
      | Some extension => Some extension
      | None => if Ascii.eqb c "." then Some rest else None
      end
  end.

(** [get_file_extension(filename)]. *)
Definition get_file_extension (filename : string) : string :=
  match after_last_dot filename with
  | Some extension => lower extension
  | None => ""
  end.

(** [is_supported_file(filename)]. *)
Definition is_supported_file (filename : string) : bool :=
  str_in (get_file_extension filename) ["pdf"; "docx"].

(** [process_uploaded_file(uploaded_file)], from the name, the content
    and the type of the uploaded file; the type may be missing or empty. *)
Definition process_uploaded_file (name : string) (content : string)
    (type : option string) : string * string * string :=
  let mime_type :=
    match type with
    | Some t => if String.eqb t "" then _infer_mime_type name else t
    | None => _infer_mime_type name
    end in
  (name, content, mime_type).

End LocalFiles.

(* ===================================================================== *)
(** * utils/text_clean.py: repeated headers and footers                   *)
(* ===================================================================== *)

Module TextClean.

(** [len(s)]: the number of code points of a string held as UTF-8. *)
Fixpoint py_len (s : string) : nat :=
  match s with
  | EmptyString => O
  | String c rest => if is_continuation c then py_len rest else S (py_len rest)
  end.

(** The loop that fills [line_counts]: the number of lines with each
    stripped content that is not empty. *)
Definition count_line (line_counts : gmap string nat) (line : string)
    : gmap string nat :=
  let stripped := strip line in
  if negb (String.eqb stripped "")
  then <[stripped := (default O (line_counts !! stripped) + 1)%nat]> line_counts
  else line_counts.

Definition line_counts_of (lines : list string) : gmap string nat :=
  foldl count_line ∅ lines.

(** The set comprehension [repeated_lines]. *)
Definition repeated_lines_of (line_counts : gmap string nat) (min_repetitions : nat)
    : gset string :=
  dom (filter (λ entry, (min_repetitions ≤ entry.2)%nat ∧ (py_len entry.1 < 100)%nat)
              line_counts).

(** [_remove_repeated_patterns(text, min_repetitions=3)]. *)
Definition _remove_repeated_patterns (text : string) (min_repetitions : nat) : string :=
  let lines := split_lines text in
  let repeated_lines := repeated_lines_of (line_counts_of lines) min_repetitions in
  let cleaned_lines :=
    List.filter (λ line, bool_decide (strip line ∉ repeated_lines)
                         || String.eqb (strip line) "")
                lines in
  join newline cleaned_lines.

End TextClean.


(* ===================================================================== *)
(** * Vocabulary and scenarios of the further properties *)
(* ===================================================================== *)

(** ** Scenarios of the further properties *)

(** A schema whose variable has a YAML sequence as its name. *)
Definition unhashable_name_schema : gmap string obj :=
  list_to_map
    [("version", VInt 1);
     ("variables",
      VList [Sample.variable [("name", VList [VStr "nombre"; VStr "apellido"]);
                              ("type", VStr "string")]])].




(** ** What the two validators build from a schema *)

Section Built.
Context `{PyText} `{Pydantic} `{JsonLib}.

(** The entry [create_pydantic_model] stores for a variable. *)
Definition field_entry (var : obj) (entry : obj * (annotation * field_config)) : Prop :=
  ∃ d t, var = VDict d ∧ d !! "name" = Some entry.1 ∧ _get_pydantic_field d = Ok t ∧
         entry.2 = if negb (truthy (get d "required" (VBool false)))
                   then make_optional t else t.

(** A field without a default: pydantic requires it. *)
Definition no_default (config : field_config) : Prop :=
  match config with
  | Config f => field_default f = None
  | Ellipsis => True
  end.

(** The names of the variables that are required, in the order of the
    schema. *)
Definition required_names (vars : list obj) : list obj :=
  omap (λ var, match var with
               | VDict d =>
                   if truthy (get d "required" (VBool false)) then d !! "name" else None
               | _ => None
               end) vars.

(** The entry [schema_to_json_schema] stores for a variable. *)
Definition property_entry (var : obj) (entry : obj * obj) : Prop :=
  ∃ d, var = VDict d ∧ d !! "name" = Some entry.1 ∧
       _variable_to_json_schema_property d = Ok entry.2.

End Built.

(** ** Requests sent by a computation of a client *)

Section Budget.
Context `{Provider}.

(** From every state, the computation [c] sends at most [budget] requests
    on top of those sent before, each of which satisfies [ok], and leaves
    the earlier ones in the log. *)
Definition sends {A} (budget : nat) (ok : Request → Prop) (c : M A) : Prop :=
  ∀ w, ∃ sent_requests,
    calls (c w).2 = (calls w ++ sent_requests)%list ∧
    (List.length sent_requests ≤ budget)%nat ∧
    Forall ok sent_requests.

(** A provider whose every call fails in transport. *)
Definition always_failing : Prop :=
  ∀ request state, ∃ e state', complete request state = (Raise e, state').

(** The requests of a client carry its model and token limit, and the
    temperature of the client or the pinned 0.1. *)
Definition of_client (self : Client) (limit : option Z) (request : Request) : Prop :=
  req_model request = model self ∧ req_max_tokens request = limit ∧
  (req_temperature request = temperature self ∨ req_temperature request = float_0_1).

(** The request of the first attempt of the LiteLLM client. *)
Definition litellm_first_request (self : Client) (system_prompt user_prompt : string)
    : Request :=
  mk_request (model self) system_prompt user_prompt (temperature self)
             (LiteLLMClient.given_max_tokens self).

(** The request of a correction attempt of the LiteLLM client. *)
Definition litellm_correction_request (self : Client) (system_prompt user_prompt
    correction_prompt : string) : Request :=
  mk_request (model self) system_prompt
             (correction_addendum user_prompt correction_prompt)
             float_0_1 (LiteLLMClient.given_max_tokens self).

End Budget.

(** ** The lines of the error list of a batch *)

Section ErrorLines.
Context `{PyText}.

(** The line the loop of [process_all_cvs] adds to [errors] for a record
    whose ["error"] is not empty. *)
Definition error_line (entry : FileInfo * gmap string obj) : option string :=
  if truthy (get entry.2 "error" VNone)
  then Some ("❌ " +:+ fi_name entry.1 +:+ ": " +:+ py_str (get entry.2 "error" VNone))
  else None.

End ErrorLines.

(** ** Repeated lines, counted *)

(** The number of lines whose stripped content is [content]. *)
Definition occurrences (content : string) (lines : list string) : nat :=
  List.length (List.filter (λ line, String.eqb (strip line) content) lines).

(** A line that repeats: it is not blank, its stripped content is
    shorter than 100 characters and is the content of at least
    [min_repetitions] lines. *)
Definition is_repeated (lines : list string) (min_repetitions : nat) (line : string)
    : bool :=
  negb (String.eqb (strip line) "")
  && Nat.leb min_repetitions (occurrences (strip line) lines)
  && Nat.ltb (TextClean.py_len (strip line)) 100.

(** ** Further scenarios *)

(** The variables of the scenario schema. *)
Definition scenario_variables : list obj :=
  [Sample.variable [("name", VStr "nombre"); ("type", VStr "string");
                    ("required", VBool true)];
   Sample.variable [("name", VStr "edad"); ("type", VStr "integer");
                    ("min", VInt 18); ("max", VInt 80); ("required", VBool false)];
   Sample.variable [("name", VStr "score_general"); ("type", VStr "integer");
                    ("min", VInt 1); ("max", VInt 10); ("required", VBool true)];
   Sample.variable [("name", VStr "hay_foto_en_cv"); ("type", VStr "boolean");
                    ("required", VBool false)]].

(** A response in which one field is already a number, one is a list and
    two are strings to coerce, and what the coercion pass makes of it. *)
Definition mixed_data : gmap string obj :=
  list_to_map
    [("nombre", VStr "Ana Gomez"); ("edad", VInt 32);
     ("score_general", VStr "8/10"); ("hay_foto_en_cv", VList [VStr "si"])].

Definition mixed_coerced : gmap string obj :=
  list_to_map
    [("nombre", VStr "Ana Gomez"); ("edad", VInt 32);
     ("score_general", VInt 8); ("hay_foto_en_cv", VList [VStr "si"])].

(** A response without the required [nombre]. *)
Definition nameless_data : gmap string obj :=
  list_to_map [("score_general", VInt 8)].

(** A response without the optional [hay_foto_en_cv], and what pydantic
    returns for it. *)
Definition minimal_data : gmap string obj :=
  list_to_map
    [("nombre", VStr "Ana Gomez"); ("edad", VInt 32); ("score_general", VInt 8)].

Definition minimal_validated : gmap string obj :=
  list_to_map
    [("nombre", VStr "Ana Gomez"); ("edad", VInt 32);
     ("score_general", VInt 8); ("hay_foto_en_cv", VNone)].

(** A provider that answers every request with an empty JSON object. *)
Definition empty_object : Provider := Sample.stub_provider "{}".

(** A model stub whose first answer is not JSON and whose later answers
    are an empty JSON object. *)
Definition corrected_answer : Provider := {|
  provider := nat;
  complete := λ _ n, (Ok (if Nat.eqb n 0 then "no puedo ayudar con eso" else "{}"), S n)
|}.

(** A schema with two variables named [.nan]:
<<
version: 1
variables:
  - name: .nan
    type: string
  - name: .nan
    type: string
>> *)
Definition nan_names_schema : gmap string obj :=
  list_to_map
    [("version", VInt 1);
     ("variables",
      VList [Sample.variable [("name", VFloat FNan); ("type", VStr "string")];
             Sample.variable [("name", VFloat FNan); ("type", VStr "string")]])].

(** A schema whose only field is required and has a name with a leading
    underscore:
<<
version: 1
variables:
  - name: _interno
    type: string
    required: true
>> *)
Definition private_name_schema : gmap string obj :=
  list_to_map
    [("version", VInt 1);
     ("variables",
      VList [Sample.variable [("name", VStr "_interno"); ("type", VStr "string");
                              ("required", VBool true)]])].

(** The prompts of the sample client for a short text, on the schema with
    one optional field and on the scenario schema. *)
Definition optional_prompts : string * string :=
  match @build_full_prompt Sample.sample_text create_default_config "Ana Gomez"
          Sample.optional_schema with
  | Ok prompts => prompts
  | Raise _ => ("", "")
  end.

Definition scenario_prompts : string * string :=
  match @build_full_prompt Sample.sample_text create_default_config "Ana Gomez"
          Sample.scenario_schema with
  | Ok prompts => prompts
  | Raise _ => ("", "")
  end.

(** An uploaded image. *)
Definition uploaded_image : FileInfo :=
  mk_file_info "foto.png" "local" None (Some "PNG") None "image/png".

(** Document libraries in which every parser fails. *)
Definition failing_libraries : Libraries := {|
  normalize_text := λ t, t;
  sha1_hexdigest := λ _, "da39a3ee5e6b4b0d3255bfef95601890afd80709";
  drive_get_media := λ _, raise Exception_ "HttpError 404";
  parse_with_docling := λ _ _, raise ImportError "No module named 'docling'";
  _parse_with_pymupdf := λ _, raise Exception_ "cannot open broken document";
  _parse_with_pdfplumber := λ _, raise Exception_ "No /Root object";
  docx_text_parts := λ _, raise Exception_ "File is not a zip file"
|}.


Import LocalFiles TextClean.

(* ===================================================================== *)
(** * Properties                                                          *)
(* ===================================================================== *)

Import YamlLoader Validator PromptTemplates LLMClient Collaborators App Spec.

(** Equations between closed terms, decided by evaluating both sides. *)
Ltac vm_refl :=
  lazymatch goal with
  | |- ?a = ?b => vm_cast_no_check (@eq_refl _ b)
  end.

(** ** Dictionary access *)

Lemma contains_true (d : gmap string obj) k :
  contains d k = true ↔ ∃ v, d !! k = Some v.
Proof.
  unfold contains. rewrite bool_decide_eq_true. reflexivity.
Qed.

Lemma contains_false (d : gmap string obj) k :
  contains d k = false ↔ d !! k = None.
Proof.
  unfold contains. rewrite bool_decide_eq_false, <- eq_None_not_Some. reflexivity.
Qed.

Lemma get_some (d : gmap string obj) k v dflt :
  d !! k = Some v → get d k dflt = v.
Proof. unfold get. intros ->. reflexivity. Qed.

Lemma get_none (d : gmap string obj) k dflt :
  d !! k = None → get d k dflt = dflt.
Proof. unfold get. intros ->. reflexivity. Qed.

Lemma getitem_ok (d : gmap string obj) k v :
  getitem d k = Ok v ↔ d !! k = Some v.
Proof.
  unfold getitem. destruct (d !! k); split; intros E;
    first [by inversion E | discriminate E].
Qed.

Lemma eq_str_true v s : eq_str v s = true ↔ v = VStr s.
Proof.
  destruct v; simpl; try (split; intros E; discriminate E).
  rewrite String.eqb_eq. split; [intros -> | intros [= ->]]; reflexivity.
Qed.

Lemma bind_ok {A B} (c : res A) (f : A → res B) b :
  c ≫= f = Ok b ↔ ∃ a, c = Ok a ∧ f a = Ok b.
Proof.
  destruct c as [a | e]; simpl; split.
  - intros E. exists a. auto.
  - intros (a' & [= ->] & E). exact E.
  - intros E. discriminate E.
  - intros (a' & E & _). discriminate E.
Qed.

Lemma bind_Ok {A B} (a : A) (f : A → res B) : Ok a ≫= f = f a.
Proof. reflexivity. Qed.

Lemma bind_Raise {A B} e (f : A → res B) : Raise e ≫= f = Raise e.
Proof. reflexivity. Qed.

(** ** The schema loader *)

Section LoaderFacts.
Context `{PyText}.

Lemma validate_variable_inv var index seen_names seen_names' :
  _validate_variable var index seen_names = Ok seen_names' →
  ∃ d name ty, var = VDict d ∧ seen_names' = (seen_names ++ [name])%list
               ∧ checked_variable d name ty seen_names.
Proof.
  unfold _validate_variable. destruct var as [| | | | |l|d]; try discriminate.
  destruct (contains d "name") eqn:Hname; cbn [negb]; [|discriminate].
  destruct (contains d "type") eqn:Htype; cbn [negb]; [|discriminate].
  apply contains_true in Hname as [name Hname], Htype as [ty Htype].
  rewrite (proj2 (getitem_ok _ _ _) Hname), bind_Ok.
  destruct (hashable name) eqn:Hhash; cbn [negb]; [|discriminate].
  destruct (seen name seen_names) eqn:Hseen; [discriminate|].
  rewrite (proj2 (getitem_ok _ _ _) Htype), bind_Ok.
  destruct (in_strs ty valid_types) eqn:Hvalid; cbn [negb]; [|discriminate].
  intros E. exists d, name, ty. split; [reflexivity|].
  repeat match type of E with
         | (if ?c then _ else _) = _ => destruct c eqn:?; [discriminate E|]
         end.
  injection E as <-. split; [reflexivity|].
  repeat match goal with
         | Hc : _ && _ = false |- _ => apply andb_false_iff in Hc
         | Hc : negb _ = false |- _ => apply negb_false_iff in Hc
         end.
  split; try assumption.
  - intros Hty.
    destruct Heqb as [Hc|Hc]; [congruence|]. apply negb_false_iff, contains_true in Hc as [v Hv].
    destruct Heqb0 as [Hc|Hc]; [congruence|]. apply negb_false_iff in Hc.
    rewrite (get_some _ _ _ _ Hv) in Hc. destruct v; try discriminate Hc. eauto.
  - intros Hty m Hm.
    destruct Heqb1 as [Hc|Hc]; [|apply negb_false_iff in Hc; by rewrite (get_some _ _ _ _ Hm) in Hc].
    apply andb_false_iff in Hc as [Hc|Hc]; [congruence|].
    apply contains_false in Hc. congruence.
  - intros Hty m Hm.
    destruct Heqb2 as [Hc|Hc]; [|apply negb_false_iff in Hc; by rewrite (get_some _ _ _ _ Hm) in Hc].
    apply andb_false_iff in Hc as [Hc|Hc]; [congruence|].
    apply contains_false in Hc. congruence.
  - intros Hty.
    destruct Heqb3 as [Hc|Hc]; [congruence|]. apply negb_false_iff, contains_true in Hc as [v Hv].
    destruct Heqb4 as [Hc|Hc]; [congruence|]. apply negb_false_iff in Hc.
    rewrite (get_some _ _ _ _ Hv) in Hc. destruct v; try discriminate Hc. eauto.
  - intros r Hr.
    destruct Heqb5 as [Hc|Hc]; [apply contains_false in Hc; congruence|].
    apply negb_false_iff in Hc. by rewrite (get_some _ _ _ _ Hr) in Hc.
Qed.

Lemma validate_variables_inv vars index seen_names seen_names' :
  validate_variables vars index seen_names = Ok seen_names' →
  checked_variables vars seen_names.
Proof.
  revert index seen_names.
  induction vars as [|var rest IH]; intros index seen_names; cbn [validate_variables].
  - intros _. constructor.
  - intros E. apply bind_ok in E as (seen1 & Hvar & Hrest).
    apply validate_variable_inv in Hvar as (d & name & ty & -> & -> & Hchecked).
    econstructor; [exact Hchecked | eapply IH, Hrest].
Qed.

Lemma load_yaml_schema_inv loaded schema :
  load_yaml_schema loaded = Ok schema →
  loaded = Ok (VDict schema) ∧ compiled schema.
Proof.
  unfold load_yaml_schema. intros E. apply bind_ok in E as (raw & Hloaded & E).
  assert (loaded = Ok raw) as ->.
  { destruct loaded as [v|e]; [exact Hloaded|]. unfold try_except in Hloaded.
    destruct (caught_by e [YAMLError]); discriminate Hloaded. }
  clear Hloaded. destruct raw as [| | | | |l|d]; try discriminate E.
  destruct (contains d "version") eqn:Hversion; cbn [negb] in E; [|discriminate E].
  destruct (contains d "variables") eqn:Hvariables; cbn [negb] in E; [|discriminate E].
  apply contains_true in Hversion, Hvariables. destruct Hvariables as [v Hv].
  rewrite (get_some _ _ _ _ Hv) in E.
  destruct v as [| | | | |vars|]; try discriminate E.
  apply bind_ok in E as (seen_names & Hvars & [= <-]).
  split; [reflexivity|]. split; [exact Hversion|].
  exists vars. split; [exact Hv|]. eapply validate_variables_inv, Hvars.
Qed.

(** Variables met later have names that differ from every name seen so
    far. *)
Lemma checked_variables_fresh vars seen_names d name :
  checked_variables vars seen_names →
  In (VDict d) vars → d !! "name" = Some name →
  seen name seen_names = false.
Proof.
  intros Hchecked. induction Hchecked as [|d' name' ty rest seen_names Hvar Hrest IH].
  - intros [].
  - intros [[= ->]|Hin] Hname.
    + destruct Hvar. congruence.
    + specialize (IH Hin Hname). unfold seen in IH |- *.
      rewrite existsb_app in IH. by apply orb_false_iff in IH as [? _].
Qed.

End LoaderFacts.

(** ** The coercion pass *)

(** The loop [for_items] visits every entry, leaves the keys alone and
    stores what the body gives for each. *)
Lemma for_items_spec (body : string → obj → res obj) (d : gmap string obj) :
  (∀ k v, d !! k = Some v → is_ok (body k v) = true) →
  ∃ out, for_items body d = Ok out ∧
    ∀ k, match d !! k with
         | Some v => ∃ v', body k v = Ok v' ∧ out !! k = Some v'
         | None => out !! k = None
         end.
Proof.
  unfold for_items.
  assert (∀ d0 m : gmap string obj,
    (∀ k v, m !! k = Some v → is_ok (body k v) = true) →
    ∃ out,
      map_fold (λ key value acc, m ← acc; v ← body key value; mret (<[key := v]> m))
               (Ok d0) m = Ok out ∧
      ∀ k, match m !! k with
           | Some v => ∃ v', body k v = Ok v' ∧ out !! k = Some v'
           | None => out !! k = d0 !! k
           end) as Hgen.
  { intros d0 m. revert m.
    apply (map_fold_weak_ind (λ r m,
      (∀ k v, m !! k = Some v → is_ok (body k v) = true) →
      ∃ out, r = Ok out ∧
        ∀ k, match m !! k with
             | Some v => ∃ v', body k v = Ok v' ∧ out !! k = Some v'
             | None => out !! k = d0 !! k
             end)).
    - intros _. exists d0. split; [reflexivity|]. intros k. by rewrite lookup_empty.
    - intros i x m r Hfresh IH Hbody.
      destruct IH as (out & -> & Hout).
      { intros k v Hk. apply Hbody. rewrite lookup_insert_ne; [exact Hk|].
        intros ->. congruence. }
      pose proof (Hbody i x (lookup_insert_eq _ _ _)) as Hi.
      destruct (body i x) as [x'|e] eqn:Hx; [|discriminate Hi].
      exists (<[i := x']> out). split; [reflexivity|].
      intros k. destruct (decide (i = k)) as [<-|Hne].
      + rewrite !lookup_insert_eq. eauto.
      + rewrite !lookup_insert_ne by exact Hne. apply Hout. }
  intros Hbody. destruct (Hgen d d Hbody) as (out & E & Hout).
  exists out. split; [exact E|]. intros k. specialize (Hout k).
  destruct (d !! k) eqn:Hk; [exact Hout|]. congruence.
Qed.

Section CoercionFacts.
Context `{PyText}.

Lemma coerce_integer_ok s : ∃ v, coerce_integer s = Ok v.
Proof.
  unfold coerce_integer. destruct (search_digits s) as [run|]; [|by eexists].
  unfold int_of_digits. destruct (Nat.ltb _ _); by eexists.
Qed.

Lemma coerce_float_ok s : ∃ v, coerce_float s = Ok v.
Proof.
  unfold coerce_float, py_float. destruct (float_of_str s); by eexists.
Qed.

Lemma coerce_boolean_ok s : ∃ v, coerce_boolean s = Ok v.
Proof.
  unfold coerce_boolean.
  destruct (str_in _ true_tokens); [by eexists|].
  destruct (str_in _ false_tokens); by eexists.
Qed.

(** The loop body never raises. *)
Lemma coerce_entry_ok type_map key value : ∃ v, coerce_entry type_map key value = Ok v.
Proof.
  unfold coerce_entry. destruct (type_map !! key) as [ty|]; [|by destruct value; eexists].
  destruct value as [| | | |s| |]; try by eexists.
  destruct (eq_str ty "integer"); [apply coerce_integer_ok|].
  destruct (eq_str ty "float"); [apply coerce_float_ok|].
  destruct (eq_str ty "boolean"); [apply coerce_boolean_ok|].
  by eexists.
Qed.

(** On a checked list of variables the comprehension that builds
    [type_map] succeeds; it maps the name of every variable to its type
    and holds nothing else. *)
Lemma type_map_checked vars seen_names (m0 : gmap string obj) :
  checked_variables vars seen_names →
  ∃ m, foldl type_map_insert (Ok m0) vars = Ok m ∧
    (∀ d key ty, In (VDict d) vars → d !! "name" = Some (VStr key) →
                 d !! "type" = Some ty → m !! key = Some ty) ∧
    (∀ key, (∀ d, In (VDict d) vars → d !! "name" ≠ Some (VStr key)) →
            m !! key = m0 !! key).
Proof.
  intros Hchecked. revert m0.
  induction Hchecked as [|d name ty rest seen_names Hvar Hrest IH]; intros m0.
  - exists m0. split; [reflexivity|]. split; [intros ? ? ? []|reflexivity].
  - destruct Hvar as [Hname Htype Hhash Hfresh _ _ _ _ _ _].
    cbn [foldl]. unfold type_map_insert at 2. rewrite bind_Ok. cbn [subscript].
    rewrite (proj2 (getitem_ok _ _ _) Hname), bind_Ok.
    rewrite (proj2 (getitem_ok _ _ _) Htype), bind_Ok.
    rewrite Hhash. cbn [negb].
    set (m1 := match name with VStr n => <[n := ty]> m0 | _ => m0 end).
    destruct (IH m1) as (m & E & Hdecl & Hother).
    exists m. split; [exact E|]. split.
    + intros d' key ty' [[= <-]|Hin] Hname' Htype'.
      * assert (name = VStr key) as -> by congruence.
        assert (ty' = ty) as -> by congruence.
        rewrite Hother; [subst m1; apply lookup_insert_eq|].
        intros d'' Hin'' Hname''.
        pose proof (checked_variables_fresh _ _ _ _ Hrest Hin'' Hname'') as Hf.
        unfold seen in Hf. rewrite existsb_app in Hf.
        apply orb_false_iff in Hf as [_ Hf]. cbn in Hf.
        rewrite String.eqb_refl in Hf. discriminate Hf.
      * eapply Hdecl; eassumption.
    + intros key Hnone. rewrite Hother.
      * subst m1. destruct name as [| | | |n| |]; try reflexivity.
        apply lookup_insert_ne. intros ->. by apply (Hnone d); [left|].
      * intros d' Hin. apply Hnone. by right.
Qed.

Lemma checked_variables_In vars seen_names v :
  checked_variables vars seen_names → In v vars →
  ∃ d name ty seen', v = VDict d ∧ checked_variable d name ty seen'.
Proof.
  induction 1 as [|d name ty rest seen_names Hvar Hrest IH]; [intros []|].
  intros [<-|Hin]; [by exists d, name, ty, seen_names | by apply IH].
Qed.

(** The coercion pass on a compiled schema: the dictionary [type_map] it
    builds holds exactly the declared types, it returns, and every entry
    of the record is replaced by what the loop body gives for it. *)
Lemma preprocess_data_entries schema :
  compiled schema →
  ∃ type_map,
    type_map_of schema = Ok type_map ∧
    (∀ key ty, declares schema key ty → type_map !! key = Some ty) ∧
    (∀ key, undeclared schema key → type_map !! key = None) ∧
    ∀ data, ∃ out,
      _preprocess_data data schema = Ok out ∧
      ∀ key, match data !! key with
             | Some value =>
                 ∃ v, coerce_entry type_map key value = Ok v ∧ out !! key = Some v
             | None => out !! key = None
             end.
Proof.
  intros (_ & vars & Hvars & Hchecked).
  destruct (type_map_checked vars [] ∅ Hchecked) as (tm & Htm & Hdecl & Hother).
  assert (type_map_of schema = Ok tm) as Htype_map.
  { unfold type_map_of, variables_or_empty.
    rewrite (get_some _ _ _ _ Hvars). cbn [iter_list]. by rewrite bind_Ok. }
  exists tm. split; [exact Htype_map|]. split; [|split].
  - intros key ty (vars' & d & Hvars' & Hin & Hname & Htype).
    assert (vars' = vars) as -> by congruence. eapply Hdecl; eassumption.
  - intros key Hundeclared. rewrite Hother; [apply lookup_empty|].
    intros d Hin Hname.
    destruct (checked_variables_In _ _ _ Hchecked Hin) as (d' & name & ty & seen' & [= <-] & Hvar).
    apply (Hundeclared ty). exists vars, d. destruct Hvar. auto.
  - intros data.
    destruct (for_items_spec (coerce_entry tm) data) as (out & Hout & Hentries).
    { intros k v _. by destruct (coerce_entry_ok tm k v) as [v' ->]. }
    exists out. split; [|exact Hentries].
    unfold _preprocess_data. rewrite Htype_map, bind_Ok. exact Hout.
Qed.

Lemma take_digits_all l : Forall (λ cp, is_digit cp = true) (take_digits l).
Proof.
  induction l as [|cp rest IH]; [constructor|]. cbn [take_digits].
  destruct (is_digit cp) eqn:Hcp; by constructor.
Qed.

Lemma search_digits_all s run :
  search_digits s = Some run → run ≠ [] ∧ Forall (λ cp, is_digit cp = true) run.
Proof.
  unfold search_digits. generalize (code_points s) as l. intros l. revert run.
  induction l as [|cp rest IH]; intros run; [discriminate|].
  cbn [search_digits_in]. destruct (is_digit cp) eqn:Hcp; [|apply IH].
  intros [= <-]. split; [|apply (take_digits_all (cp :: rest))].
  cbn [take_digits]. by rewrite Hcp.
Qed.

Lemma digits_to_Z_nonneg run acc : 0 ≤ acc → 0 ≤ digits_to_Z acc run.
Proof.
  revert acc. induction run as [|cp rest IH]; intros acc Hacc; [exact Hacc|].
  cbn [digits_to_Z]. apply IH.
  destruct (decimal cp) as [d|] eqn:Hd; unfold default; cbn [from_option id]; [|lia].
  apply decimal_range in Hd. lia.
Qed.

(** What the integer coercion gives for a string. *)
Lemma coerce_integer_cases s :
  match search_digits s with
  | Some run =>
      if Nat.ltb int_max_str_digits (List.length run)
      then coerce_integer s = Ok VNone
      else coerce_integer s = Ok (VInt (digits_to_Z 0 run)) ∧ 0 ≤ digits_to_Z 0 run
  | None => coerce_integer s = Ok VNone
  end.
Proof.
  unfold coerce_integer. destruct (search_digits s) as [run|] eqn:Hrun; [|reflexivity].
  unfold int_of_digits. destruct (Nat.ltb _ _); [reflexivity|].
  split; [reflexivity|]. apply digits_to_Z_nonneg. lia.
Qed.

(** Among the ASCII characters the digits are "0" to "9", whatever the
    version of the Unicode database. *)
Lemma decimal_digit d : (d < 10)%N → decimal (48 + d) = Some (Z.of_N d).
Proof.
  intros Hd. rewrite decimal_ascii by lia.
  replace ((48 <=? 48 + d) && (48 + d <=? 57))%N with true; [f_equal; lia|].
  symmetry. apply andb_true_iff. split; apply N.leb_le; lia.
Qed.

Lemma decimal_other cp : (cp < 48)%N → decimal cp = None.
Proof.
  intros Hcp. rewrite decimal_ascii by lia.
  by replace (48 <=? cp)%N with false by (symmetry; apply N.leb_gt; lia).
Qed.

Lemma coerce_integer_score : coerce_integer "8/10" = Ok (VInt 8).
Proof.
  unfold coerce_integer, search_digits.
  change (code_points "8/10") with [48 + 8; 47; 48 + 1; 48 + 0]%N.
  cbn [search_digits_in take_digits]. unfold is_digit.
  rewrite (decimal_digit 8) by lia. rewrite (decimal_other 47) by lia.
  unfold int_of_digits. cbn [List.length]. change (Nat.ltb _ 1) with false.
  cbn [digits_to_Z]. rewrite (decimal_digit 8) by lia. reflexivity.
Qed.


End CoercionFacts.

Section CoercionClaims.
Context `{PyText}.

(** C3.  On every compiled schema and every record the coercion pass
    returns (it never raises) a record with the same keys in which: a
    value of an undeclared key, or one that already has the declared kind,
    is unchanged; for an integer field the string "8/10" becomes 8; for a
    boolean field a string that is "sí" up to case becomes true and one
    that is "no" up to case becomes false; and a string that cannot be
    coerced (no digit for an integer field, rejected by [float] for a float
    field, outside the vocabulary for a boolean field) becomes null. *)
Theorem preprocess_data_coercion loaded schema data :
  load_yaml_schema loaded = Ok schema →
  ∃ out, _preprocess_data data schema = Ok out ∧
    ∀ key, match data !! key with
      | None => out !! key = None
      | Some value =>
          (undeclared schema key → out !! key = Some value) ∧
          ∀ ty, declares schema key ty →
            (has_kind ty value = true → out !! key = Some value) ∧
            (eq_str ty "integer" = true → value = VStr "8/10" →
             out !! key = Some (VInt 8)) ∧
            (eq_str ty "boolean" = true → ∀ s, value = VStr s →
             (lower s = "sí" → out !! key = Some (VBool true)) ∧
             (lower s = "no" → out !! key = Some (VBool false)) ∧
             (str_in (strip (lower s)) (true_tokens ++ false_tokens) = false →
              out !! key = Some VNone)) ∧
            (eq_str ty "integer" = true → ∀ s, value = VStr s →
             search_digits s = None → out !! key = Some VNone) ∧
            (eq_str ty "float" = true → ∀ s, value = VStr s →
             float_of_str s = None → out !! key = Some VNone)
      end.
Proof.
  intros Hload. apply load_yaml_schema_inv in Hload as [_ Hcompiled].
  destruct (preprocess_data_entries schema Hcompiled)
    as (tm & _ & Hdecl & Hundecl & Hdata).
  destruct (Hdata data) as (out & Hout & Hentries).
  exists out. split; [exact Hout|]. intros key. specialize (Hentries key).
  destruct (data !! key) as [value|]; [|exact Hentries].
  destruct Hentries as (v & Hv & Hlookup). rewrite Hlookup. split.
  - intros Hu. unfold coerce_entry in Hv. rewrite (Hundecl key Hu) in Hv.
    destruct value; by inversion Hv.
  - intros ty Hty. unfold coerce_entry in Hv. rewrite (Hdecl key ty Hty) in Hv.
    split; [|split; [|split; [|split]]].
    + unfold has_kind. intros Hkind.
      destruct value as [| | | |s| |]; try by inversion Hv.
      destruct (eq_str ty "integer"); [discriminate Hkind|].
      destruct (eq_str ty "float"); [discriminate Hkind|].
      destruct (eq_str ty "boolean"); [discriminate Hkind|]. by inversion Hv.
    + intros Hint ->. rewrite Hint, coerce_integer_score in Hv. by inversion Hv.
    + intros Hbool s ->.
      destruct (eq_str ty "integer") eqn:Hi;
        [apply eq_str_true in Hi, Hbool; congruence|].
      destruct (eq_str ty "float") eqn:Hf;
        [apply eq_str_true in Hf, Hbool; congruence|].
      rewrite Hbool in Hv. unfold coerce_boolean in Hv. split; [|split].
      * intros Hs. rewrite Hs in Hv. by inversion Hv.
      * intros Hs. rewrite Hs in Hv. by inversion Hv.
      * unfold str_in. rewrite existsb_app. intros Hs.
        apply orb_false_iff in Hs as [Ht Hf']. unfold str_in in Hv.
        rewrite Ht, Hf' in Hv. by inversion Hv.
    + intros Hint s -> Hs. rewrite Hint in Hv. unfold coerce_integer in Hv.
      rewrite Hs in Hv. by inversion Hv.
    + intros Hfloat s -> Hs.
      destruct (eq_str ty "integer") eqn:Hi;
        [apply eq_str_true in Hi, Hfloat; congruence|].
      rewrite Hfloat in Hv. unfold coerce_float, py_float in Hv.
      rewrite Hs in Hv. by inversion Hv.
Qed.


End CoercionClaims.

Lemma scenario_schema_compiles :
  @load_yaml_schema Sample.sample_text (Ok (VDict Sample.scenario_schema))
  = Ok Sample.scenario_schema.
Proof. vm_refl. Qed.

Lemma preprocess_data_coercion_witness :
  @load_yaml_schema Sample.sample_text (Ok (VDict Sample.scenario_schema))
  = Ok Sample.scenario_schema ∧
  ∃ out, @_preprocess_data Sample.sample_text Sample.scenario_data Sample.scenario_schema
         = Ok out ∧
    ∀ key, match Sample.scenario_data !! key with
      | None => out !! key = None
      | Some value =>
          (undeclared Sample.scenario_schema key → out !! key = Some value) ∧
          ∀ ty, declares Sample.scenario_schema key ty →
            (has_kind ty value = true → out !! key = Some value) ∧
            (eq_str ty "integer" = true → value = VStr "8/10" →
             out !! key = Some (VInt 8)) ∧
            (eq_str ty "boolean" = true → ∀ s, value = VStr s →
             (lower s = "sí" → out !! key = Some (VBool true)) ∧
             (lower s = "no" → out !! key = Some (VBool false)) ∧
             (str_in (strip (lower s)) (true_tokens ++ false_tokens) = false →
              out !! key = Some VNone)) ∧
            (eq_str ty "integer" = true → ∀ s, value = VStr s →
             @search_digits Sample.sample_text s = None → out !! key = Some VNone) ∧
            (eq_str ty "float" = true → ∀ s, value = VStr s →
             @float_of_str Sample.sample_text s = None → out !! key = Some VNone)
      end.
Proof.
  split; [vm_refl|].
  apply (@preprocess_data_coercion Sample.sample_text
           (Ok (VDict Sample.scenario_schema))).
  vm_refl.
Defined.

Example scenario_coerced :
  @_preprocess_data Sample.sample_text Sample.scenario_data Sample.scenario_schema
  = Ok (list_to_map
          [("nombre", VStr "Ana Gomez"); ("edad", VInt 32);
           ("score_general", VInt 8); ("hay_foto_en_cv", VBool true)]).
Proof. vm_refl. Qed.

(** Digits and whitespace beyond ASCII, with the digits of Unicode 14.0:
    the Arabic-Indic numeral U+0663 U+0662 is read as 32 and a fullwidth
    U+FF18 as 8, and a no-break space after a token is stripped. *)
Example unicode_coercions :
  code_points (utf8 1635 +:+ utf8 1634 +:+ " años")
  = [1635; 1634; 32; 97; 241; 111; 115]%N
  ∧ @coerce_integer Sample.sample_text (utf8 1635 +:+ utf8 1634 +:+ " años")
    = Ok (VInt 32)
  ∧ @coerce_integer Sample.sample_text (utf8 65304 +:+ "/10") = Ok (VInt 8)
  ∧ coerce_boolean ("si" +:+ utf8 160) = Ok (VBool true)
  ∧ strip (utf8 8232 +:+ " a b " +:+ utf8 133 +:+ utf8 12288) = "a b".
Proof. repeat split; vm_refl. Qed.


(** ** Bounds in the schema loader *)

Section BoundsClaims.
Context `{PyText}.

Lemma validate_variables_app before var after index seen_names seen_names' :
  validate_variables before index seen_names = Ok seen_names' →
  validate_variables (before ++ var :: after) index seen_names =
  _validate_variable var (index + List.length before) seen_names'
    ≫= validate_variables after (S (index + List.length before)).
Proof.
  revert index seen_names. induction before as [|v rest IH]; intros index seen_names.
  - intros [= ->]. cbn. by rewrite Nat.add_0_r.
  - cbn [validate_variables app]. intros E. apply bind_ok in E as (s1 & Hv & Hrest).
    rewrite Hv, bind_Ok, (IH _ _ Hrest). cbn [List.length].
    by replace (S index + List.length rest)%nat with (index + S (List.length rest))%nat by lia.
Qed.

(** The error an integer variable with a bound that is not a number
    gets. *)
Lemma validate_variable_bad_bound d name index seen_names :
  d !! "name" = Some name → d !! "type" = Some (VStr "integer") →
  hashable name = true → seen name seen_names = false →
  (∃ m, d !! "min" = Some m ∧ is_number m = false) ∨
  (∃ m, d !! "max" = Some m ∧ is_number m = false) →
  ∃ bound, (bound = "min" ∨ bound = "max") ∧
    _validate_variable (VDict d) index seen_names =
    raise ValueError ("'" +:+ bound +:+ "' de '" +:+ py_str name +:+ "' debe ser un número").
Proof.
  intros Hname Htype Hhash Hfresh Hbad. unfold _validate_variable.
  rewrite (proj2 (contains_true d "name")) by eauto.
  rewrite (proj2 (contains_true d "type")) by eauto. cbn [negb].
  rewrite (proj2 (getitem_ok _ _ _) Hname), bind_Ok, Hhash. cbn [negb].
  rewrite Hfresh, (proj2 (getitem_ok _ _ _) Htype), bind_Ok.
  change (in_strs (VStr "integer") valid_types) with true. cbn [negb].
  change (eq_str (VStr "integer") "categorical") with false.
  change (eq_str (VStr "integer") "integer") with true. cbn [andb].
  destruct (d !! "min") as [lo|] eqn:Hlo.
  - rewrite (proj2 (contains_true d "min")) by eauto. rewrite (get_some _ _ _ _ Hlo).
    destruct (is_number lo) eqn:Hnum; cbn [negb].
    + destruct Hbad as [(m & [= <-] & Hm)|(m & Hm & Hnot)]; [congruence|].
      rewrite (proj2 (contains_true d "max")) by eauto.
      rewrite (get_some _ _ _ _ Hm), Hnot. exists "max". split; [by right|reflexivity].
    + exists "min". split; [by left|reflexivity].
  - rewrite (proj2 (contains_false d "min")) by exact Hlo.
    destruct Hbad as [(m & Hm & _)|(m & Hm & Hnot)]; [congruence|].
    rewrite (proj2 (contains_true d "max")) by eauto.
    rewrite (get_some _ _ _ _ Hm), Hnot. exists "max". split; [by right|reflexivity].
Qed.

(** C6, as the code has it.  The loader rejects, with an error naming the
    field, an integer variable whose [min] or [max] is not a number, and a
    schema that compiles has only numbers as bounds of its integer
    variables; it never compares [min] with [max]: a schema whose only
    variable is an integer or float field with bounds [lo] and [hi]
    compiles for all integers [lo] and [hi], also when [lo > hi]. *)
Theorem load_yaml_schema_bounds :
  (∀ schema before d after name seen_names,
     is_Some (schema !! "version") →
     schema !! "variables" = Some (VList (before ++ VDict d :: after)) →
     validate_variables before 0 [] = Ok seen_names →
     d !! "name" = Some name → d !! "type" = Some (VStr "integer") →
     hashable name = true → seen name seen_names = false →
     (∃ m, d !! "min" = Some m ∧ is_number m = false) ∨
     (∃ m, d !! "max" = Some m ∧ is_number m = false) →
     ∃ bound, (bound = "min" ∨ bound = "max") ∧
       load_yaml_schema (Ok (VDict schema)) =
       raise ValueError
         ("'" +:+ bound +:+ "' de '" +:+ py_str name +:+ "' debe ser un número")) ∧
  (∀ loaded schema vars d,
     load_yaml_schema loaded = Ok schema →
     schema !! "variables" = Some (VList vars) → In (VDict d) vars →
     d !! "type" = Some (VStr "integer") →
     ∀ bound m, bound = "min" ∨ bound = "max" → d !! bound = Some m →
                is_number m = true) ∧
  (∀ name ty (lo hi : Z),
     ty = "integer" ∨ ty = "float" →
     load_yaml_schema (Ok (VDict (Sample.bounded_schema name ty (VInt lo) (VInt hi))))
     = Ok (Sample.bounded_schema name ty (VInt lo) (VInt hi))).
Proof.
  split; [|split].
  - intros schema before d after name seen_names Hversion Hvars Hbefore
           Hname Htype Hhash Hfresh Hbad.
    destruct (validate_variable_bad_bound d name (0 + List.length before) seen_names
                Hname Htype Hhash Hfresh Hbad) as (bound & Hbound & E).
    exists bound. split; [exact Hbound|].
    unfold load_yaml_schema. cbn [try_except]. rewrite bind_Ok.
    rewrite (proj2 (contains_true schema "version")) by exact Hversion.
    rewrite (proj2 (contains_true schema "variables")) by eauto. cbn [negb].
    rewrite (get_some _ _ _ _ Hvars).
    by rewrite (validate_variables_app _ _ _ _ _ _ Hbefore), E.
  - intros loaded schema vars d Hload Hvars Hin Htype bound m Hbound Hm.
    apply load_yaml_schema_inv in Hload as [_ (_ & vars' & Hvars' & Hchecked)].
    assert (vars' = vars) as -> by congruence.
    destruct (checked_variables_In _ _ _ Hchecked Hin)
      as (d' & name & ty & seen' & [= <-] & Hvar).
    destruct Hvar as [_ Hty _ _ _ _ Hmin Hmax _ _].
    assert (ty = VStr "integer") as -> by congruence.
    destruct Hbound as [-> | ->]; [by eapply Hmin | by eapply Hmax].
  - intros name ty lo hi [-> | ->]; vm_refl.
Qed.

End BoundsClaims.

(** C6 as stated fails: a schema whose integer field [edad] declares
    [min: 80] and [max: 18] compiles. *)
Lemma inverted_bounds_compile :
  80 > 18 ∧
  declares inverted_bounds "edad" (VStr "integer") ∧
  (∃ vars d, inverted_bounds !! "variables" = Some (VList vars) ∧ In (VDict d) vars ∧
             d !! "min" = Some (VInt 80) ∧ d !! "max" = Some (VInt 18)) ∧
  @load_yaml_schema Sample.sample_text (Ok (VDict inverted_bounds)) = Ok inverted_bounds.
Proof.
  split; [lia|]. split; [|split].
  - eexists _, _. split; [vm_compute; reflexivity|].
    split; [left; reflexivity|]. split; vm_refl.
  - eexists _, _. split; [vm_compute; reflexivity|].
    split; [left; reflexivity|]. split; vm_refl.
  - vm_refl.
Qed.

Lemma load_yaml_schema_bounds_witness :
  is_Some (text_bound !! "version") ∧
  (∃ d, text_bound !! "variables" = Some (VList ([] ++ VDict d :: [])) ∧
        d !! "name" = Some (VStr "edad") ∧ d !! "type" = Some (VStr "integer") ∧
        d !! "min" = Some (VStr "dieciocho")) ∧
  (∃ bound, (bound = "min" ∨ bound = "max") ∧
     @load_yaml_schema Sample.sample_text (Ok (VDict text_bound)) =
     raise ValueError ("'" +:+ bound +:+ "' de '" +:+ "edad" +:+ "' debe ser un número")) ∧
  @load_yaml_schema Sample.sample_text
    (Ok (VDict (Sample.bounded_schema "edad" "float" (VInt 80) (VInt 18))))
  = Ok (Sample.bounded_schema "edad" "float" (VInt 80) (VInt 18)).
Proof.
  set (d := list_to_map [("name", VStr "edad"); ("type", VStr "integer");
                         ("min", VStr "dieciocho"); ("max", VInt 80)]
            : gmap string obj).
  split; [vm_compute; eauto|]. split.
  { exists d. repeat split; vm_refl. }
  split.
  - apply (proj1 (@load_yaml_schema_bounds Sample.sample_text)
             text_bound [] d [] (VStr "edad") []).
    + vm_compute. eauto.
    + vm_refl.
    + reflexivity.
    + vm_refl.
    + vm_refl.
    + reflexivity.
    + reflexivity.
    + left. exists (VStr "dieciocho"). split; [vm_refl|reflexivity].
  - apply (proj2 (proj2 (@load_yaml_schema_bounds Sample.sample_text))). by right.
Defined.

(** ** Derived fields *)

Lemma to_bool_not_list value :
  is_list value = false → ∃ b, to_bool value = Ok b.
Proof.
  intros Hlist. destruct value as [|b|z|f|s|l|d]; try discriminate Hlist;
    unfold to_bool; cbn [eq_str isna_truth].
  - by eexists.
  - by eexists.
  - by eexists.
  - rewrite bind_Ok. destruct (is_missing (VFloat f)); by eexists.
  - destruct (String.eqb s ""); [by eexists|]. by eexists.
  - by eexists.
Qed.

(** The rule of [calculate_derived_fields]: whenever the four signals
    normalise, the call returns and writes their conjunction. *)
Lemma preaprobado_conjunction result edad experiencia foto secundaria :
  to_bool (get result "edad_en_rango" (VBool false)) = Ok edad →
  experiencia_confirmada_of possible_exp_fields result = Ok experiencia →
  to_bool (get result "hay_foto_en_cv" (VBool false)) = Ok foto →
  to_bool (get result "secundaria_tecnica" (VBool false)) = Ok secundaria →
  calculate_derived_fields result =
  (<["preaprobado" := VBool (edad && experiencia && foto && secundaria)]> result, Ok tt).
Proof.
  intros He Hx Hf Hs. unfold calculate_derived_fields, preaprobado_value.
  by rewrite He, bind_Ok, Hx, bind_Ok, Hf, bind_Ok, Hs, bind_Ok.
Qed.

(** With all four signals true the roll-up is true; with any one of them
    false it is false. *)
Lemma conjunction_flips (edad experiencia foto secundaria : bool) :
  (edad && experiencia && foto && secundaria = true ↔
   edad = true ∧ experiencia = true ∧ foto = true ∧ secundaria = true) ∧
  false && experiencia && foto && secundaria = false ∧
  edad && false && foto && secundaria = false ∧
  edad && experiencia && false && secundaria = false ∧
  edad && experiencia && foto && false = false.
Proof.
  destruct edad, experiencia, foto, secundaria; cbn; intuition congruence.
Qed.

Example approved_record_preaprobado :
  calculate_derived_fields Sample.approved_record =
  (<["preaprobado" := VBool true]> Sample.approved_record, Ok tt).
Proof. vm_refl. Qed.

(** C4, the failing input.  On a record in which one of the four signal
    fields holds a list of two strings, [to_bool] raises the [ValueError]
    of the truth value of an array: [calculate_derived_fields] fails and
    writes no ["preaprobado"]. *)
Theorem calculate_derived_fields_list_signal_raises :
  calculate_derived_fields Sample.list_signal_record =
  (Sample.list_signal_record,
   raise ValueError
     "The truth value of an array with more than one element is ambiguous. Use a.any() or a.all()").
Proof. vm_refl. Qed.

(** C10.  Whatever the record, and whether the call returns or raises,
    [calculate_derived_fields] leaves every key other than ["preaprobado"]
    with the value it had, adds no other key and removes none; when it
    returns, ["preaprobado"] holds a boolean. *)
Theorem calculate_derived_fields_frame (result : gmap string obj) :
  (∀ key, key ≠ "preaprobado" →
          (calculate_derived_fields result).1 !! key = result !! key) ∧
  dom result ⊆ dom (calculate_derived_fields result).1 ∧
  dom (calculate_derived_fields result).1 ⊆ dom result ∪ {["preaprobado"]} ∧
  ((calculate_derived_fields result).2 = Ok tt →
   ∃ b, (calculate_derived_fields result).1 !! "preaprobado" = Some (VBool b)).
Proof.
  unfold calculate_derived_fields.
  destruct (preaprobado_value result) as [value|e]; cbn [fst snd].
  - split; [|split; [|split]].
    + intros key Hkey. by apply lookup_insert_ne.
    + rewrite dom_insert_L. apply union_subseteq_r.
    + rewrite dom_insert_L.
      apply union_least; [apply union_subseteq_r | apply union_subseteq_l].
    + intros _. exists value. apply lookup_insert_eq.
  - split; [|split; [|split]].
    + reflexivity.
    + reflexivity.
    + apply union_subseteq_l.
    + discriminate.
Qed.

(** ** Unknown keys *)

Section ExtraKeys.
Context `{PyText} `{Pydantic} `{JsonLib}.

(** A key that names no field has no effect on the instantiation of the
    model. *)
Lemma validate_fields_extra fields data key v :
  key ∉ fields.*1 →
  validate_fields fields (<[key := v]> data) = validate_fields fields data.
Proof.
  induction fields as [|[name t] rest IH]; [reflexivity|].
  cbn [fmap list_fmap fst]. intros Hnot. apply not_elem_of_cons in Hnot as [Hne Hrest].
  cbn [validate_fields]. rewrite (IH Hrest). unfold field_outcome.
  by rewrite lookup_insert_ne.
Qed.

(** The dumped instance holds declared fields only. *)
Lemma validate_fields_dom fields data key :
  key ∉ fields.*1 → (validate_fields fields data).2 !! key = None.
Proof.
  induction fields as [|[name t] rest IH]; [intros _; apply lookup_empty|].
  cbn [fmap list_fmap fst]. intros Hnot. apply not_elem_of_cons in Hnot as [Hne Hrest].
  cbn [validate_fields]. specialize (IH Hrest).
  destruct (validate_fields rest data) as [errors validated].
  destruct (field_outcome data name t); cbn [snd] in *; [exact IH|].
  by rewrite lookup_insert_ne.
Qed.

Lemma py_eqb_str_l s k : py_eqb (VStr s) k = true → k = VStr s.
Proof.
  destruct k as [|b|z|f|t|l|d]; cbn; try discriminate.
  intros E. apply String.eqb_eq in E. by subst.
Qed.

Lemma py_eqb_str_r k s : py_eqb k (VStr s) = true → k = VStr s.
Proof.
  destruct k as [|b|z|f|t|l|d]; cbn; try discriminate.
  - by destruct f as [|neg|m e].
  - intros E. apply String.eqb_eq in E. by subst.
Qed.

(** Equal keys compare alike with a string. *)
Lemma py_eqb_str_compat a b s :
  py_eqb a b = true → py_eqb b (VStr s) = py_eqb a (VStr s).
Proof.
  intros Hab. destruct (py_eqb a (VStr s)) eqn:Ha.
  - apply py_eqb_str_r in Ha as ->. apply py_eqb_str_l in Hab as ->.
    cbn. apply String.eqb_refl.
  - destruct (py_eqb b (VStr s)) eqn:Hb; [|reflexivity].
    apply py_eqb_str_r in Hb as ->. apply py_eqb_str_r in Hab as ->.
    cbn in Ha. by rewrite String.eqb_refl in Ha.
Qed.

(** The field names of the model are names of variables. *)
Lemma dict_set_keys {A} (k : obj) (v : A) l key :
  In (VStr key) (dict_set k v l).*1 → In (VStr key) l.*1 ∨ k = VStr key.
Proof.
  induction l as [|[k' v'] rest IH]; cbn -[same_key].
  - intros [->|[]]. by right.
  - destruct (same_key k k') eqn:Hk; cbn -[same_key]; [by left|].
    intros [->|Hin]; [by left; left|]. destruct (IH Hin); [left; by right | by right].
Qed.

Lemma add_field_keys vars seen_names acc0 fields key :
  checked_variables vars seen_names →
  foldl add_field (Ok acc0) vars = Ok fields →
  In (VStr key) fields.*1 →
  In (VStr key) acc0.*1 ∨ ∃ d, In (VDict d) vars ∧ d !! "name" = Some (VStr key).
Proof.
  intros Hchecked. revert acc0.
  induction Hchecked as [|d name ty rest seen_names Hvar Hrest IH]; intros acc0.
  - intros [= <-]. by left.
  - cbn [foldl]. destruct (add_field (Ok acc0) (VDict d)) as [acc1|e] eqn:Hadd.
    + intros Hfold Hin. destruct (IH acc1 Hfold Hin) as [Hacc|(d' & Hd' & Hname')].
      * unfold add_field in Hadd. rewrite bind_Ok in Hadd.
        destruct Hvar as [Hname Htype Hhash _ _ _ _ _ _ _].
        rewrite (proj2 (getitem_ok _ _ _) Hname), bind_Ok in Hadd.
        rewrite (proj2 (getitem_ok _ _ _) Htype), bind_Ok in Hadd.
        destruct (_get_pydantic_field d) as [t|e]; [|discriminate Hadd].
        rewrite bind_Ok, Hhash in Hadd. injection Hadd as <-.
        apply dict_set_keys in Hacc as [Hacc| ->]; [by left|].
        right. exists d. split; [by left | exact Hname].
      * right. exists d'. split; [by right | exact Hname'].
    + intros Hfold. exfalso. clear -Hfold.
      induction rest as [|v rest IHr]; [discriminate Hfold|]. apply IHr.
      exact Hfold.
Qed.

Lemma keywords_names {A} (fields : list (obj * A)) kw key :
  keywords fields = Ok kw → key ∈ kw.*1 → In (VStr key) fields.*1.
Proof.
  revert kw. induction fields as [|[k v] rest IH]; intros kw.
  - intros [= <-] Hin. by apply elem_of_nil in Hin.
  - unfold keywords. cbn [mapM]. intros E. apply bind_ok in E as ([n v'] & Hk & E).
    apply bind_ok in E as (kw' & Hrest & [= <-]).
    destruct k; try discriminate Hk. injection Hk as -> ->.
    cbn. intros Hin. apply elem_of_cons in Hin as [->|Hin]; [by left|].
    right. by apply (IH kw').
Qed.

Lemma coerce_entry_undeclared (type_map : gmap string obj) key value :
  type_map !! key = None → coerce_entry type_map key value = Ok value.
Proof. unfold coerce_entry. intros ->. by destruct value. Qed.

(** An undeclared key goes through the coercion pass untouched and does
    not change what the pass does to the other keys. *)
Lemma preprocess_extra_key schema data key v out :
  compiled schema → undeclared schema key →
  _preprocess_data data schema = Ok out →
  _preprocess_data (<[key := v]> data) schema = Ok (<[key := v]> out).
Proof.
  intros Hcompiled Hundeclared Hout.
  destruct (preprocess_data_entries schema Hcompiled)
    as (tm & _ & _ & Hundecl & Hall).
  destruct (Hall data) as (out0 & Hout0 & Hentries).
  assert (out0 = out) as -> by congruence.
  destruct (Hall (<[key := v]> data)) as (out' & Hout' & Hentries').
  rewrite Hout'. f_equal. apply map_eq. intros k.
  specialize (Hentries k). specialize (Hentries' k).
  destruct (decide (key = k)) as [<-|Hne].
  - rewrite lookup_insert_eq in Hentries' |- *.
    destruct Hentries' as (v' & Hv' & ->).
    rewrite (coerce_entry_undeclared tm key v (Hundecl key Hundeclared)) in Hv'.
    congruence.
  - rewrite lookup_insert_ne in Hentries' |- * by exact Hne.
    destruct (data !! k) as [value|].
    + destruct Hentries as (v1 & Hv1 & ->), Hentries' as (v2 & Hv2 & ->). congruence.
    + congruence.
Qed.

Lemma filter_names {A} (keep : string * A → bool) (l : list (string * A)) key :
  key ∈ (List.filter keep l).*1 → key ∈ l.*1.
Proof.
  intros Hin. apply list_elem_of_fmap in Hin as (x & -> & Hx).
  apply list_elem_of_fmap. exists x. split; [reflexivity|].
  apply list_elem_of_In. apply list_elem_of_In in Hx.
  by apply filter_In in Hx as [Hx _].
Qed.

(** The model built from a compiled schema has no field for an undeclared
    key. *)
Lemma model_fields_declared schema model key :
  compiled schema → undeclared schema key →
  create_pydantic_model schema = Ok model → key ∉ model.*1.
Proof.
  intros (_ & vars & Hvars & Hchecked) Hundeclared Hmodel Hin.
  unfold create_pydantic_model in Hmodel.
  rewrite (proj2 (getitem_ok _ _ _) Hvars), bind_Ok in Hmodel. cbn [iter_list] in Hmodel.
  rewrite bind_Ok in Hmodel.
  apply bind_ok in Hmodel as (fields & Hfields & Hmodel).
  apply bind_ok in Hmodel as (kw & Hkw & Hmodel).
  unfold create_model in Hmodel.
  destruct (create_model_raises kw.*1); [discriminate Hmodel|]. injection Hmodel as <-.
  apply filter_names in Hin.
  pose proof (keywords_names _ _ _ Hkw Hin) as Hkey.
  destruct (add_field_keys _ _ _ _ _ Hchecked Hfields Hkey) as [[]|(d & Hd & Hname)].
  destruct (checked_variables_In _ _ _ Hchecked Hd)
    as (d' & name & ty & seen' & [= <-] & Hvar).
  apply (Hundeclared ty). exists vars, d. destruct Hvar. auto.
Qed.

(** C2, the pydantic path in general.  On a compiled schema a key that the
    schema does not declare makes no difference to the outcome of
    [_validate_with_pydantic]: the record is accepted or rejected as it
    would be without the key, and when it is accepted the key is absent
    from the validated data. *)
Lemma pydantic_ignores_extra_key schema data key v :
  compiled schema → undeclared schema key →
  _validate_with_pydantic (<[key := v]> data) schema =
  _validate_with_pydantic data schema ∧
  ∀ validated, (_validate_with_pydantic data schema).1.2 = Some validated →
               validated !! key = None.
Proof.
  intros Hcompiled Hundeclared.
  destruct (preprocess_data_entries schema Hcompiled) as (tm & _ & _ & _ & Hall).
  destruct (Hall data) as (out & Hout & _).
  unfold _validate_with_pydantic.
  rewrite (preprocess_extra_key _ _ _ v _ Hcompiled Hundeclared Hout), Hout.
  destruct (create_pydantic_model schema) as [model|e] eqn:Hmodel;
    [|split; [reflexivity | discriminate]].
  pose proof (model_fields_declared _ _ _ Hcompiled Hundeclared Hmodel) as Hnot.
  unfold instantiate. rewrite (validate_fields_extra _ _ _ v Hnot).
  split; [reflexivity|].
  pose proof (validate_fields_dom model out key Hnot) as Hdom.
  destruct (validate_fields model out) as [[|err errs] validated]; cbn [fst snd] in *.
  - intros ? [= <-]. exact Hdom.
  - discriminate.
Qed.

(** *** The jsonschema path *)

Lemma json_property_ok d name ty seen_names :
  checked_variable d name ty seen_names →
  ∃ prop, _variable_to_json_schema_property d = Ok prop.
Proof.
  intros [_ Htype _ _ _ Hallowed _ _ Hprops _].
  unfold _variable_to_json_schema_property.
  rewrite (proj2 (getitem_ok _ _ _) Htype), bind_Ok.
  destruct (eq_str ty "categorical") eqn:Hcat.
  { destruct (Hallowed eq_refl) as [l Hl].
    rewrite (proj2 (getitem_ok _ _ _) Hl), !bind_Ok.
    destruct (negb _); by eexists. }
  destruct (eq_str ty "list[object]") eqn:Hlo.
  { destruct (Hprops eq_refl) as [props ->]. rewrite bind_Ok.
    destruct (negb _); by eexists. }
  destruct (eq_str ty "object"); rewrite bind_Ok; destruct (negb _); by eexists.
Qed.

Lemma property_of_dict_set name prop props key :
  property_of props key = None → py_eqb name (VStr key) = false →
  property_of (dict_set name prop props) key = None.
Proof.
  intros Hnone Hname. induction props as [|[k' v'] rest IH]; cbn -[same_key].
  - by rewrite Hname.
  - cbn in Hnone. destruct (py_eqb k' (VStr key)) eqn:Hk'; [discriminate Hnone|].
    destruct (same_key name k'); cbn -[same_key]; rewrite Hk';
      [exact Hnone | by apply IH].
Qed.

Lemma add_property_checked vars seen_names properties required key :
  checked_variables vars seen_names →
  property_of properties key = None →
  (∀ d, In (VDict d) vars → d !! "name" ≠ Some (VStr key)) →
  ∃ properties' required',
    foldl add_property (Ok (properties, required)) vars = Ok (properties', required') ∧
    property_of properties' key = None.
Proof.
  intros Hchecked. revert properties required.
  induction Hchecked as [|d name ty rest seen_names Hvar Hrest IH];
    intros properties required Hnone Hnames.
  - by exists properties, required.
  - cbn [foldl]. unfold add_property at 2. rewrite bind_Ok.
    destruct (json_property_ok _ _ _ _ Hvar) as [prop Hprop].
    destruct Hvar as [Hname Htype Hhash _ _ _ _ _ _ _].
    rewrite (proj2 (getitem_ok _ _ _) Hname), bind_Ok.
    rewrite (proj2 (getitem_ok _ _ _) Htype), bind_Ok, Hprop, bind_Ok, Hhash.
    apply IH.
    + apply property_of_dict_set; [exact Hnone|].
      destruct (py_eqb name (VStr key)) eqn:Hk; [|reflexivity].
      apply py_eqb_str_r in Hk as ->. exfalso. by apply (Hnames d); [left|].
    + intros d' Hin. apply Hnames. by right.
Qed.

(** C2 on the sibling path.  With [use_pydantic=False] a record that holds
    a key the compiled schema does not declare is rejected. *)
Lemma jsonschema_rejects_extra_key schema data key v :
  compiled schema → undeclared schema key → data !! key = Some v →
  ∃ msg, validate_extraction data schema false = (false, None, Some msg).
Proof.
  intros Hcompiled Hundeclared Hkey.
  pose proof Hcompiled as (_ & vars & Hvars & Hchecked).
  destruct (add_property_checked vars [] [] [] key Hchecked eq_refl)
    as (properties & required & Hfold & Hnone).
  { intros d Hin Hname.
    destruct (checked_variables_In _ _ _ Hchecked Hin)
      as (d' & name & ty & seen' & [= <-] & Hvar).
    apply (Hundeclared ty). exists vars, d. destruct Hvar. auto. }
  unfold validate_extraction, _validate_with_jsonschema, schema_to_json_schema.
  rewrite (proj2 (getitem_ok _ _ _) Hvars), bind_Ok. cbn [iter_list].
  rewrite bind_Ok, Hfold, !bind_Ok.
  unfold jsonschema_validate. cbn [js_properties js_additional_properties js_required].
  destruct (check_schema_raises properties); [by eexists|].
  assert (In key (List.filter (λ key, bool_decide (property_of properties key = None))
                              (map fst (map_to_list data)))) as Hin.
  { apply filter_In. split.
    - apply in_map_iff. exists (key, v). split; [reflexivity|].
      apply list_elem_of_In, elem_of_map_to_list, Hkey.
    - by apply bool_decide_eq_true. }
  destruct (List.filter _ _) as [|first rest]; [destruct Hin|]. by eexists.
Qed.

End ExtraKeys.

Lemma hallucinated_key_undeclared :
  undeclared Sample.scenario_schema "salario_pretendido".
Proof.
  intros ty (vars & d & Hvars & Hin & Hname & _).
  vm_compute in Hvars. injection Hvars as <-.
  repeat (destruct Hin as [[= <-]|Hin]; [vm_compute in Hname; discriminate Hname|]).
  destruct Hin.
Qed.

(** C2, the failing input.  The record satisfies every declared field of
    the schema and carries the undeclared key ["salario_pretendido"]:
    [validate_extraction], which validates with pydantic by default,
    accepts it and returns the validated data without that key. *)
Theorem validate_extraction_drops_extra_key :
  load_yaml_schema (H := Sample.sample_text) (Ok (VDict Sample.scenario_schema))
  = Ok Sample.scenario_schema ∧
  undeclared Sample.scenario_schema "salario_pretendido" ∧
  Sample.hallucinated_data !! "salario_pretendido" = Some (VInt 1000) ∧
  validate_extraction (H := Sample.sample_text) (H0 := Sample.sample_pydantic)
    (H1 := Sample.sample_json) Sample.hallucinated_data Sample.scenario_schema true
  = (true,
     Some (list_to_map
             [("nombre", VStr "Ana Gomez"); ("edad", VNone);
              ("score_general", VInt 8); ("hay_foto_en_cv", VNone)]),
     None).
Proof.
  split; [vm_refl|]. split; [exact hallucinated_key_undeclared|].
  split; vm_refl.
Qed.

Example jsonschema_rejects_hallucinated_key :
  validate_extraction (H := Sample.sample_text) (H0 := Sample.sample_pydantic)
    (H1 := Sample.sample_json) Sample.hallucinated_data Sample.scenario_schema false
  = (false, None,
     Some "Error de validación en '$': Additional properties are not allowed ('salario_pretendido' was unexpected)").
Proof. vm_refl. Qed.

(** ** The correction retry *)

Section RetryFacts.
Context `{PyText} `{Pydantic} `{JsonLib} `{Provider}.

(** [_retry_with_correction], step by step. *)
Lemma retry_with_correction_run (self : Client) correction_prompt schema retry_count
    text cfg w :
  OpenAIClient._retry_with_correction self correction_prompt schema retry_count
    text cfg w =
  match OpenAIClient._build_extraction_prompt self text schema cfg with
  | Raise e => (Raise e, w)
  | Ok (system_prompt, user_prompt) =>
      let request := correction_request self system_prompt user_prompt correction_prompt in
      match complete request (provider_state w) with
      | (Raise e, p) =>
          (raise Exception_
             (("Error en reintento " +:+ str_of_nat retry_count +:+ ": ") +:+ exn_str e),
           sent w request p)
      | (Ok response_text, p) =>
          (match judge schema response_text with
           | Valid validated => Ok validated
           | j => from_option Raise (Ok ∅) (retry_error retry_count j)
           end,
           sent w request p)
      end
  end.
Proof.
  unfold OpenAIClient._retry_with_correction, mbind, M_mbind, M_bind, lift.
  destruct (OpenAIClient._build_extraction_prompt self text schema cfg)
    as [[system_prompt user_prompt]|e]; [|reflexivity].
  unfold rewrap, chat_completion, correction_request, sent. cbn zeta.
  destruct (complete _ (provider_state w)) as [[response_text|e] p]; [|reflexivity].
  unfold judge. destruct (parse_json_safely response_text) as [[data parse_error]|e];
    [|reflexivity].
  destruct (error_text parse_error) as [msg|]; [reflexivity|].
  destruct (validate_parsed data schema) as [[is_valid validated_data] validation_error].
  destruct is_valid; reflexivity.
Qed.

(** The body of [extract_profile], step by step. *)
Lemma extract_profile_body_run (self : Client) text schema cfg retry_count w :
  OpenAIClient.extract_profile_body self text schema cfg retry_count w =
  let cfg' := Some (default create_default_config cfg) in
  match OpenAIClient._build_extraction_prompt self text schema cfg' with
  | Raise e => (Raise e, w)
  | Ok (system_prompt, user_prompt) =>
      let request := first_request self system_prompt user_prompt in
      match complete request (provider_state w) with
      | (Raise e, p) =>
          (raise Exception_ ("Error llamando a OpenAI API: " +:+ exn_str e),
           sent w request p)
      | (Ok response_text, p) =>
          match judge schema response_text with
          | Valid validated => (Ok validated, sent w request p)
          | Crashed e => (Raise e, sent w request p)
          | ParseError msg =>
              if Nat.ltb retry_count 1 then
                OpenAIClient._retry_with_correction self
                  (generate_correction_prompt response_text msg schema) schema
                  (retry_count + 1) text cfg' (sent w request p)
              else
                (raise ValueError
                   ("No se pudo parsear JSON después de "
                    +:+ str_of_nat (retry_count + 1) +:+ " intentos: " +:+ msg),
                 sent w request p)
          | ValidationError msg =>
              if Nat.ltb retry_count 1 then
                OpenAIClient._retry_with_correction self
                  (generate_correction_prompt response_text msg schema) schema
                  (retry_count + 1) text cfg' (sent w request p)
              else
                (raise ValueError
                   ("Validación falló después de "
                    +:+ str_of_nat (retry_count + 1) +:+ " intentos: " +:+ msg),
                 sent w request p)
          end
      end
  end.
Proof.
  unfold OpenAIClient.extract_profile_body, mbind, M_mbind, M_bind, lift. cbn zeta.
  destruct (OpenAIClient._build_extraction_prompt self text schema
              (Some (default create_default_config cfg)))
    as [[system_prompt user_prompt]|e]; [|reflexivity].
  unfold rewrap, chat_completion, first_request, sent.
  destruct (complete _ (provider_state w)) as [[response_text|e] p]; [|reflexivity].
  unfold judge. destruct (parse_json_safely response_text) as [[data parse_error]|e];
    [|reflexivity].
  destruct (error_text parse_error) as [msg|];
    [destruct (Nat.ltb retry_count 1); reflexivity|].
  destruct (validate_parsed data schema) as [[is_valid validated_data] validation_error].
  destruct is_valid; [reflexivity|]. cbn [negb].
  destruct (Nat.ltb retry_count 1); reflexivity.
Qed.

End RetryFacts.

(** ** Building the prompt *)

Section PromptFacts.
Context `{PyText}.

Lemma format_variable_ok d name ty seen_names :
  checked_variable d name ty seen_names →
  ∃ description,
    type_description d ty = Ok description ∧
    format_variable (VDict d) =
    Ok ("  " +:+ dq +:+ py_str name +:+ dq +:+ ": " +:+ description
        +:+ (if truthy (get d "required" (VBool false)) then " [REQUERIDO]"
             else " [opcional, puede ser null]")).
Proof.
  intros [Hname Htype _ _ _ Hallowed _ _ _ _].
  assert (∃ description, type_description d ty = Ok description) as [description Hdesc].
  { unfold type_description.
    destruct (eq_str ty "string"); [by eexists|].
    destruct (eq_str ty "boolean"); [by eexists|].
    destruct (eq_str ty "integer"); [by eexists|].
    destruct (eq_str ty "categorical").
    { destruct (Hallowed eq_refl) as [l Hl].
      rewrite (proj2 (getitem_ok _ _ _) Hl), bind_Ok. by eexists. }
    destruct (eq_str ty "list[string]"); [by eexists|].
    destruct (eq_str ty "list[object]"); by eexists. }
  exists description. split; [exact Hdesc|]. unfold format_variable.
  rewrite (proj2 (getitem_ok _ _ _) Hname), bind_Ok.
  by rewrite (proj2 (getitem_ok _ _ _) Htype), bind_Ok, Hdesc, bind_Ok.
Qed.

Lemma format_variables_ok vars seen_names :
  checked_variables vars seen_names →
  ∃ lines, mapM format_variable vars = Ok lines ∧ List.length lines = List.length vars.
Proof.
  induction 1 as [|d name ty rest seen_names Hvar Hrest (lines & IH & Hlen)].
  - by exists [].
  - destruct (format_variable_ok _ _ _ _ Hvar) as (description & _ & Hline).
    eexists (_ :: lines). cbn [mapM]. rewrite Hline, bind_Ok.
    change (mapM format_variable rest) with (mapM format_variable rest) in IH.
    split; [by rewrite IH | cbn; by rewrite Hlen].
Qed.

(** On a compiled schema, with a template whose age range is a string
    (every predefined template), the prompt is built. *)
Lemma build_full_prompt_ok (cfg : PromptConfig) cv_text schema :
  compiled schema →
  is_Some (match get (template cfg) "rango_edad" (VStr "25-45") with
           | VStr r => Some r
           | _ => None
           end) →
  ∃ system_prompt user_prompt,
    build_full_prompt cfg cv_text schema = Ok (system_prompt, user_prompt).
Proof.
  intros (_ & vars & Hvars & Hchecked) Hrango.
  destruct (format_variables_ok _ _ Hchecked) as (lines & Hlines & _).
  unfold build_full_prompt, format_schema_for_prompt, schema_prompt_lines.
  rewrite (proj2 (getitem_ok _ _ _) Hvars), bind_Ok. cbn [iter_list].
  rewrite bind_Ok, Hlines, !bind_Ok.
  unfold get_field_definitions.
  destruct (get (template cfg) "rango_edad" (VStr "25-45")) as [| | | |r| |];
    try (destruct Hrango as [? Hr]; discriminate Hr).
  cbn zeta. rewrite bind_Ok. by eexists _, _.
Qed.

End PromptFacts.

(** ** The retry bound and the pinned temperature *)

Section RetryClaims.
Context `{PyText} `{Pydantic} `{JsonLib} `{Provider}.

(** C1.  On a compiled schema, with a provider whose every response fails
    parsing or validation, [OpenAIClient.extract_profile] sends exactly
    two requests, the first with the temperature of the client and the
    second, the correction attempt, with 0.1, and then raises a
    [ValueError] whose text ends with the parse or validation message of
    the second response; it returns nothing. *)
Theorem extract_profile_retry_bound (self : Client) text loaded schema cfg w :
  load_yaml_schema loaded = Ok schema →
  plain_range (default create_default_config cfg) →
  always_invalid schema →
  ∃ first correction text1 state1 text2 state2 msg,
    complete first (provider_state w) = (Ok text1, state1) ∧
    complete correction state1 = (Ok text2, state2) ∧
    invalid_response schema text2 msg ∧
    calls (OpenAIClient.extract_profile self text schema cfg w).2
    = (calls w ++ [first; correction])%list ∧
    provider_state (OpenAIClient.extract_profile self text schema cfg w).2 = state2 ∧
    req_temperature first = temperature self ∧
    req_temperature correction = float_0_1 ∧
    ((judge schema text2 = ParseError msg ∧
      (OpenAIClient.extract_profile self text schema cfg w).1
      = raise ValueError ("Error parseando JSON en reintento 1: " +:+ msg)) ∨
     (judge schema text2 = ValidationError msg ∧
      (OpenAIClient.extract_profile self text schema cfg w).1
      = raise ValueError ("Validación falló en reintento 1: " +:+ msg))).
Proof.
  intros Hload Hrange Hinvalid.
  apply load_yaml_schema_inv in Hload as [_ Hcompiled].
  destruct (build_full_prompt_ok (default create_default_config cfg) text schema
              Hcompiled Hrange) as (system_prompt & user_prompt & Hprompt).
  assert (OpenAIClient._build_extraction_prompt self text schema
            (Some (default create_default_config cfg))
          = Ok (system_prompt, user_prompt)) as Hbuild by exact Hprompt.
  set (first := first_request self system_prompt user_prompt).
  destruct (Hinvalid first (provider_state w)) as (text1 & p1 & msg1 & Hfirst & Hjudge1).
  set (w1 := sent w first p1).
  set (correction_prompt := generate_correction_prompt text1 msg1 schema).
  set (correction := correction_request self system_prompt user_prompt correction_prompt).
  destruct (Hinvalid correction p1) as (text2 & p2 & msg2 & Hsecond & Hjudge2).
  assert (OpenAIClient.extract_profile_body self text schema cfg 0 w =
          OpenAIClient._retry_with_correction self correction_prompt schema 1 text
            (Some (default create_default_config cfg)) w1) as Hbody.
  { rewrite extract_profile_body_run. cbn zeta. rewrite Hbuild.
    fold first. rewrite Hfirst. by destruct Hjudge1 as [-> | ->]. }
  assert (OpenAIClient._retry_with_correction self correction_prompt schema 1 text
            (Some (default create_default_config cfg)) w1 =
          (from_option Raise (Ok ∅) (retry_error 1 (judge schema text2)),
           sent w1 correction p2)) as Hretry.
  { rewrite retry_with_correction_run, Hbuild. cbn zeta. fold correction.
    change (provider_state w1) with p1. rewrite Hsecond.
    by destruct Hjudge2 as [-> | ->]. }
  assert (OpenAIClient.extract_profile self text schema cfg w =
          (from_option Raise (Ok ∅) (retry_error 1 (judge schema text2)),
           sent w1 correction p2)) as Hrun.
  { unfold OpenAIClient.extract_profile, retry. cbn [Nat.sub retrying].
    rewrite Hbody, Hretry. by destruct Hjudge2 as [-> | ->]. }
  exists first, correction, text1, p1, text2, p2, msg2.
  rewrite Hrun. cbn [fst snd].
  split; [exact Hfirst|]. split; [exact Hsecond|]. split; [exact Hjudge2|].
  split; [unfold sent, w1, sent; cbn [calls]; by rewrite <- app_assoc|].
  split; [reflexivity|]. split; [reflexivity|]. split; [reflexivity|].
  destruct Hjudge2 as [Hj | Hj]; rewrite Hj; [left | right]; by split.
Qed.

(** Whatever the provider answers, [OpenAIClient.extract_profile] sends
    at most two requests: the first with the temperature of the client, a
    second one, if any, with 0.1. *)
Lemma extract_profile_calls (self : Client) text schema cfg w :
  ∃ sent_requests,
    calls (OpenAIClient.extract_profile self text schema cfg w).2
    = (calls w ++ sent_requests)%list ∧
    (List.length sent_requests ≤ 2)%nat ∧
    (∀ request, sent_requests !! 0%nat = Some request →
                req_temperature request = temperature self) ∧
    (∀ request, sent_requests !! 1%nat = Some request →
                req_temperature request = float_0_1).
Proof.
  assert (∀ correction_prompt w1 first,
    calls w1 = (calls w ++ [first])%list → req_temperature first = temperature self →
    ∃ sent_requests,
      calls (OpenAIClient._retry_with_correction self correction_prompt schema (0 + 1)
               text (Some (default create_default_config cfg)) w1).2
      = (calls w ++ sent_requests)%list ∧
      (List.length sent_requests ≤ 2)%nat ∧
      (∀ request, sent_requests !! 0%nat = Some request →
                  req_temperature request = temperature self) ∧
      (∀ request, sent_requests !! 1%nat = Some request →
                  req_temperature request = float_0_1)) as Hretry.
  { intros correction_prompt w1 first Hw1 Hfirst. rewrite retry_with_correction_run.
    destruct (OpenAIClient._build_extraction_prompt self text schema _)
      as [[system_prompt user_prompt]|e].
    - cbn zeta. destruct (complete _ (provider_state w1)) as [[response_text|e] p];
        (eexists [first; _]; cbn [snd sent calls]; rewrite Hw1, <- app_assoc;
         split; [reflexivity|]; split; [cbn; lia|];
         split; intros request [= <-]; [exact Hfirst | reflexivity]).
    - exists [first]. cbn [snd]. split; [exact Hw1|]. split; [cbn; lia|].
      split; [by intros request [= <-] | intros request [=]]. }
  assert (∀ request p, ∃ sent_requests,
    calls (sent w request p) = (calls w ++ sent_requests)%list ∧
    (List.length sent_requests ≤ 2)%nat ∧
    (∀ r, sent_requests !! 0%nat = Some r → req_temperature request = req_temperature r) ∧
    (∀ r, sent_requests !! 1%nat = Some r →
          req_temperature r = float_0_1)) as Hone.
  { intros request p. exists [request]. split; [reflexivity|]. split; [cbn; lia|].
    split; [by intros r [= <-] | intros r [=]]. }
  unfold OpenAIClient.extract_profile, retry. cbn [Nat.sub retrying].
  assert (∃ sent_requests,
    calls (OpenAIClient.extract_profile_body self text schema cfg 0 w).2
    = (calls w ++ sent_requests)%list ∧
    (List.length sent_requests ≤ 2)%nat ∧
    (∀ request, sent_requests !! 0%nat = Some request →
                req_temperature request = temperature self) ∧
    (∀ request, sent_requests !! 1%nat = Some request →
                req_temperature request = float_0_1)) as Hbody.
  { rewrite extract_profile_body_run. cbn zeta.
    destruct (OpenAIClient._build_extraction_prompt self text schema _)
      as [[system_prompt user_prompt]|e].
    2:{ exists []. cbn [snd]. split; [by rewrite app_nil_r|]. split; [cbn; lia|].
        split; intros request [=]. }
    set (first := first_request self system_prompt user_prompt).
    assert (∃ sent_requests, ∀ p,
      calls (sent w first p) = (calls w ++ sent_requests)%list ∧
      (List.length sent_requests ≤ 2)%nat ∧
      (∀ request, sent_requests !! 0%nat = Some request →
                  req_temperature request = temperature self) ∧
      (∀ request, sent_requests !! 1%nat = Some request →
                  req_temperature request = float_0_1)) as [l Hsingle].
    { exists [first]. intros p. split; [reflexivity|]. split; [cbn; lia|].
      split; [by intros r [= <-] | intros r [=]]. }
    destruct (complete first (provider_state w)) as [[response_text|e] p];
      [|exists l; apply Hsingle].
    destruct (judge schema response_text);
      [exists l; apply Hsingle | | | exists l; apply Hsingle];
      (change (0 <? 1)%nat with true; cbn iota;
       by apply (Hretry _ (sent w first p) first)). }
  destruct (OpenAIClient.extract_profile_body self text schema cfg 0 w) as [[a|e] w'];
    exact Hbody.
Qed.

(** C7.  The correction attempt does not read the temperature of the
    client: on an accepted schema, two clients that differ only in their
    temperature run [_retry_with_correction] identically from any state,
    and each sends exactly one request, the same for both, whose
    temperature is 0.1. *)
Theorem correction_temperature_pinned model_name max_tokens_given t1 t2
    correction_prompt loaded schema retry_count text cfg w :
  load_yaml_schema loaded = Ok schema →
  plain_range (default create_default_config cfg) →
  let run t :=
    OpenAIClient._retry_with_correction (mk_client model_name t max_tokens_given)
      correction_prompt schema retry_count text cfg w in
  run t1 = run t2 ∧
  ∃ request,
    calls (run t1).2 = (calls w ++ [request])%list ∧
    calls (run t2).2 = (calls w ++ [request])%list ∧
    req_temperature request = float_0_1.
Proof.
  intros Hload Hrange run.
  apply load_yaml_schema_inv in Hload as [_ Hcompiled].
  destruct (build_full_prompt_ok (default create_default_config cfg) text schema
              Hcompiled Hrange) as (system_prompt & user_prompt & Hprompt).
  assert (∀ t, OpenAIClient._build_extraction_prompt
                 (mk_client model_name t max_tokens_given) text schema cfg
               = Ok (system_prompt, user_prompt)) as Hbuild by (intros t; exact Hprompt).
  assert (run t1 = run t2) as Hsame.
  { unfold run. by rewrite !retry_with_correction_run, !Hbuild. }
  split; [exact Hsame|]. rewrite <- Hsame.
  exists (correction_request (mk_client model_name t1 max_tokens_given)
            system_prompt user_prompt correction_prompt).
  unfold run. rewrite retry_with_correction_run, Hbuild. cbn zeta.
  destruct (complete _ (provider_state w)) as [[response_text|e] p];
    by repeat split.
Qed.

End RetryClaims.

Lemma not_json_always_invalid :
  always_invalid (H := Sample.sample_text) (H0 := Sample.sample_pydantic)
    (H1 := Sample.sample_json) (H2 := not_json) Sample.scenario_schema.
Proof.
  intros request state. eexists _, _, _. split; [reflexivity|].
  left. vm_compute. reflexivity.
Qed.

Lemma extract_profile_retry_bound_witness :
  load_yaml_schema (H := Sample.sample_text) (Ok (VDict Sample.scenario_schema))
  = Ok Sample.scenario_schema ∧
  plain_range (default create_default_config None) ∧
  always_invalid (H := Sample.sample_text) (H0 := Sample.sample_pydantic)
    (H1 := Sample.sample_json) (H2 := not_json) Sample.scenario_schema ∧
  ∃ first correction text1 state1 text2 state2 msg,
    @complete not_json first (0%nat : @provider not_json) = (Ok text1, state1) ∧
    @complete not_json correction state1 = (Ok text2, state2) ∧
    invalid_response (H := Sample.sample_text) (H0 := Sample.sample_pydantic)
      (H1 := Sample.sample_json) Sample.scenario_schema text2 msg ∧
    calls (OpenAIClient.extract_profile (H := Sample.sample_text)
             (H0 := Sample.sample_pydantic) (H1 := Sample.sample_json) (H2 := not_json)
             sample_client "Ana Gomez, electricista" Sample.scenario_schema None
             (@mk_world not_json 0%nat [])).2
    = [first; correction] ∧
    state2 = (2%nat : @provider not_json) ∧
    req_temperature first = FNum 1 (-1) ∧
    req_temperature correction = float_0_1 ∧
    (OpenAIClient.extract_profile (H := Sample.sample_text)
       (H0 := Sample.sample_pydantic) (H1 := Sample.sample_json) (H2 := not_json)
       sample_client "Ana Gomez, electricista" Sample.scenario_schema None
       (@mk_world not_json 0%nat [])).1
    = raise ValueError
        ("Error parseando JSON en reintento 1: " +:+ msg).
Proof.
  split; [vm_refl|]. split; [vm_compute; eauto|].
  split; [exact not_json_always_invalid|].
  destruct (extract_profile_retry_bound (H := Sample.sample_text)
              (H0 := Sample.sample_pydantic) (H1 := Sample.sample_json) (H2 := not_json)
              sample_client "Ana Gomez, electricista" (Ok (VDict Sample.scenario_schema))
              Sample.scenario_schema None (@mk_world not_json 0%nat []))
    as (first & correction & text1 & state1 & text2 & state2 & msg
        & Hfirst & Hsecond & Hinvalid & Hcalls & Hstate & Ht1 & Ht2 & Herror).
  - vm_refl.
  - vm_compute. eauto.
  - exact not_json_always_invalid.
  - exists first, correction, text1, state1, text2, state2, msg.
    split; [exact Hfirst|]. split; [exact Hsecond|]. split; [exact Hinvalid|].
    split; [exact Hcalls|].
    split; [cbn in Hfirst, Hsecond; congruence|].
    split; [exact Ht1|]. split; [exact Ht2|].
    destruct Herror as [[_ Herror]|[Hjudge _]]; [exact Herror|].
    exfalso. cbn in Hsecond. injection Hsecond as <- _.
    vm_compute in Hjudge. discriminate Hjudge.
Defined.

Lemma correction_temperature_pinned_witness :
  @load_yaml_schema Sample.sample_text (Ok (VDict Sample.scenario_schema))
  = Ok Sample.scenario_schema ∧
  plain_range (default create_default_config None) ∧
  let run t :=
    @OpenAIClient._retry_with_correction Sample.sample_text Sample.sample_pydantic
      Sample.sample_json not_json (mk_client "gpt-4o-mini" t (Some 2000))
      "Error parseando JSON" Sample.scenario_schema 1 "Ana Gomez, electricista" None
      (@mk_world not_json 0%nat []) in
  run (FNum 0 0) = run (FNum 1 0) ∧
  ∃ request,
    calls (run (FNum 0 0)).2 = [request] ∧
    calls (run (FNum 1 0)).2 = [request] ∧
    req_temperature request = float_0_1.
Proof.
  split; [vm_refl|]. split; [vm_compute; eauto|].
  apply (@correction_temperature_pinned Sample.sample_text Sample.sample_pydantic
           Sample.sample_json not_json "gpt-4o-mini" (Some 2000) (FNum 0 0) (FNum 1 0)
           "Error parseando JSON" (Ok (VDict Sample.scenario_schema))
           Sample.scenario_schema 1 "Ana Gomez, electricista" None
           (@mk_world not_json 0%nat [])).
  - vm_refl.
  - vm_compute. eauto.
Defined.

(** C7, as worded.  The pinned value is not the most deterministic
    setting: a client configured at temperature 0.0, which the application
    offers, sends its first request at 0.0 and its correction request at
    0.1, a higher temperature than its own. *)
Theorem correction_temperature_not_lowest :
  let run := OpenAIClient.extract_profile (H := Sample.sample_text)
               (H0 := Sample.sample_pydantic) (H1 := Sample.sample_json) (H2 := not_json)
               coldest_client "Ana Gomez, electricista" Sample.scenario_schema None
               (@mk_world not_json 0%nat []) in
  map req_temperature (calls run.2) = [temperature coldest_client; float_0_1]
  ∧ float_ltb (temperature coldest_client) float_0_1 = true.
Proof. vm_compute. split; reflexivity. Qed.

Example openai_two_calls_then_error :
  let run := OpenAIClient.extract_profile (H := Sample.sample_text)
               (H0 := Sample.sample_pydantic) (H1 := Sample.sample_json) (H2 := not_json)
               sample_client "Ana Gomez, electricista" Sample.scenario_schema None
               (@mk_world not_json 0%nat []) in
  run.1 = raise ValueError
            "Error parseando JSON en reintento 1: Error parseando JSON: Expecting value: line 1 column 1 (char 0)"
  ∧ List.length (calls run.2) = 2%nat
  ∧ map req_temperature (calls run.2) = [FNum 1 (-1); float_0_1].
Proof. vm_compute. repeat split; reflexivity. Qed.

(** The LiteLLM client wraps the same body in
    [stop_after_attempt(3)]: with the same stub the whole extraction is
    run three times, six requests in all. *)
Example litellm_six_calls :
  let run := LiteLLMClient.extract_profile (H := Sample.sample_text)
               (H0 := Sample.sample_pydantic) (H1 := Sample.sample_json) (H2 := not_json)
               sample_client "Ana Gomez, electricista" Sample.scenario_schema None
               (@mk_world not_json 0%nat []) in
  run.1 = raise ValueError
            "Error parseando JSON en reintento: Error parseando JSON: Expecting value: line 1 column 1 (char 0)"
  ∧ List.length (calls run.2) = 6%nat
  ∧ map req_temperature (calls run.2)
    = [FNum 1 (-1); float_0_1; FNum 1 (-1); float_0_1; FNum 1 (-1); float_0_1].
Proof. vm_compute. repeat split; reflexivity. Qed.

(** ** Errors carry a text *)

Lemma described_prefix cls (c : ascii) (prefix rest : string) :
  described (mk_exn cls (String c prefix +:+ rest)).
Proof. unfold described. cbn. discriminate. Qed.

Lemma raises_described_ok {A} (a : A) : raises_described (Ok a).
Proof. intros e [=]. Qed.

Lemma raises_described_raise {A} cls (c : ascii) (prefix : string) :
  raises_described (A := A) (raise cls (String c prefix)).
Proof. intros e [= <-]. unfold described. cbn. discriminate. Qed.

Lemma raises_described_bind {A B} (c : res A) (f : A → res B) :
  raises_described c → (∀ a, c = Ok a → raises_described (f a)) →
  raises_described (c ≫= f).
Proof.
  intros Hc Hf. destruct c as [a|e]; [by apply Hf|].
  intros e' [= <-]. by apply Hc.
Qed.

Lemma raises_described_try {A} (c : res A) classes (handler : exn → res A) :
  (∀ e, caught_by e classes = false → c ≠ Raise e) →
  (∀ e, raises_described (handler e)) →
  raises_described (try_except c classes handler).
Proof.
  intros Hall Hhandler e. destruct c as [a|e0]; [intros [=]|]. cbn [try_except].
  destruct (caught_by e0 classes) eqn:Hcaught; [apply Hhandler|].
  by destruct (Hall e0 Hcaught).
Qed.

Lemma caught_by_exception e : caught_by e [Exception_] = true.
Proof. reflexivity. Qed.

Lemma getitem_described d k : raises_described (getitem d k).
Proof.
  unfold getitem, key_error. destruct (d !! k); [apply raises_described_ok|].
  intros e [= <-]. unfold described. cbn. discriminate.
Qed.

Lemma subscript_described v k : raises_described (subscript v k).
Proof.
  destruct v; try apply (raises_described_raise TypeError "i").
  apply getitem_described.
Qed.

Lemma iter_list_described v : raises_described (iter_list v).
Proof.
  destruct v; try apply (raises_described_raise TypeError "o").
  apply raises_described_ok.
Qed.

Lemma mapM_described {A B} (f : A → res B) l :
  (∀ a, raises_described (f a)) → raises_described (mapM f l).
Proof.
  intros Hf. induction l as [|a rest IH]; [apply raises_described_ok|].
  cbn [mapM]. apply raises_described_bind; [apply Hf|]. intros b _.
  apply raises_described_bind; [exact IH|]. intros bs _. apply raises_described_ok.
Qed.

Ltac described_text := unfold described; cbn; discriminate.

Ltac described_raise :=
  let e := fresh "e" in
  intros e [= <-]; described_text.

Section PromptErrors.
Context `{PyText}.

Lemma build_full_prompt_described (cfg : PromptConfig) cv_text schema :
  raises_described (build_full_prompt cfg cv_text schema).
Proof.
  unfold build_full_prompt.
  apply raises_described_bind.
  { unfold format_schema_for_prompt, schema_prompt_lines.
    apply raises_described_bind; [|intros; apply raises_described_ok].
    apply raises_described_bind; [apply getitem_described|]. intros variables _.
    apply raises_described_bind; [apply iter_list_described|]. intros vars _.
    apply raises_described_bind; [|intros; apply raises_described_ok].
    apply mapM_described. intros var. unfold format_variable.
    destruct var; try described_raise.
    apply raises_described_bind; [apply getitem_described|]. intros name _.
    apply raises_described_bind; [apply getitem_described|]. intros var_type _.
    apply raises_described_bind; [|intros; apply raises_described_ok].
    unfold type_description.
    repeat (match goal with
            | |- raises_described (if ?c then _ else _) => destruct c
            end; try apply raises_described_ok).
    apply raises_described_bind; [apply getitem_described|]. intros allowed _.
    apply raises_described_bind; [apply iter_list_described|]. intros values _.
    apply raises_described_ok. }
  intros schema_text _. apply raises_described_bind; [|intros; apply raises_described_ok].
  unfold get_field_definitions.
  destruct (get (template cfg) "rango_edad" (VStr "25-45")); described_raise.
Qed.

End PromptErrors.

Section ClientErrors.
Context `{PyText} `{Pydantic} `{JsonLib} `{Provider}.

Lemma M_described_ret {A} (a : A) : M_described (mret a).
Proof. intros w e w' [=]. Qed.

Lemma M_described_bind {A B} (c : M A) (f : A → M B) :
  M_described c → (∀ a, M_described (f a)) → M_described (c ≫= f).
Proof.
  intros Hc Hf w e w'. unfold mbind, M_mbind, M_bind.
  destruct (c w) as [[a|e0] w0] eqn:Hcw.
  - apply Hf.
  - intros [= <- <-]. eapply Hc, Hcw.
Qed.

Lemma M_described_lift {A} (c : res A) : raises_described c → M_described (lift c).
Proof. intros Hc w e w' [= -> _]. by apply Hc. Qed.

Lemma M_described_rewrap {A} (ch : ascii) (prefix : string) (c : M A) :
  M_described (rewrap (String ch prefix) c).
Proof.
  intros w e w'. unfold rewrap. destruct (c w) as [[a|e0] w0]; [intros [=]|].
  intros [= <- _]. apply described_prefix.
Qed.

Lemma M_described_retrying {A} n (c : M A) : M_described c → M_described (retrying n c).
Proof.
  intros Hc. induction n as [|n IH]; intros w e w'; cbn [retrying];
    destruct (c w) as [[a|e0] w0] eqn:Hcw; try (intros [=]; fail).
  - intros [= <- <-]. eapply Hc, Hcw.
  - apply IH.
Qed.

Lemma parse_json_safely_described text :
  json_described → raises_described (parse_json_safely text).
Proof.
  intros Hjson e. unfold parse_json_safely, try_except.
  destruct (json_loads _) as [data|e0] eqn:Hloads.
  - rewrite bind_Ok. destruct data; intros [=].
  - rewrite bind_Raise. destruct (caught_by e0 [JSONDecodeError]); [intros [=]|].
    intros [= <-]. eapply Hjson, Hloads.
Qed.

Lemma openai_retry_described (self : Client) correction_prompt schema retry_count
    text cfg :
  json_described →
  M_described (OpenAIClient._retry_with_correction self correction_prompt schema
                 retry_count text cfg).
Proof.
  intros Hjson. unfold OpenAIClient._retry_with_correction.
  apply M_described_bind;
    [apply M_described_lift, build_full_prompt_described|]. intros [system_prompt user_prompt].
  apply M_described_bind; [apply M_described_rewrap|]. intros response_text.
  apply M_described_bind;
    [by apply M_described_lift, parse_json_safely_described|]. intros [data parse_error].
  destruct (error_text parse_error); [apply M_described_lift; described_raise|].
  destruct (validate_parsed data schema) as [[is_valid validated_data] validation_error].
  destruct is_valid; cbn [negb];
    [apply M_described_ret | apply M_described_lift; described_raise].
Qed.

Lemma openai_extract_profile_described (self : Client) text schema cfg :
  json_described →
  M_described (OpenAIClient.extract_profile self text schema cfg).
Proof.
  intros Hjson. apply M_described_retrying. unfold OpenAIClient.extract_profile_body.
  cbn zeta.
  apply M_described_bind;
    [apply M_described_lift, build_full_prompt_described|]. intros [system_prompt user_prompt].
  apply M_described_bind; [apply M_described_rewrap|]. intros response_text.
  apply M_described_bind;
    [by apply M_described_lift, parse_json_safely_described|]. intros [data parse_error].
  destruct (error_text parse_error).
  { destruct (Nat.ltb 0 1); [by apply openai_retry_described|].
    apply M_described_lift; described_raise. }
  destruct (validate_parsed data schema) as [[is_valid validated_data] validation_error].
  destruct is_valid; cbn [negb]; [apply M_described_ret|].
  destruct (Nat.ltb 0 1); [by apply openai_retry_described|].
  apply M_described_lift; described_raise.
Qed.

Lemma litellm_retry_described (self : Client) correction_prompt schema retry_count
    text cfg :
  json_described →
  M_described (LiteLLMClient._retry_with_correction self correction_prompt schema
                 retry_count text cfg).
Proof.
  intros Hjson. unfold LiteLLMClient._retry_with_correction.
  apply M_described_bind;
    [apply M_described_lift, build_full_prompt_described|]. intros [system_prompt user_prompt].
  apply M_described_bind; [apply M_described_rewrap|]. intros response_text.
  apply M_described_bind;
    [by apply M_described_lift, parse_json_safely_described|]. intros [data parse_error].
  destruct (error_text parse_error); [apply M_described_lift; described_raise|].
  destruct (validate_parsed data schema) as [[is_valid validated_data] validation_error].
  destruct is_valid; cbn [negb];
    [apply M_described_ret | apply M_described_lift; described_raise].
Qed.

Lemma litellm_extract_profile_described (self : Client) text schema cfg :
  json_described →
  M_described (LiteLLMClient.extract_profile self text schema cfg).
Proof.
  intros Hjson. apply M_described_retrying. unfold LiteLLMClient.extract_profile_body.
  cbn zeta.
  apply M_described_bind;
    [apply M_described_lift, build_full_prompt_described|]. intros [system_prompt user_prompt].
  apply M_described_bind; [apply M_described_rewrap|]. intros response_text.
  apply M_described_bind;
    [by apply M_described_lift, parse_json_safely_described|]. intros [data parse_error].
  destruct (error_text parse_error).
  { destruct (Nat.ltb 0 1); [by apply litellm_retry_described|].
    apply M_described_lift; described_raise. }
  destruct (validate_parsed data schema) as [[is_valid validated_data] validation_error].
  destruct is_valid; cbn [negb]; [apply M_described_ret|].
  destruct (Nat.ltb 0 1); [by apply litellm_retry_described|].
  apply M_described_lift; described_raise.
Qed.

End ClientErrors.

(** ** Per-document isolation *)

Section DocumentClaims.
Context `{PyText} `{Pydantic} `{JsonLib} `{Provider} `{Libraries}.

Lemma download_file_described file_id : raises_described (download_file file_id).
Proof.
  unfold download_file. apply raises_described_try; [|intros e0; described_raise].
  intros e He. by rewrite caught_by_exception in He.
Qed.

Lemma parse_file_described content mime_type use_ocr :
  raises_described (parse_file content mime_type use_ocr).
Proof.
  unfold parse_file.
  destruct (has_substring "pdf" _).
  { unfold parse_pdf. destruct (if use_ocr then _ else None); [apply raises_described_ok|].
    unfold parse_pdf_traditional.
    destruct (try_except _ [Exception_] (λ _, mret None)) as [[first|]|e] eqn:Hfirst.
    - apply raises_described_ok.
    - apply raises_described_try; [|intros e0; described_raise].
      intros e He. by rewrite caught_by_exception in He.
    - unfold try_except in Hfirst.
      destruct (_ ≫= _) as [a|e0]; [discriminate Hfirst|].
      rewrite caught_by_exception in Hfirst. discriminate Hfirst. }
  destruct (_ || _); [|described_raise].
  unfold parse_docx. destruct (if use_ocr then _ else None); [apply raises_described_ok|].
  apply raises_described_try; [|intros e0; described_raise].
  intros e He. by rewrite caught_by_exception in He.
Qed.

Lemma exp_fields_check_described schema : raises_described (exp_fields_check schema).
Proof.
  unfold exp_fields_check.
  apply raises_described_bind; [apply getitem_described|]. intros variables _.
  apply raises_described_bind; [apply iter_list_described|]. intros vars _.
  apply raises_described_bind; [|intros; apply raises_described_ok].
  apply mapM_described. intros v.
  apply raises_described_bind; [apply subscript_described|]. intros name _.
  destruct name; described_raise.
Qed.

Lemma prepare_text_described file_info schema use_ocr content :
  raises_described (prepare_text file_info schema use_ocr content).
Proof.
  unfold prepare_text.
  apply raises_described_bind; [apply parse_file_described|]. intros parsed_result _.
  destruct (String.eqb _ ""); [described_raise|].
  apply raises_described_bind; [apply exp_fields_check_described|]. intros _ _.
  apply raises_described_ok.
Qed.

Lemma obtain_content_described file_info drive_service result :
  raises_described (obtain_content file_info drive_service result).2.
Proof.
  unfold obtain_content. destruct (String.eqb _ "local"); [apply raises_described_ok|].
  destruct drive_service; [|cbn [snd]; described_raise].
  destruct (fi_file_id file_info) as [file_id|]; [|cbn [snd]; described_raise].
  pose proof (download_file_described file_id) as Hd.
  destruct (download_file file_id) as [content|e]; cbn [snd];
    [apply raises_described_ok | intros e' [= <-]; by apply (Hd e)].
Qed.

Lemma to_bool_described value : raises_described (to_bool value).
Proof.
  unfold to_bool. destruct value as [|b|z|f|s|l|d]; try described_raise.
  - cbn [eq_str isna_truth]. rewrite bind_Ok. destruct (is_missing _); described_raise.
  - cbn [eq_str]. destruct (String.eqb s ""); described_raise.
  - cbn [eq_str]. unfold isna_truth.
    destruct (foldr Nat.mul 1%nat (np_shape (VList l))) as [|[|n]].
    + described_raise.
    + rewrite bind_Ok. destruct (is_missing _); described_raise.
    + described_raise.
Qed.

Lemma preaprobado_value_described result : raises_described (preaprobado_value result).
Proof.
  unfold preaprobado_value.
  apply raises_described_bind; [apply to_bool_described|]. intros edad _.
  apply raises_described_bind.
  { generalize possible_exp_fields. intros fields.
    induction fields as [|field rest IH]; [apply raises_described_ok|].
    cbn [experiencia_confirmada_of].
    destruct (contains result field); [apply to_bool_described | exact IH]. }
  intros experiencia _.
  apply raises_described_bind; [apply to_bool_described|]. intros foto _.
  apply raises_described_bind; [apply to_bool_described|]. intros secundaria _.
  apply raises_described_ok.
Qed.

Lemma record_error_reports result e (w : World) :
  described e →
  ∃ result', record_error result e w = (Ok result', w) ∧ reports_error result'.
Proof.
  intros He. unfold record_error. rewrite caught_by_exception.
  eexists. split; [reflexivity|]. exists (exn_str e).
  split; [apply lookup_insert_eq | exact He].
Qed.

(** What [process_single_cv] gives for one document: it returns a record,
    which reports the exception that was raised, or carries the data the
    client extracted. *)
Lemma process_single_cv_outcome file_info schema llm_client cfg drive_service use_ocr w :
  (∀ text, M_described (llm_client text schema (Some cfg))) →
  ∃ result w',
    process_single_cv file_info schema llm_client cfg drive_service use_ocr w
    = (Ok result, w') ∧
    (reports_error result ∨
     ∃ text extracted_data,
       llm_client text schema (Some cfg) w = (Ok extracted_data, w') ∧
       carries result extracted_data).
Proof.
  intros Hclient. unfold process_single_cv.
  pose proof (obtain_content_described file_info drive_service
                (list_to_map [("archivo", VStr (fi_name file_info));
                              ("fuente", VStr (fi_source file_info));
                              ("link", VStr (default "" (fi_link file_info)));
                              ("error", VStr "")])) as Hcontent.
  destruct (obtain_content _ _ _) as [result content]. cbn [snd] in Hcontent.
  pose proof (prepare_text_described file_info schema use_ocr) as Hprepare.
  destruct content as [content|e]; cbn [mbind res_mbind res_bind].
  2:{ destruct (record_error_reports result e w (Hcontent e eq_refl)) as (r & -> & Hr).
      exists r, w. split; [reflexivity | by left]. }
  specialize (Hprepare content).
  destruct (prepare_text file_info schema use_ocr content) as [text|e].
  2:{ destruct (record_error_reports result e w (Hprepare e eq_refl)) as (r & -> & Hr).
      exists r, w. split; [reflexivity | by left]. }
  destruct (llm_client text schema (Some cfg) w) as [[extracted_data|e] w'] eqn:Hllm.
  2:{ destruct (record_error_reports result e w' (Hclient text w e w' Hllm))
        as (r & -> & Hr).
      exists r, w'. split; [reflexivity | by left]. }
  pose proof (preaprobado_value_described (extracted_data ∪ result)) as Hderived.
  unfold calculate_derived_fields.
  destruct (preaprobado_value (extracted_data ∪ result)) as [value|e].
  - eexists _, w'. split; [reflexivity|]. right. exists text, extracted_data.
    split; [exact Hllm|]. split.
    + intros key v Hkey Hv. rewrite lookup_insert_ne by done.
      by apply lookup_union_Some_l.
    + exists value. apply lookup_insert_eq.
  - destruct (record_error_reports (extracted_data ∪ result) e w' (Hderived e eq_refl))
      as (r & -> & Hr).
    exists r, w'. split; [reflexivity | by left].
Qed.

(** The clients the application creates raise only exceptions with a
    text. *)
Lemma create_llm_client_described provider_name model_name temperature_option
    max_tokens_option text schema cfg :
  json_described →
  M_described (create_llm_client provider_name model_name temperature_option
                 max_tokens_option text schema cfg).
Proof.
  intros Hjson. unfold create_llm_client. destruct (String.eqb provider_name "OpenAI").
  - by apply openai_extract_profile_described.
  - by apply litellm_extract_profile_described.
Qed.

Lemma process_batch_records llm_client schema cfg drive_service use_ocr completed
    results0 errors0 w :
  (∀ text, M_described (llm_client text schema (Some cfg))) →
  ∃ results errors w',
    process_batch completed schema llm_client cfg drive_service use_ocr
      (results0, errors0) w = ((results0 ++ results)%list, errors, w') ∧
    Forall2 (document_record llm_client schema cfg drive_service use_ocr)
            completed results.
Proof.
  intros Hclient. revert results0 errors0 w.
  induction completed as [|file_info rest IH]; intros results0 errors0 w.
  - exists [], errors0, w. split; [by rewrite app_nil_r | constructor].
  - cbn [process_batch].
    destruct (process_single_cv_outcome file_info schema llm_client cfg drive_service
                use_ocr w Hclient) as (result & w1 & Hrun & Hresult).
    rewrite Hrun. cbn [collect].
    destruct (IH (results0 ++ [result])%list
                 (if truthy (get result "error" VNone)
                  then (errors0 ++ ["❌ " +:+ fi_name file_info +:+ ": "
                                    +:+ py_str (get result "error" VNone)])%list
                  else errors0) w1) as (results & errors & w' & Hbatch & Hall).
    exists (result :: results), errors, w'. split.
    + rewrite Hbatch. by rewrite <- app_assoc.
    + constructor; [|exact Hall]. by exists w, w1.
Qed.

(** C5.  Whatever the provider and the document libraries do, the loop of
    [process_all_cvs] over a batch never raises and collects exactly one
    record per document, in completion order; each record is the one
    [process_single_cv] returned for its own document, and it reports a
    non-empty error (the text of the exception raised while that document
    was processed, a failed model call included) or carries the data
    extracted from that document. *)
Theorem batch_isolation provider_name model_name temperature_option max_tokens_option
    completed schema cfg drive_service use_ocr w :
  json_described →
  ∃ results errors w',
    process_batch completed schema
      (create_llm_client provider_name model_name temperature_option max_tokens_option)
      cfg drive_service use_ocr ([], []) w = (results, errors, w') ∧
    List.length results = List.length completed ∧
    Forall2 (document_record
               (create_llm_client provider_name model_name temperature_option
                                  max_tokens_option)
               schema cfg drive_service use_ocr)
            completed results.
Proof.
  intros Hjson.
  destruct (process_batch_records
              (create_llm_client provider_name model_name temperature_option
                                 max_tokens_option)
              schema cfg drive_service use_ocr completed [] [] w)
    as (results & errors & w' & Hbatch & Hall).
  { intros text. by apply create_llm_client_described. }
  exists results, errors, w'. split; [exact Hbatch|].
  split; [symmetry; eapply Forall2_length, Hall | exact Hall].
Qed.

End DocumentClaims.

Lemma sample_json_described : @json_described Sample.sample_json.
Proof.
  intros text e. cbn. destruct (String.eqb text "{}"); [intros [=]|].
  intros [= <-]. described_text.
Qed.

Lemma batch_isolation_witness :
  @json_described Sample.sample_json ∧
  ∃ results errors w',
    @process_batch Sample.sample_text Sample.second_call_fails sample_documents
      three_documents Sample.optional_schema stub_client
      create_default_config None false ([], [])
      (@mk_world Sample.second_call_fails 0%nat [])
    = (results, errors, w') ∧
    List.length results = List.length three_documents ∧
    Forall2 (@document_record Sample.sample_text Sample.second_call_fails
               sample_documents stub_client
               Sample.optional_schema create_default_config None false)
            three_documents results.
Proof.
  split; [exact sample_json_described|].
  apply (@batch_isolation Sample.sample_text Sample.sample_pydantic Sample.sample_json
           Sample.second_call_fails sample_documents).
  exact sample_json_described.
Defined.

(** The batch isolation scenario: three documents, the model call of the
    second raises; the first and the third get their records, the second
    a record with the error. *)
Example three_documents_second_fails :
  (@process_batch Sample.sample_text Sample.second_call_fails sample_documents
     three_documents Sample.optional_schema stub_client
     create_default_config None false ([], [])
     (@mk_world Sample.second_call_fails 0%nat [])).1
  = ([list_to_map [("archivo", VStr "uno.pdf"); ("fuente", VStr "local");
                   ("link", VStr ""); ("error", VStr ""); ("nombre", VNone);
                   ("preaprobado", VBool false)];
      list_to_map [("archivo", VStr "dos.pdf"); ("fuente", VStr "local");
                   ("link", VStr "");
                   ("error", VStr "Error llamando a OpenAI API: Rate limit reached")];
      list_to_map [("archivo", VStr "tres.pdf"); ("fuente", VStr "local");
                   ("link", VStr ""); ("error", VStr ""); ("nombre", VNone);
                   ("preaprobado", VBool false)]],
     ["❌ dos.pdf: Error llamando a OpenAI API: Rate limit reached"]).
Proof. vm_refl. Qed.

(** ** The rendered schema, line by line *)

(** Replaces the left-hand side of the equation [H] by its value. *)
Ltac vm_lhs H :=
  lazymatch type of H with
  | ?lhs = _ =>
      let v := eval vm_compute in lhs in
      let E := fresh in
      assert (lhs = v) as E by vm_cast_no_check (@eq_refl _ v);
      rewrite E in H; clear E
  end.

Lemma append_empty_r (s : string) : s +:+ "" = s.
Proof.
  induction s as [|c s IH]; [reflexivity|].
  change (String c s +:+ "") with (String c (s +:+ "")). by rewrite IH.
Qed.

Lemma append_assoc (a b c : string) : (a +:+ b) +:+ c = a +:+ (b +:+ c).
Proof.
  induction a as [|x a IH]; [reflexivity|].
  change (String x a +:+ b) with (String x (a +:+ b)).
  change (String x (a +:+ b) +:+ c) with (String x ((a +:+ b) +:+ c)).
  by rewrite IH.
Qed.

Lemma has_char_app c a b : has_char c (a +:+ b) = has_char c a || has_char c b.
Proof.
  induction a as [|x a IH]; [reflexivity|]. simpl. by rewrite IH, orb_assoc.
Qed.

Lemma one_line_app a b : one_line a → one_line b → one_line (a +:+ b).
Proof. unfold one_line. rewrite has_char_app. by intros -> ->. Qed.

Lemma one_line_join sep parts :
  one_line sep → Forall one_line parts → one_line (join sep parts).
Proof.
  intros Hsep Hparts. induction Hparts as [|p rest Hp Hrest IH]; [reflexivity|].
  destruct rest as [|q rest]; [exact Hp|].
  change (join sep (p :: q :: rest)) with (p +:+ sep +:+ join sep (q :: rest)).
  by repeat apply one_line_app.
Qed.

Lemma digit_char_not_LF d : 0 ≤ d < 10 → Ascii.eqb LF (digit_char d) = false.
Proof.
  intros Hd.
  assert (d = 0 ∨ d = 1 ∨ d = 2 ∨ d = 3 ∨ d = 4 ∨ d = 5 ∨ d = 6 ∨ d = 7 ∨ d = 8 ∨ d = 9)
    as Hcases by lia.
  repeat (destruct Hcases as [-> | Hcases]; [reflexivity|]). by subst.
Qed.

Lemma pos_digits_one_line fuel n acc : one_line acc → one_line (pos_digits fuel n acc).
Proof.
  revert n acc. induction fuel as [|fuel IH]; intros n acc Hacc; [exact Hacc|].
  cbn [pos_digits].
  assert (one_line (String (digit_char (n mod 10)) acc)) as Hnext.
  { unfold one_line. cbn [has_char]. rewrite digit_char_not_LF, Hacc; [reflexivity|].
    apply Z.mod_pos_bound. lia. }
  destruct (n / 10 =? 0); [exact Hnext | by apply IH].
Qed.

Lemma str_of_int_one_line z : one_line (str_of_int z).
Proof.
  unfold str_of_int. destruct (z <? 0).
  - apply one_line_app; [reflexivity|]. by apply pos_digits_one_line.
  - by apply pos_digits_one_line.
Qed.

(** Cutting a joined text at its line breaks gives the lines back. *)
Lemma split_from_one_line current s rest :
  one_line s →
  split_lines_from current (s +:+ String LF rest)
  = (current +:+ s) :: split_lines_from "" rest.
Proof.
  revert current. induction s as [|c s IH]; intros current Hs.
  - cbn. by rewrite append_empty_r.
  - unfold one_line in Hs. cbn [has_char] in Hs.
    apply orb_false_iff in Hs as [Hc Hs].
    change (String c s +:+ String LF rest) with (String c (s +:+ String LF rest)).
    cbn [split_lines_from].
    rewrite Ascii.eqb_sym in Hc. rewrite Hc, (IH _ Hs).
    by rewrite append_assoc.
Qed.

Lemma split_from_last current s :
  one_line s → split_lines_from current s = [current +:+ s].
Proof.
  revert current. induction s as [|c s IH]; intros current Hs.
  - cbn. by rewrite append_empty_r.
  - unfold one_line in Hs. cbn [has_char] in Hs.
    apply orb_false_iff in Hs as [Hc Hs]. cbn [split_lines_from].
    rewrite Ascii.eqb_sym in Hc. rewrite Hc, (IH _ Hs).
    by rewrite append_assoc.
Qed.

Lemma split_lines_join lines :
  lines ≠ [] → Forall one_line lines → split_lines (join newline lines) = lines.
Proof.
  unfold split_lines. intros Hne Hall.
  induction Hall as [|l rest Hl Hrest IH]; [done|].
  destruct rest as [|l' rest].
  - cbn [join]. by rewrite split_from_last.
  - change (join newline (l :: l' :: rest))
      with (l +:+ String LF (join newline (l' :: rest))).
    rewrite split_from_one_line by exact Hl. cbn [String.append].
    f_equal. by apply IH.
Qed.

Lemma startswith_prefix p tail : startswith p (p +:+ tail) = true.
Proof.
  induction p as [|c p IH]; [by destruct tail|].
  change (String c p +:+ tail) with (String c (p +:+ tail)). cbn [startswith].
  by rewrite Ascii.eqb_refl, IH.
Qed.

Lemma join_cons sep p rest :
  rest ≠ [] → join sep (p :: rest) = p +:+ sep +:+ join sep rest.
Proof. by destruct rest. Qed.

Section RenderedSchema.
Context `{PyText}.

Lemma py_str_number_one_line m : is_number m = true → one_line (py_str m).
Proof.
  destruct m as [|[]|z|f| | |]; try discriminate; intros _; cbn [py_str].
  - reflexivity.
  - reflexivity.
  - apply str_of_int_one_line.
  - apply repr_float_one_line.
Qed.

Lemma valid_type_one_line ty : in_strs ty valid_types = true → one_line (py_str ty).
Proof.
  destruct ty as [| | | |s| |]; try discriminate. unfold in_strs, valid_types.
  cbn [existsb eq_str py_str]. rewrite !orb_true_iff, !String.eqb_eq.
  intros Hcases. by repeat (destruct Hcases as [-> | Hcases]; [reflexivity|]).
Qed.

Lemma range_info_one_line d :
  (∀ m, d !! "min" = Some m → is_number m = true) →
  (∀ m, d !! "max" = Some m → is_number m = true) →
  one_line (range_info d).
Proof.
  intros Hmin Hmax. unfold range_info.
  destruct (contains d "min" || contains d "max"); [|reflexivity].
  apply one_line_app; [reflexivity|]. apply one_line_app; [|reflexivity].
  apply one_line_join; [reflexivity|]. apply Forall_app. split.
  - destruct (d !! "min") as [m|]; [|constructor].
    repeat constructor. apply one_line_app; [reflexivity|].
    by apply py_str_number_one_line, Hmin.
  - destruct (d !! "max") as [m|]; [|constructor].
    repeat constructor. apply one_line_app; [reflexivity|].
    by apply py_str_number_one_line, Hmax.
Qed.

Lemma type_description_one_line d name ty seen_names description :
  checked_variable d name ty seen_names → readable_variable d →
  type_description d ty = Ok description → one_line description.
Proof.
  intros [_ Htype _ _ Hvalid _ Hmin Hmax _ _] [_ Hallowed]. unfold type_description.
  destruct (eq_str ty "string"); [by intros [= <-]|].
  destruct (eq_str ty "boolean"); [by intros [= <-]|].
  destruct (eq_str ty "integer").
  { intros [= <-]. apply one_line_app; [reflexivity|].
    apply range_info_one_line; auto. }
  destruct (eq_str ty "categorical") eqn:Hcat.
  { apply eq_str_true in Hcat as ->. intros E.
    apply bind_ok in E as (allowed_values & Hget & E).
    apply bind_ok in E as (values & Hvalues & [= <-]).
    destruct allowed_values as [| | | | |l|]; try discriminate Hvalues.
    injection Hvalues as ->. apply getitem_ok in Hget.
    apply one_line_app; [reflexivity|]. apply one_line_app; [|reflexivity].
    apply one_line_join; [reflexivity|]. apply List.Forall_forall.
    intros part [v [<- Hv]]%in_map_iff.
    apply one_line_app; [reflexivity|]. apply one_line_app; [|reflexivity].
    by apply (Hallowed values). }
  destruct (eq_str ty "list[string]"); [by intros [= <-]|].
  destruct (eq_str ty "list[object]"); [by intros [= <-]|].
  intros [= <-]. by apply valid_type_one_line.
Qed.

(** The marker can start nowhere inside a name that does not contain it,
    even when the name is followed by the marker. *)
Lemma marker_not_inside n tail :
  has_substring name_marker n = false → n ≠ "" →
  startswith name_marker (n +:+ name_marker +:+ tail) = false.
Proof.
  intros Hsub Hne. destruct n as [|x n]; [done|].
  cbn [has_substring] in Hsub. apply orb_false_iff in Hsub as [Hstart Hsub].
  change (startswith name_marker (String x (n +:+ name_marker +:+ tail)) = false).
  unfold name_marker in *.
  set (marker := dq +:+ ": ") in *. vm_compute in marker. subst marker.
  cbn [startswith] in *.
  destruct (Ascii.eqb _ x); [|reflexivity]. cbn [andb] in *.
  destruct n as [|y n]; [reflexivity|].
  change (startswith ": " (String y (n +:+ (dq +:+ ": ") +:+ tail)) = false).
  cbn [startswith] in *.
  destruct (Ascii.eqb _ y); [|reflexivity]. cbn [andb] in *.
  destruct n as [|z n]; [reflexivity|].
  change (startswith " " (String z (n +:+ (dq +:+ ": ") +:+ tail)) = false).
  cbn [startswith] in *. destruct (Ascii.eqb _ z); [discriminate Hstart | reflexivity].
Qed.

Lemma until_marker_name n tail :
  has_substring name_marker n = false →
  until_marker name_marker (n +:+ name_marker +:+ tail) = n.
Proof.
  induction n as [|x n IH]; intros Hsub.
  - reflexivity.
  - assert (has_substring name_marker n = false) as Hrest.
    { cbn [has_substring] in Hsub. by apply orb_false_iff in Hsub as [_ ?]. }
    change (String x n +:+ name_marker +:+ tail)
      with (String x (n +:+ name_marker +:+ tail)).
    cbn [until_marker].
    change (String x (n +:+ name_marker +:+ tail))
      with (String x n +:+ name_marker +:+ tail) at 1.
    rewrite marker_not_inside by done. by rewrite IH.
Qed.

(** The line of one variable: it holds no line break, opens with the name
    between quotes, and the name is read back from it. *)
Lemma format_variable_line d name ty seen_names :
  checked_variable d name ty seen_names → readable_variable d →
  ∃ n line,
    name = VStr n ∧ format_variable (VDict d) = Ok line ∧ one_line line ∧
    startswith (line_opening +:+ n +:+ name_marker) line = true ∧
    field_name_of_line line = Some n.
Proof.
  intros Hchecked Hreadable.
  destruct (format_variable_ok _ _ _ _ Hchecked) as (description & Hdesc & Hline).
  pose proof (type_description_one_line _ _ _ _ _ Hchecked Hreadable Hdesc) as Hone.
  destruct Hreadable as [(n & Hname & Hn & Hmarker) _].
  assert (name = VStr n) as ->.
  { destruct Hchecked as [Hname' _ _ _ _ _ _ _ _ _]. congruence. }
  eexists n, _. split; [reflexivity|]. split; [exact Hline|]. cbn [py_str].
  set (tail := description +:+ _).
  assert (one_line tail) as Htail.
  { apply one_line_app; [exact Hone|]. by destruct (truthy _). }
  assert ("  " +:+ dq +:+ n +:+ dq +:+ ": " +:+ tail
          = line_opening +:+ n +:+ name_marker +:+ tail) as ->.
  { unfold line_opening, name_marker. by rewrite !append_assoc. }
  split; [|split].
  - apply one_line_app; [reflexivity|]. apply one_line_app; [exact Hn|].
    by apply one_line_app.
  - replace (line_opening +:+ n +:+ name_marker +:+ tail)
      with ((line_opening +:+ n +:+ name_marker) +:+ tail)
      by (by rewrite !append_assoc).
    apply startswith_prefix.
  - unfold field_name_of_line. rewrite startswith_prefix.
    set (opening := line_opening). vm_compute in opening. subst opening.
    simpl.
    change ("" +:+ n +:+ name_marker +:+ tail) with (n +:+ name_marker +:+ tail).
    by rewrite until_marker_name.
Qed.

(** The lines of the variables of a compiled schema, and the names read
    from the schema and from the lines. *)
Lemma format_variables_lines vars seen_names :
  checked_variables vars seen_names →
  (∀ d, In (VDict d) vars → readable_variable d) →
  ∃ names lines,
    mapM format_variable vars = Ok lines ∧
    mapM (λ var, subscript var "name") vars = Ok (map VStr names) ∧
    Forall one_line lines ∧
    Forall2 (λ line n, startswith (line_opening +:+ n +:+ name_marker) line = true)
            lines names ∧
    omap field_name_of_line lines = names.
Proof.
  induction 1 as [|d name ty rest seen_names Hvar Hrest IH]; intros Hreadable.
  - by exists [], [].
  - destruct IH as (names & lines & Hlines & Hnames & Hone & Hopen & Hread).
    { intros d' Hd'. apply Hreadable. by right. }
    destruct (format_variable_line d name ty seen_names Hvar) as
      (n & line & -> & Hline & Hline_one & Hline_open & Hline_read).
    { apply Hreadable. by left. }
    exists (n :: names), (line :: lines). cbn [mapM].
    rewrite Hline, bind_Ok, Hlines, bind_Ok. cbn [subscript].
    destruct Hvar as [Hname _ _ _ _ _ _ _ _ _].
    rewrite (proj2 (getitem_ok _ _ _) Hname), bind_Ok, Hnames, bind_Ok.
    repeat split; [by constructor | by constructor |].
    cbn [omap list_omap]. by rewrite Hline_read, Hread.
Qed.

(** C8 (amended).  For a schema that [load_yaml_schema] accepts, whose
    field names are strings holding no line break and no quote-colon-space
    sequence, and whose categorical allowed values print without a line
    break: [format_schema_for_prompt] returns a text made of the two header
    lines, one line per field in schema order, each opening with the name
    of its field between quotes, and the closing brace; and the names read
    back from those lines are exactly [get_variable_names(schema)]. *)
Theorem format_schema_for_prompt_round_trip (cfg : PromptConfig) loaded schema :
  load_yaml_schema loaded = Ok schema → readable schema →
  ∃ rendering names,
    format_schema_for_prompt cfg schema = Ok rendering ∧
    get_variable_names schema = Ok (map VStr names) ∧
    split_lines rendering
    = (["Esquema JSON requerido:"; "{"] ++ field_lines rendering ++ ["}"])%list ∧
    Forall2 (λ line n, startswith (line_opening +:+ n +:+ name_marker) line = true)
            (field_lines rendering) names ∧
    extract_field_names rendering = names.
Proof.
  intros [_ (_ & vars & Hvars & Hchecked)]%load_yaml_schema_inv Hreadable.
  destruct (format_variables_lines vars [] Hchecked (λ d, Hreadable vars d Hvars))
    as (names & lines & Hlines & Hnames & Hone & Hopen & Hread).
  exists (join newline ([schema_header] ++ lines ++ ["}"])%list), names.
  assert (split_lines (join newline ([schema_header] ++ lines ++ ["}"])%list)
          = "Esquema JSON requerido:" :: "{" :: (lines ++ ["}"])%list) as Hsplit.
  { assert ((lines ++ ["}"])%list ≠ []) as Hne by (by destruct lines).
    replace (join newline ([schema_header] ++ lines ++ ["}"])%list)
      with (join newline ("Esquema JSON requerido:" :: "{" :: (lines ++ ["}"])%list)).
    - apply split_lines_join; [done|]. repeat (constructor; [reflexivity|]).
      apply Forall_app. split; [exact Hone | by repeat constructor].
    - cbn [app]. rewrite !join_cons by done. unfold schema_header.
      by rewrite !append_assoc. }
  assert (field_lines (join newline ([schema_header] ++ lines ++ ["}"])%list) = lines)
    as Hfield.
  { unfold field_lines. rewrite Hsplit. cbn [skipn]. apply removelast_last. }
  unfold extract_field_names. rewrite Hfield, Hsplit. repeat split; try done.
  - unfold format_schema_for_prompt, schema_prompt_lines.
    rewrite (proj2 (getitem_ok _ _ _) Hvars), bind_Ok. cbn [iter_list].
    by rewrite bind_Ok, Hlines, !bind_Ok.
  - unfold get_variable_names, variables_or_empty.
    rewrite (get_some _ _ _ _ Hvars). cbn [iter_list]. by rewrite bind_Ok.
Qed.

End RenderedSchema.

(** C8, the counterexample: a schema whose only field has a name spanning
    two lines is accepted by the loader, its rendering has two lines for
    that one field, and the name read back is not the name of the field. *)
Lemma two_line_name_breaks_round_trip :
  @load_yaml_schema Sample.sample_text (Ok (VDict Sample.two_line_schema))
  = Ok Sample.two_line_schema ∧
  get_variable_names Sample.two_line_schema = Ok [VStr Sample.two_line_name] ∧
  ∃ rendering,
    @format_schema_for_prompt Sample.sample_text create_default_config
      Sample.two_line_schema = Ok rendering ∧
    List.length (field_lines rendering) = 2%nat ∧
    extract_field_names rendering = ["nombre"] ∧
    map VStr (extract_field_names rendering) ≠ [VStr Sample.two_line_name].
Proof.
  split; [vm_refl|]. split; [vm_refl|].
  exists (join newline
            ["Esquema JSON requerido:";
             "{";
             "  " +:+ dq +:+ "nombre";
             "completo" +:+ dq +:+ ": " +:+ dq +:+ "string" +:+ dq
             +:+ " [opcional, puede ser null]";
             "}"]).
  split; [vm_refl|]. split; [vm_refl|]. split; [vm_refl|].
  intros Hnames. vm_lhs Hnames. discriminate Hnames.
Qed.

Lemma scenario_schema_readable : @readable Sample.sample_text Sample.scenario_schema.
Proof.
  intros vars d Hvars Hin. unfold Sample.scenario_schema in Hvars.
  lazymatch type of Hvars with
  | ?lhs = _ =>
      lazymatch lhs with
      | context [VList ?l] => assert (lhs = Some (VList l)) as Hl by vm_refl
      end
  end.
  rewrite Hl in Hvars. clear Hl. injection Hvars as <-.
  unfold Sample.variable in Hin. cbn [In] in Hin.
  destruct Hin as [[= <-]|[[= <-]|[[= <-]|[[= <-]|[]]]]];
    (split; [|intros l v Htype; vm_lhs Htype; discriminate Htype]).
  - exists "nombre". unfold one_line. repeat split; vm_refl.
  - exists "edad". unfold one_line. repeat split; vm_refl.
  - exists "score_general". unfold one_line. repeat split; vm_refl.
  - exists "hay_foto_en_cv". unfold one_line. repeat split; vm_refl.
Qed.

Lemma format_schema_for_prompt_round_trip_witness :
  ∃ rendering names,
    @format_schema_for_prompt Sample.sample_text create_default_config
      Sample.scenario_schema = Ok rendering ∧
    get_variable_names Sample.scenario_schema = Ok (map VStr names) ∧
    split_lines rendering
    = (["Esquema JSON requerido:"; "{"] ++ field_lines rendering ++ ["}"])%list ∧
    Forall2 (λ line n, startswith (line_opening +:+ n +:+ name_marker) line = true)
            (field_lines rendering) names ∧
    extract_field_names rendering = names.
Proof.
  apply (@format_schema_for_prompt_round_trip Sample.sample_text create_default_config
           (Ok (VDict Sample.scenario_schema)) Sample.scenario_schema).
  - vm_refl.
  - exact scenario_schema_readable.
Defined.

(** The rendering of the scenario schema, and the names read back. *)
Example scenario_schema_rendering :
  @format_schema_for_prompt Sample.sample_text create_default_config
    Sample.scenario_schema
  = Ok (join newline
          ["Esquema JSON requerido:";
           "{";
           "  " +:+ dq +:+ "nombre" +:+ dq +:+ ": " +:+ dq +:+ "string" +:+ dq
           +:+ " [REQUERIDO]";
           "  " +:+ dq +:+ "edad" +:+ dq
           +:+ ": number (entero) (min=18, max=80) [opcional, puede ser null]";
           "  " +:+ dq +:+ "score_general" +:+ dq
           +:+ ": number (entero) (min=1, max=10) [REQUERIDO]";
           "  " +:+ dq +:+ "hay_foto_en_cv" +:+ dq
           +:+ ": true o false [opcional, puede ser null]";
           "}"]).
Proof. vm_refl. Qed.

(* ===================================================================== *)
(** * Further properties of the code                                      *)
(* ===================================================================== *)

(** ** The loader accepts exactly the well-formed schemas *)

Section LoaderProperties.
Context `{PyText}.




Lemma checked_variables_names vars seen_names :
  checked_variables vars seen_names →
  ∃ names,
    mapM (λ var, subscript var "name") vars = Ok names ∧
    List.length names = List.length vars ∧
    (∀ a, In a names → seen a seen_names = false) ∧
    ∀ i j a b, (i < j)%nat → names !! i = Some a → names !! j = Some b →
               py_eqb b a = false.
Proof.
  induction 1 as [|d name ty rest seen_names Hvar Hrest IH].
  - exists []. by repeat split.
  - destruct IH as (names & Hnames & Hlen & Hfresh & Hdistinct).
    assert (∀ a, In a names → seen a seen_names = false ∧ py_eqb a name = false)
      as Hlater.
    { intros a Ha. specialize (Hfresh a Ha). unfold seen in Hfresh |- *.
      rewrite existsb_app in Hfresh. apply orb_false_iff in Hfresh as [? Hname].
      cbn [existsb] in Hname. rewrite orb_false_r in Hname.
      unfold same_key in Hname. by apply orb_false_iff in Hname as [_ ?]. }
    exists (name :: names). cbn [mapM subscript].
    destruct Hvar as [Hname _ _ Hnew _ _ _ _ _ _].
    rewrite (proj2 (getitem_ok _ _ _) Hname), bind_Ok, Hnames, bind_Ok.
    split; [reflexivity|]. split; [cbn; by rewrite Hlen|]. split.
    + intros a [<-|Ha]; [exact Hnew | by apply Hlater].
    + intros i j a b Hij Hi Hj. destruct j as [|j]; [lia|]. cbn in Hj.
      destruct i as [|i].
      * injection Hi as <-. apply Hlater. eapply list_elem_of_In, list_elem_of_lookup_2, Hj.
      * cbn in Hi. apply (Hdistinct i j); [lia | exact Hi | exact Hj].
Qed.

(** X2.  The names of an accepted schema are pairwise different: on a
    schema that [load_yaml_schema] returns, [get_variable_names] gives one
    name per variable, in order, and no name equals (as Python compares) a
    name before it. *)
Theorem accepted_names_distinct loaded schema :
  load_yaml_schema loaded = Ok schema →
  ∃ vars names,
    schema !! "variables" = Some (VList vars) ∧
    get_variable_names schema = Ok names ∧
    List.length names = List.length vars ∧
    ∀ i j a b, (i < j)%nat → names !! i = Some a → names !! j = Some b →
               py_eqb b a = false.
Proof.
  intros [_ (_ & vars & Hvars & Hchecked)]%load_yaml_schema_inv.
  destruct (checked_variables_names vars [] Hchecked)
    as (names & Hnames & Hlen & _ & Hdistinct).
  exists vars, names. split; [exact Hvars|]. split; [|by split].
  unfold get_variable_names, variables_or_empty.
  rewrite (get_some _ _ _ _ Hvars). cbn [iter_list]. by rewrite bind_Ok.
Qed.


Lemma validate_variable_failure var index seen_names e :
  _validate_variable var index seen_names = Raise e →
  exn_cls e = ValueError ∨
  (exn_cls e = TypeError ∧
   ∃ d name, var = VDict d ∧ d !! "name" = Some name ∧ hashable name = false).
Proof.
  unfold _validate_variable.
  destruct var as [| | | | |l|d]; try (intros [= <-]; by left).
  destruct (contains d "name") eqn:Hname; cbn [negb]; [|intros [= <-]; by left].
  destruct (contains d "type") eqn:Htype; cbn [negb]; [|intros [= <-]; by left].
  apply contains_true in Hname as [name Hname], Htype as [ty Htype].
  rewrite (proj2 (getitem_ok _ _ _) Hname), bind_Ok.
  destruct (hashable name) eqn:Hhash; cbn [negb].
  - destruct (seen name seen_names); [intros [= <-]; by left|].
    rewrite (proj2 (getitem_ok _ _ _) Htype), bind_Ok. intros E.
    repeat match type of E with
           | (if ?c then _ else _) = _ => destruct c; [injection E as <-; by left|]
           end.
    discriminate E.
  - intros [= <-]. right. split; [reflexivity|]. by exists d, name.
Qed.

Lemma validate_variables_failure vars index seen_names e :
  validate_variables vars index seen_names = Raise e →
  exn_cls e = ValueError ∨
  (exn_cls e = TypeError ∧
   ∃ d name, In (VDict d) vars ∧ d !! "name" = Some name ∧ hashable name = false).
Proof.
  revert index seen_names.
  induction vars as [|var rest IH]; intros index seen_names; [discriminate|].
  cbn [validate_variables].
  destruct (_validate_variable var index seen_names) as [seen1|e1] eqn:Hvar.
  - rewrite bind_Ok. intros E.
    destruct (IH _ _ E) as [?|(? & d & name & ? & ? & ?)]; [by left|].
    right. split; [done|]. exists d, name. split; [by right | done].
  - intros [= <-].
    destruct (validate_variable_failure _ _ _ _ Hvar) as [?|(? & d & name & -> & ? & ?)];
      [by left|].
    right. split; [done|]. exists d, name. split; [by left | done].
Qed.

(** X4.  The loader documents [ValueError] only, but a variable whose
    name is not hashable (a YAML sequence or mapping) makes the membership
    test on the set of seen names raise a [TypeError]; apart from that, and
    as long as the YAML parser fails with a [YAMLError] only, every failure
    of [load_yaml_schema] is a [ValueError]. *)
Theorem load_yaml_schema_failures loaded e :
  (∀ e', loaded = Raise e' → exn_cls e' = YAMLError) →
  load_yaml_schema loaded = Raise e →
  exn_cls e = ValueError ∨
  (exn_cls e = TypeError ∧
   ∃ schema vars d name,
     loaded = Ok (VDict schema) ∧ schema !! "variables" = Some (VList vars) ∧
     In (VDict d) vars ∧ d !! "name" = Some name ∧ hashable name = false).
Proof.
  intros Hyaml. unfold load_yaml_schema.
  destruct loaded as [raw|e'].
  - unfold try_except. rewrite bind_Ok.
    destruct raw as [| | | | |l|schema]; try (intros [= <-]; by left).
    destruct (contains schema "version"); cbn [negb]; [|intros [= <-]; by left].
    destruct (contains schema "variables") eqn:Hvariables; cbn [negb];
      [|intros [= <-]; by left].
    apply contains_true in Hvariables as [v Hv]. rewrite (get_some _ _ _ _ Hv).
    destruct v as [| | | | |vars|]; try (intros [= <-]; by left).
    destruct (validate_variables vars 0 []) as [seen_names|e1] eqn:Hvars;
      [discriminate|].
    intros [= <-].
    destruct (validate_variables_failure _ _ _ _ Hvars)
      as [?|(? & d & name & ? & ? & ?)]; [by left|].
    right. split; [done|]. by exists schema, vars, d, name.
  - unfold try_except, caught_by. rewrite (Hyaml e' eq_refl). cbn.
    intros [= <-]. by left.
Qed.

End LoaderProperties.

(** *** Worked instances *)

Lemma accepted_names_distinct_witness :
  ∃ vars names,
    Sample.scenario_schema !! "variables" = Some (VList vars) ∧
    get_variable_names Sample.scenario_schema = Ok names ∧
    List.length names = List.length vars ∧
    ∀ i j a b, (i < j)%nat → names !! i = Some a → names !! j = Some b →
               py_eqb b a = false.
Proof.
  apply (@accepted_names_distinct Sample.sample_text
           (Ok (VDict Sample.scenario_schema)) Sample.scenario_schema).
  vm_refl.
Defined.


(** A second variable named [.nan] is a duplicate: it is the object the
    set already holds, although it is not equal to it. *)
Example second_nan_name_rejected :
  py_eqb (VFloat FNan) (VFloat FNan) = false
  ∧ @load_yaml_schema Sample.sample_text (Ok (VDict nan_names_schema))
    = raise ValueError "Nombre de variable duplicado: nan".
Proof. split; vm_refl. Qed.

Lemma load_yaml_schema_failures_witness :
  exn_cls (mk_exn TypeError "unhashable type: 'list'") = ValueError ∨
  (exn_cls (mk_exn TypeError "unhashable type: 'list'") = TypeError ∧
   ∃ schema vars d name,
     Ok (VDict unhashable_name_schema) = Ok (VDict schema) ∧
     schema !! "variables" = Some (VList vars) ∧
     In (VDict d) vars ∧ d !! "name" = Some name ∧ hashable name = false).
Proof.
  apply (@load_yaml_schema_failures Sample.sample_text
           (Ok (VDict unhashable_name_schema))).
  - intros e' [=].
  - vm_refl.
Defined.

(** ** The coercion pass and the two validators *)

Section ValidatorProperties.
Context `{PyText} `{Pydantic} `{JsonLib}.

(** What [_preprocess_data] returns, entry by entry, on any schema. *)
Lemma preprocess_data_returns data schema out :
  _preprocess_data data schema = Ok out →
  ∃ type_map, type_map_of schema = Ok type_map ∧
    ∀ key, match data !! key with
           | Some value => coerce_entry type_map key value = Ok (default VNone (out !! key))
                           ∧ is_Some (out !! key)
           | None => out !! key = None
           end.
Proof.
  unfold _preprocess_data. intros E. apply bind_ok in E as (tm & Htm & E).
  exists tm. split; [exact Htm|].
  destruct (for_items_spec (coerce_entry tm) data) as (out0 & Hout0 & Hentries).
  { intros k v _. by destruct (coerce_entry_ok tm k v) as [v' ->]. }
  assert (out0 = out) as -> by congruence.
  intros key. specialize (Hentries key). destruct (data !! key); [|exact Hentries].
  destruct Hentries as (v' & Hv' & ->). split; [exact Hv' | by eexists].
Qed.

(** X5.  The coercion pass changes strings only: the record it returns
    has the keys of the input, and every value that is not a string (a
    number, a boolean, null, a list, a dictionary), whatever the type
    declared for its key, is the value of the input. *)
Theorem preprocess_data_changes_strings_only data schema out :
  _preprocess_data data schema = Ok out →
  dom out = dom data ∧
  ∀ key value, data !! key = Some value → (∀ s, value ≠ VStr s) →
               out !! key = Some value.
Proof.
  intros (tm & _ & Hentries)%preprocess_data_returns. split.
  - apply set_eq. intros key. rewrite !elem_of_dom. specialize (Hentries key).
    destruct (data !! key) as [value|].
    + destruct Hentries as [_ Hsome]. split; [by eexists | done].
    + rewrite Hentries. split; intros [? [=]].
  - intros key value Hkey Hvalue. specialize (Hentries key). rewrite Hkey in Hentries.
    destruct Hentries as [Hcoerce [v' Hv']]. rewrite Hv' in Hcoerce |- *. cbn in Hcoerce.
    unfold coerce_entry in Hcoerce.
    destruct (tm !! key) as [ty|]; [|by destruct value; injection Hcoerce as ->].
    destruct value as [| | | |s| |]; try by injection Hcoerce as ->.
    by destruct (Hvalue s).
Qed.

Lemma coerce_entry_idempotent type_map key value v :
  coerce_entry type_map key value = Ok v → coerce_entry type_map key v = Ok v.
Proof.
  unfold coerce_entry. destruct (type_map !! key) as [ty|]; [|by destruct value; intros [= <-]].
  destruct value as [| | | |s| |]; try by intros [= <-].
  destruct (eq_str ty "integer") eqn:Hint.
  { intros E. pose proof (coerce_integer_cases s) as Hcases. rewrite E in Hcases.
    destruct (search_digits s); [destruct (Nat.ltb _ _)|];
      [ | destruct Hcases as [Hcases _] | ]; by injection Hcases as ->. }
  destruct (eq_str ty "float") eqn:Hfloat.
  { unfold coerce_float, py_float. destruct (float_of_str s); by intros [= <-]. }
  destruct (eq_str ty "boolean") eqn:Hbool.
  { unfold coerce_boolean. destruct (str_in _ true_tokens); [by intros [= <-]|].
    destruct (str_in _ false_tokens); by intros [= <-]. }
  by intros [= <-].
Qed.

(** X6.  The coercion pass is idempotent: run on its own result, with the
    same schema, it returns that result. *)
Theorem preprocess_data_idempotent data schema out :
  _preprocess_data data schema = Ok out →
  _preprocess_data out schema = Ok out.
Proof.
  intros (tm & Htm & Hentries)%preprocess_data_returns.
  unfold _preprocess_data. rewrite Htm, bind_Ok.
  destruct (for_items_spec (coerce_entry tm) out) as (out' & Hout' & Hentries').
  { intros k v _. by destruct (coerce_entry_ok tm k v) as [v' ->]. }
  rewrite Hout'. f_equal. apply map_eq. intros key.
  specialize (Hentries key). specialize (Hentries' key).
  destruct (out !! key) as [v|] eqn:Hv; [|exact Hentries'].
  destruct Hentries' as (v' & Hv' & ->). f_equal.
  destruct (data !! key) as [value|]; [|discriminate Hentries].
  destruct Hentries as [Hcoerce _]. cbn in Hcoerce.
  apply coerce_entry_idempotent in Hcoerce. congruence.
Qed.

(** *** The fields of the model, in the order of the schema *)

Lemma seen_false name seen_names k :
  seen name seen_names = false → In k seen_names → same_key name k = false.
Proof.
  unfold seen. intros Hseen Hin. destruct (same_key name k) eqn:Hk; [|reflexivity].
  assert (existsb (same_key name) seen_names = true) as Hex
    by (apply existsb_exists; eauto).
  congruence.
Qed.

Lemma dict_set_fresh {A} (k : obj) (v : A) l :
  (∀ k', In k' l.*1 → same_key k k' = false) → dict_set k v l = (l ++ [(k, v)])%list.
Proof.
  induction l as [|[k' v'] rest IH]; intros Hfresh; [reflexivity|].
  cbn [dict_set]. rewrite (Hfresh k') by (by left). cbn. f_equal.
  apply IH. intros k'' Hin. apply Hfresh. by right.
Qed.

Lemma foldl_add_field_raise e vars : foldl add_field (Raise e) vars = Raise e.
Proof. induction vars as [|v rest IH]; [reflexivity | exact IH]. Qed.

Lemma add_field_fold vars seen_names acc0 fields :
  checked_variables vars seen_names →
  (∀ k, In k acc0.*1 → In k seen_names) →
  foldl add_field (Ok acc0) vars = Ok fields →
  ∃ entries, fields = (acc0 ++ entries)%list ∧ Forall2 field_entry vars entries.
Proof.
  intros Hchecked. revert acc0.
  induction Hchecked as [|d name ty rest seen_names Hvar Hrest IH]; intros acc0 Hacc.
  - intros [= <-]. exists []. split; [by rewrite app_nil_r | constructor].
  - cbn [foldl]. destruct (add_field (Ok acc0) (VDict d)) as [acc1|e] eqn:Hadd;
      [|by rewrite foldl_add_field_raise].
    unfold add_field in Hadd. rewrite bind_Ok in Hadd.
    destruct Hvar as [Hname Htype Hhash Hfresh _ _ _ _ _ _].
    rewrite (proj2 (getitem_ok _ _ _) Hname), bind_Ok in Hadd.
    rewrite (proj2 (getitem_ok _ _ _) Htype), bind_Ok in Hadd.
    destruct (_get_pydantic_field d) as [t|e] eqn:Ht; [|discriminate Hadd].
    rewrite bind_Ok, Hhash in Hadd. injection Hadd as <-.
    rewrite dict_set_fresh
      by (intros k' Hk'; eapply seen_false; [exact Hfresh | by apply Hacc]).
    intros Hfold.
    match type of Hfold with
    | foldl _ (Ok ?acc1) _ = _ =>
        assert (∀ k, In k acc1.*1 → In k (seen_names ++ [name])%list) as Hacc1
    end.
    { intros k. rewrite fmap_app, !in_app_iff. intros [Hk|[<-|[]]].
      - left. by apply Hacc.
      - right. by left. }
    destruct (IH _ Hacc1 Hfold) as (entries & -> & Hentries).
    eexists (_ :: entries). split; [by rewrite <- app_assoc|].
    constructor; [|exact Hentries]. by exists d, t.
Qed.

Lemma keywords_spec {A} (fields : list (obj * A)) kw :
  keywords fields = Ok kw → Forall2 (λ field k, field = (VStr k.1, k.2)) fields kw.
Proof.
  revert kw. induction fields as [|[k v] rest IH]; intros kw.
  - intros [= <-]. constructor.
  - unfold keywords. cbn [mapM]. intros E. apply bind_ok in E as ([n v'] & Hk & E).
    apply bind_ok in E as (kw' & Hrest & [= <-]).
    destruct k; try discriminate Hk. injection Hk as -> ->.
    constructor; [reflexivity | by apply IH].
Qed.

(** The model built from a compiled schema: [create_model] is given one
    entry per variable, in the order of the schema, under the name of the
    variable, and makes a field of every entry whose name pydantic takes
    as a field name. *)
Lemma create_pydantic_model_fields schema vars model :
  schema !! "variables" = Some (VList vars) → checked_variables vars [] →
  create_pydantic_model schema = Ok model →
  ∃ given,
    Forall2 (λ var field, field_entry var (VStr field.1, field.2)) vars given ∧
    model = List.filter (λ field, is_field_name field.1) given.
Proof.
  intros Hvars Hchecked Hmodel. unfold create_pydantic_model in Hmodel.
  rewrite (proj2 (getitem_ok _ _ _) Hvars), bind_Ok in Hmodel. cbn [iter_list] in Hmodel.
  rewrite bind_Ok in Hmodel.
  apply bind_ok in Hmodel as (fields & Hfields & Hmodel).
  apply bind_ok in Hmodel as (kw & Hkw & Hmodel).
  unfold create_model in Hmodel.
  destruct (create_model_raises kw.*1); [discriminate Hmodel|]. injection Hmodel as <-.
  exists kw. split; [|reflexivity].
  destruct (add_field_fold vars [] [] fields Hchecked (λ k (Hk : In k []), Hk) Hfields)
    as (entries & -> & Hentries).
  cbn [app] in Hkw. apply keywords_spec in Hkw.
  clear -Hentries Hkw. revert kw Hkw.
  induction Hentries as [|var entry vars entries Hentry Hrest IH]; intros kw Hkw.
  - inversion Hkw. constructor.
  - inversion Hkw as [|? k ? kw' Hk Hkw']. subst. constructor; [|by apply IH].
    exact Hentry.
Qed.

Lemma get_pydantic_field_no_default d t :
  _get_pydantic_field d = Ok t → no_default t.2.
Proof.
  unfold _get_pydantic_field. intros E. apply bind_ok in E as (ty & _ & E).
  assert (no_default (integer_field d)) as Hint.
  { unfold integer_field. by destruct (_ || _). }
  repeat match type of E with
         | (if ?c then _ else _) = _ => destruct c
         | (match ?c with _ => _ end) = _ => destruct c
         | mret _ = _ => injection E as <-
         | Ok _ = _ => injection E as <-
         | _ ≫= _ = _ => apply bind_ok in E as (? & _ & E)
         | raise _ _ = _ => discriminate E
         | Raise _ = _ => discriminate E
         end; try exact I; try exact Hint.
Qed.

Lemma field_outcome_required data key t :
  data !! key = None → no_default t.2 →
  field_outcome data key t = inl [([key], "Field required")].
Proof.
  unfold field_outcome. intros -> Hno. destruct t as [a [[ge le [dflt|]]|]]; try done.
Qed.

Lemma field_outcome_optional data key t :
  data !! key = None → field_outcome data key (make_optional t) = inr VNone.
Proof. unfold field_outcome. intros ->. by destruct t as [a [f|]]. Qed.

Lemma validate_fields_error model data key t e errors :
  In (key, t) model → field_outcome data key t = inl (e :: errors) →
  (validate_fields model data).1 ≠ [].
Proof.
  induction model as [|[name t'] rest IH]; [intros []|].
  cbn [validate_fields]. intros [[= -> ->]|Hin] Houtcome.
  - rewrite Houtcome. by destruct (validate_fields rest data).
  - specialize (IH Hin Houtcome). destruct (validate_fields rest data) as [errs validated].
    destruct (field_outcome data name t') as [[|e' errs']|v]; cbn in *; done.
Qed.

Lemma foldl_add_property_raise e vars : foldl add_property (Raise e) vars = Raise e.
Proof. induction vars as [|v rest IH]; [reflexivity | exact IH]. Qed.

(** The loop of [schema_to_json_schema] on checked variables: one
    property per variable and the [required] list, both in the order of
    the schema. *)
Lemma add_property_fold vars seen_names properties required :
  checked_variables vars seen_names →
  (∀ k, In k properties.*1 → In k seen_names) →
  ∃ entries,
    foldl add_property (Ok (properties, required)) vars
    = Ok ((properties ++ entries)%list, (required ++ required_names vars)%list) ∧
    Forall2 property_entry vars entries.
Proof.
  intros Hchecked. revert properties required.
  induction Hchecked as [|d name ty rest seen_names Hvar Hrest IH];
    intros properties required Hseen.
  - exists []. cbn. by rewrite !app_nil_r.
  - cbn [foldl]. unfold add_property at 2. rewrite bind_Ok.
    destruct (json_property_ok _ _ _ _ Hvar) as [prop Hprop].
    destruct Hvar as [Hname Htype Hhash Hfresh _ _ _ _ _ _].
    rewrite (proj2 (getitem_ok _ _ _) Hname), bind_Ok.
    rewrite (proj2 (getitem_ok _ _ _) Htype), bind_Ok, Hprop, bind_Ok, Hhash.
    rewrite dict_set_fresh
      by (intros k' Hk'; eapply seen_false; [exact Hfresh | by apply Hseen]).
    destruct (IH (properties ++ [(name, prop)])%list
                 (if truthy (get d "required" (VBool false))
                  then (required ++ [name])%list else required))
      as (entries & Hfold & Hentries).
    { intros k. rewrite fmap_app, !in_app_iff. intros [Hk|[<-|[]]].
      - left. by apply Hseen.
      - right. by left. }
    exists ((name, prop) :: entries). unfold mret, res_ret. rewrite Hfold. split.
    + rewrite <- app_assoc. do 2 f_equal. unfold required_names. cbn [omap list_omap].
      destruct (truthy (get d "required" (VBool false))); [|reflexivity].
      rewrite Hname. by rewrite <- app_assoc.
    + constructor; [by exists d | exact Hentries].
Qed.

(** X8.  From an accepted schema [schema_to_json_schema] builds a JSON
    Schema that forbids additional properties, has one property per
    variable, in the order of the schema and under the name of the
    variable, and lists as [required] exactly the names of the variables
    whose [required] is true, in the order of the schema. *)
Theorem schema_to_json_schema_shape loaded schema :
  load_yaml_schema loaded = Ok schema →
  ∃ vars js,
    schema !! "variables" = Some (VList vars) ∧
    schema_to_json_schema schema = Ok js ∧
    js_additional_properties js = false ∧
    Forall2 property_entry vars (js_properties js) ∧
    js_required js = required_names vars.
Proof.
  intros [_ (_ & vars & Hvars & Hchecked)]%load_yaml_schema_inv.
  destruct (add_property_fold vars [] [] [] Hchecked) as (entries & Hfold & Hentries);
    [intros k []|].
  exists vars, (mk_json_schema entries false (required_names vars)).
  split; [exact Hvars|]. split; [|by repeat split].
  unfold schema_to_json_schema.
  rewrite (proj2 (getitem_ok _ _ _) Hvars), bind_Ok. cbn [iter_list].
  by rewrite bind_Ok, Hfold, !bind_Ok.
Qed.

(** X9.  A record that lacks a field the schema declares as required is
    rejected by [validate_extraction]: always on the jsonschema path, and
    on the pydantic path when pydantic takes the name as a field name (a
    name with a leading underscore is no field of the model, and the
    record is then not checked for it). *)
Theorem missing_required_field_rejected loaded schema vars d key data use_pydantic :
  load_yaml_schema loaded = Ok schema →
  schema !! "variables" = Some (VList vars) → In (VDict d) vars →
  d !! "name" = Some (VStr key) → d !! "required" = Some (VBool true) →
  data !! key = None →
  (use_pydantic = true → is_field_name key = true) →
  ∃ message, validate_extraction data schema use_pydantic = (false, None, Some message).
Proof.
  intros [_ (_ & vars' & Hvars' & Hchecked)]%load_yaml_schema_inv Hvars Hin Hname
    Hrequired Hmissing Hfield_name.
  assert (vars' = vars) as -> by congruence. clear Hvars'.
  unfold validate_extraction. destruct use_pydantic.
  - unfold _validate_with_pydantic, unexpected.
    destruct (_preprocess_data data schema) as [out|e] eqn:Hout; [|by eexists].
    destruct (create_pydantic_model schema) as [model|e] eqn:Hmodel; [|by eexists].
    apply preprocess_data_returns in Hout as (tm & _ & Hentries).
    specialize (Hentries key). rewrite Hmissing in Hentries.
    destruct (create_pydantic_model_fields _ _ _ Hvars Hchecked Hmodel)
      as (given & Hfields & ->).
    apply list_elem_of_In, list_elem_of_lookup in Hin as [i Hi].
    destruct (Forall2_lookup_l _ _ _ _ _ Hfields Hi)
      as ([name t] & Hfield & d' & t0 & [= <-] & Hname' & Ht0 & Ht).
    cbn [fst snd] in *. assert (name = key) as -> by congruence.
    rewrite (get_some _ _ _ _ Hrequired) in Ht. cbn in Ht. subst t.
    unfold instantiate.
    match goal with
    | |- context [validate_fields ?model out] =>
        pose proof (validate_fields_error model out key t0 ([key], "Field required") [])
          as Herr;
        destruct (validate_fields model out) as [[|e errs] validated]; [|by eexists]
    end.
    exfalso. apply Herr; [|by apply field_outcome_required,
                                  (get_pydantic_field_no_default d)|reflexivity].
    apply filter_In. split; [|by apply Hfield_name].
    eapply list_elem_of_In, list_elem_of_lookup_2, Hfield.
  - unfold _validate_with_jsonschema, schema_to_json_schema, unexpected.
    rewrite (proj2 (getitem_ok _ _ _) Hvars), bind_Ok. cbn [iter_list].
    rewrite bind_Ok.
    destruct (add_property_fold vars [] [] [] Hchecked) as (properties & -> & _);
      [intros k []|].
    rewrite !bind_Ok. unfold jsonschema_validate.
    cbn [js_properties js_additional_properties js_required app].
    destruct (check_schema_raises properties); [by eexists|].
    match goal with
    | |- context [List.filter ?f (required_names vars)] =>
        assert (In (VStr key) (List.filter f (required_names vars))) as Hmiss
    end.
    { apply filter_In. split.
      - apply list_elem_of_In, list_elem_of_omap. exists (VDict d).
        split; [by apply list_elem_of_In|].
        by rewrite (get_some _ _ _ _ Hrequired), Hname.
      - by rewrite (proj2 (contains_false data key)). }
    destruct (List.filter _ (map fst _)) as [|k ks]; [|by eexists].
    destruct (List.filter _ (required_names vars)) as [|n ns]; [destruct Hmiss|].
    by eexists.
Qed.

Lemma validate_fields_valid model data validated :
  validate_fields model data = ([], validated) →
  (∀ name t, In (name, t) model → field_outcome data name t ≠ inl []) →
  ∀ name, name ∈ model.*1 → is_Some (validated !! name).
Proof.
  revert validated. induction model as [|[name0 t0] rest IH]; intros validated.
  - intros _ _ name Hin. by apply elem_of_nil in Hin.
  - cbn [validate_fields]. intros E Hlib name Hin.
    destruct (validate_fields rest data) as [errors validated'].
    destruct (field_outcome data name0 t0) as [errs|v] eqn:Houtcome.
    + injection E as E _. apply app_eq_nil in E as [-> _].
      destruct (Hlib name0 t0); [by left | exact Houtcome].
    + injection E as -> <-. cbn in Hin. apply elem_of_cons in Hin as [->|Hin].
      * rewrite lookup_insert_eq. by eexists.
      * destruct (decide (name0 = name)) as [->|Hne];
          [rewrite lookup_insert_eq; by eexists|].
        rewrite lookup_insert_ne by exact Hne.
        apply (IH validated' eq_refl); [|exact Hin].
        intros n t Hnt. apply Hlib. by right.
Qed.

Lemma validate_fields_value model data validated key x :
  validate_fields model data = ([], validated) →
  key ∈ model.*1 →
  (∀ t, In (key, t) model →
        field_outcome data key t = inr x ∨
        ∃ e errors, field_outcome data key t = inl (e :: errors)) →
  validated !! key = Some x.
Proof.
  revert validated. induction model as [|[name0 t0] rest IH]; intros validated.
  - intros _ Hin. by apply elem_of_nil in Hin.
  - cbn [validate_fields]. intros E Hin Hkey.
    destruct (validate_fields rest data) as [errors validated'].
    destruct (decide (name0 = key)) as [->|Hne].
    + destruct (Hkey t0) as [Hx|(e & errs & He)]; [by left| |].
      * rewrite Hx in E. injection E as -> <-. apply lookup_insert_eq.
      * rewrite He in E. discriminate E.
    + cbn in Hin. apply elem_of_cons in Hin as [->|Hin]; [done|].
      assert (validated' !! key = Some x ∧ errors = [] → validated !! key = Some x) as Hstep.
      { intros [Hv ->]. destruct (field_outcome data name0 t0) as [errs|v].
        - by injection E as _ <-.
        - injection E as <-. by rewrite lookup_insert_ne. }
      apply Hstep. assert (errors = []) as ->.
      { destruct (field_outcome data name0 t0) as [errs|v].
        - injection E as E _. by apply app_eq_nil in E as [_ ->].
        - by injection E as ->. }
      split; [|reflexivity]. apply (IH validated' eq_refl Hin).
      intros t Ht. apply Hkey. by right.
Qed.

(** X10.  What the pydantic path returns for an accepted record: the
    validated record has exactly the declared fields whose name pydantic
    takes as a field name (so not a declared name with a leading
    underscore), and such a field that the input lacks holds null.  (A
    validation error of pydantic always has at least one entry.) *)
Theorem pydantic_validated_fields loaded schema data validated :
  (∀ a config v, validate_field a config v ≠ inl []) →
  load_yaml_schema loaded = Ok schema →
  validate_extraction data schema true = (true, Some validated, None) →
  (∀ key, is_Some (validated !! key) ↔
          (∃ ty, declares schema key ty) ∧ is_field_name key = true) ∧
  (∀ key ty, declares schema key ty → is_field_name key = true →
             data !! key = None → validated !! key = Some VNone).
Proof.
  intros Hlib [_ (_ & vars & Hvars & Hchecked)]%load_yaml_schema_inv.
  unfold validate_extraction, _validate_with_pydantic, unexpected.
  destruct (_preprocess_data data schema) as [out|e] eqn:Hout; [|discriminate].
  destruct (create_pydantic_model schema) as [model|e] eqn:Hmodel; [|discriminate].
  unfold instantiate.
  destruct (validate_fields model out) as [[|e errs] validated'] eqn:Hvalid;
    [|discriminate].
  intros [= <-].
  destruct (create_pydantic_model_fields _ _ _ Hvars Hchecked Hmodel)
    as (given & Hfields & Hkept).
  assert (∀ field, In field model ↔ In field given ∧ is_field_name field.1 = true)
    as Hmodel_given.
  { intros field. rewrite Hkept. apply filter_In. }
  clear Hkept.
  apply preprocess_data_returns in Hout as (tm & _ & Hentries).
  assert (∀ name t, In (name, t) model → field_outcome out name t ≠ inl []) as Hnonempty.
  { intros name [a config] _. unfold field_outcome. cbn [fst snd].
    destruct (out !! name) as [v|].
    - destruct (validate_field a config v) as [[|[loc msg] errors]|v'] eqn:Hv;
        [by destruct (Hlib a config v) | discriminate | discriminate].
    - destruct config as [[ge le [dflt|]]|]; discriminate. }
  assert (∀ key, key ∈ model.*1 ↔
                 (∃ d, In (VDict d) vars ∧ d !! "name" = Some (VStr key))
                 ∧ is_field_name key = true)
    as Hnames.
  { intros key. split.
    - intros [[name t] [-> [Hgiven Hname]%list_elem_of_In%Hmodel_given]]%list_elem_of_fmap.
      split; [|exact Hname].
      apply list_elem_of_In, list_elem_of_lookup in Hgiven as [i Hi].
      destruct (Forall2_lookup_r _ _ _ _ _ Hfields Hi)
        as (var & Hvar & d & t0 & -> & Hname' & _).
      exists d. split; [|exact Hname'].
      eapply list_elem_of_In, list_elem_of_lookup_2, Hvar.
    - intros [(d & [i Hi]%list_elem_of_In%list_elem_of_lookup & Hname) Hfield_name].
      destruct (Forall2_lookup_l _ _ _ _ _ Hfields Hi)
        as ([name t] & Hfield & d' & t0 & [= <-] & Hname' & _).
      cbn [fst] in Hname'. assert (name = key) as -> by congruence.
      apply list_elem_of_fmap. exists (key, t). split; [reflexivity|].
      apply list_elem_of_In, Hmodel_given. split; [|exact Hfield_name].
      eapply list_elem_of_In, list_elem_of_lookup_2, Hfield. }
  assert (∀ key, (∃ ty, declares schema key ty) ↔
                 ∃ d, In (VDict d) vars ∧ d !! "name" = Some (VStr key)) as Hdeclared.
  { intros key. split.
    - intros (ty & vars' & d & Hvars' & Hin & Hname & _).
      assert (vars' = vars) as -> by congruence. by exists d.
    - intros (d & Hin & Hname).
      destruct (checked_variables_In _ _ _ Hchecked Hin)
        as (d' & name & ty & seen' & [= <-] & Hvar).
      exists ty, vars, d. destruct Hvar. auto. }
  split.
  - intros key. rewrite Hdeclared, <- Hnames. split.
    + intros Hsome. destruct (decide (key ∈ model.*1)) as [Hin|Hnot]; [exact Hin|].
      pose proof (validate_fields_dom model out key Hnot) as Hnone.
      rewrite Hvalid in Hnone. cbn in Hnone. rewrite Hnone in Hsome. by destruct Hsome.
    + by apply (validate_fields_valid model out).
  - intros key ty Hdecl Hfield_name Hmissing.
    apply (validate_fields_value model out); [exact Hvalid| |].
    + apply Hnames. split; [|exact Hfield_name]. apply Hdeclared. by exists ty.
    + specialize (Hentries key). rewrite Hmissing in Hentries.
      intros t [[i Hi]%list_elem_of_In%list_elem_of_lookup _]%Hmodel_given.
      destruct (Forall2_lookup_r _ _ _ _ _ Hfields Hi)
        as (var & Hvar & d & t0 & -> & Hname & Ht0 & Ht).
      cbn [snd] in Ht. subst t.
      destruct (negb (truthy (get d "required" (VBool false)))).
      * left. by apply field_outcome_optional.
      * right. eexists _, _. by apply field_outcome_required,
                                   (get_pydantic_field_no_default d).
Qed.

Lemma property_of_some properties key prop :
  property_of properties key = Some prop → In (VStr key, prop) properties.
Proof.
  induction properties as [|[k p] rest IH]; [discriminate|]. cbn [property_of].
  destruct (py_eqb k (VStr key)) eqn:Hk; [|by right; apply IH].
  intros [= ->]. apply py_eqb_str_r in Hk as ->. by left.
Qed.

(** X11.  What the jsonschema path returns for an accepted record: the
    record itself, as given (nothing is coerced and no default is filled
    in), and every key of such a record is declared by the schema. *)
Theorem jsonschema_accepts_as_given loaded schema data validated :
  load_yaml_schema loaded = Ok schema →
  validate_extraction data schema false = (true, Some validated, None) →
  validated = data ∧
  ∀ key, is_Some (data !! key) → ∃ ty, declares schema key ty.
Proof.
  intros [_ (_ & vars & Hvars & Hchecked)]%load_yaml_schema_inv.
  unfold validate_extraction, _validate_with_jsonschema, schema_to_json_schema, unexpected.
  rewrite (proj2 (getitem_ok _ _ _) Hvars), bind_Ok. cbn [iter_list]. rewrite bind_Ok.
  destruct (add_property_fold vars [] [] [] Hchecked) as (properties & -> & Hentries);
    [intros k []|].
  rewrite !bind_Ok. unfold jsonschema_validate.
  cbn [js_properties js_additional_properties js_required app].
  destruct (check_schema_raises properties); [discriminate|].
  destruct (List.filter _ (map fst _)) as [|k ks] eqn:Hundeclared; [|discriminate].
  intros E. split.
  - unfold mret, res_ret in E.
    destruct (List.filter _ (required_names vars)); [|discriminate E].
    destruct (omap _ (map_to_list data)) as [|[path msg] rest]; [|discriminate E].
    by injection E as <-.
  - clear E. intros key [v Hkey].
    assert (In key (map fst (map_to_list data))) as Hin.
    { apply in_map_iff. exists (key, v). split; [reflexivity|].
      apply list_elem_of_In, elem_of_map_to_list, Hkey. }
    destruct (property_of properties key) as [prop|] eqn:Hprop.
    + apply property_of_some, list_elem_of_In, list_elem_of_lookup in Hprop as [i Hi].
      destruct (Forall2_lookup_r _ _ _ _ _ Hentries Hi) as (var & Hvar & d & -> & Hname & _).
      assert (In (VDict d) vars) as Hd
        by (eapply list_elem_of_In, list_elem_of_lookup_2, Hvar).
      destruct (checked_variables_In _ _ _ Hchecked Hd)
        as (d' & name & ty & seen' & [= <-] & Hchk).
      exists ty, vars, d. destruct Hchk. auto.
    + assert (In key []) as []. rewrite <- Hundeclared. apply filter_In.
      split; [exact Hin | by apply bool_decide_eq_true].
Qed.

End ValidatorProperties.

(** ** Markdown fences around the response *)

Lemma is_space_inv x : is_space x = true → In x whitespace.
Proof.
  unfold is_space. intros (w & Hin & Heq)%existsb_exists.
  by apply String.eqb_eq in Heq as ->.
Qed.

(** A whitespace character takes at most three bytes. *)
Lemma is_space_length x : is_space x = true → (String.length x ≤ 3)%nat.
Proof.
  intros Hin%is_space_inv. unfold whitespace in Hin.
  repeat (destruct Hin as [<-|Hin]; [cbn; lia|]). destruct Hin.
Qed.

Lemma length_append s t :
  String.length (s +:+ t) = (String.length s + String.length t)%nat.
Proof. induction s as [|c s IH]; [reflexivity|]. cbn. by rewrite <- IH. Qed.

(** Text that ends with a closing fence does not end with whitespace. *)
Lemma fence_not_space u : is_space (u +:+ fence) = false.
Proof.
  destruct u as [|c u]; [reflexivity|].
  destruct (is_space (String c u +:+ fence)) eqn:Hspace; [|reflexivity].
  apply is_space_length in Hspace. rewrite length_append in Hspace.
  cbn in Hspace. lia.
Qed.

Lemma rstrip_app s t :
  (∀ u, is_space (u +:+ t) = false) → rstrip t = t → rstrip (s +:+ t) = s +:+ t.
Proof.
  intros Hspace Ht. induction s as [|c s IH]; [exact Ht|].
  change (String c s +:+ t) with (String c (s +:+ t)). cbn [rstrip]. rewrite IH.
  change (String c (s +:+ t)) with (String c s +:+ t). by rewrite Hspace.
Qed.

Lemma join_snoc sep parts last_part :
  parts ≠ [] →
  join sep (parts ++ [last_part]) = (join sep parts +:+ sep) +:+ last_part.
Proof.
  induction parts as [|p rest IH]; [done|]. intros _.
  destruct rest as [|q rest].
  - cbn. by rewrite append_assoc.
  - change (join sep ((p :: q :: rest) ++ [last_part]))
      with (p +:+ sep +:+ join sep ((q :: rest) ++ [last_part])).
    rewrite IH by done.
    change (join sep (p :: q :: rest)) with (p +:+ sep +:+ join sep (q :: rest)).
    by rewrite !append_assoc.
Qed.

Section FenceProperties.
Context `{PyText} `{Pydantic} `{JsonLib}.

(** X12.  A response wrapped in a Markdown code fence is parsed as its
    body: for an opening fence with any language tag, body lines, and a
    closing fence, [parse_json_safely] gives what it gives for the body
    alone (a body that is already stripped and does not itself open with
    a fence). *)
Theorem parse_json_safely_fenced lang lines :
  one_line lang → Forall one_line lines → lines ≠ [] →
  strip (join newline lines) = join newline lines →
  startswith fence (join newline lines) = false →
  parse_json_safely (join newline ([fence +:+ lang] ++ lines ++ [fence]))
  = parse_json_safely (join newline lines).
Proof.
  intros Hlang Hlines Hne Hstrip Hopen.
  set (text := join newline ([fence +:+ lang] ++ lines ++ [fence])).
  assert (strip text = text) as Htext.
  { unfold strip.
    assert (lstrip text = text) as ->.
    { unfold text. cbn [app]. rewrite join_cons by (by destruct lines). reflexivity. }
    unfold text. rewrite app_assoc, join_snoc by done.
    apply rstrip_app; [apply fence_not_space | reflexivity]. }
  assert (strip_fences text = join newline lines) as Hfences.
  { unfold strip_fences.
    assert (startswith fence text = true) as ->.
    { unfold text. cbn [app]. rewrite join_cons by (by destruct lines).
      rewrite append_assoc. apply startswith_prefix. }
    unfold text. rewrite split_lines_join.
    - cbn [app]. rewrite startswith_prefix, last_snoc.
      change (String.eqb (strip fence) fence) with true. cbn iota.
      unfold drop_last. by rewrite removelast_last.
    - done.
    - cbn [app]. constructor; [by apply one_line_app|].
      apply Forall_app. split; [exact Hlines | by repeat constructor]. }
  unfold parse_json_safely. rewrite Htext, Hfences, Hstrip.
  unfold strip_fences. by rewrite Hopen.
Qed.

End FenceProperties.

(** ** The prompt of a configured position *)

Section PromptProperties.
Context `{PyText}.

Lemma template_rango_edad especialidad :
  ∃ rango, ESPECIALIDAD_TEMPLATES especialidad !! "rango_edad" = Some (VStr rango).
Proof.
  unfold ESPECIALIDAD_TEMPLATES.
  repeat (destruct (String.eqb especialidad _); [eexists; vm_compute; reflexivity|]).
  eexists. vm_compute. reflexivity.
Qed.

(** X13.  For every position the application can configure (any
    especialidad, known or not, any locality, radius and criteria, and
    additional fields that leave the age range alone or give it as a
    text) and every accepted schema, [build_full_prompt] returns the fixed
    system prompt and a user prompt; the user prompt depends on the first
    10000 characters of the text only. *)
Theorem build_full_prompt_returns especialidad localidad radio_km criterios_score
    campos_adicionales loaded schema cv_text :
  load_yaml_schema loaded = Ok schema →
  (∀ campos value, campos_adicionales = Some campos →
                   campos !! "rango_edad" = Some value → ∃ rango, value = VStr rango) →
  let cfg := PromptConfig_init especialidad localidad radio_km criterios_score
               campos_adicionales in
  (∃ user_prompt,
     build_full_prompt cfg cv_text schema = Ok (get_system_prompt cfg, user_prompt)) ∧
  ∀ other_text,
    slice_to (Z.to_nat 10000) other_text = slice_to (Z.to_nat 10000) cv_text →
    build_full_prompt cfg other_text schema = build_full_prompt cfg cv_text schema.
Proof.
  intros [_ Hcompiled]%load_yaml_schema_inv Hcampos cfg. split.
  - destruct (build_full_prompt_ok cfg cv_text schema Hcompiled)
      as (system_prompt & user_prompt & Hprompt).
    + unfold cfg, PromptConfig_init. cbn [template].
      destruct (template_rango_edad especialidad) as [rango Hrango].
      destruct (String.eqb especialidad "personalizado" && _) eqn:Hcustom.
      * destruct campos_adicionales as [campos|].
        2:{ rewrite andb_true_iff, negb_true_iff, bool_decide_eq_false in Hcustom.
            by destruct Hcustom as [_ []]. }
        cbn [default]. unfold get, id. rewrite lookup_union.
        destruct (campos !! "rango_edad") as [value|] eqn:Hvalue.
        -- destruct (Hcampos campos value eq_refl Hvalue) as [r ->].
           rewrite Hrango. by eexists.
        -- rewrite Hrango. by eexists.
      * unfold get. rewrite Hrango. by eexists.
    + exists user_prompt. rewrite Hprompt. f_equal. f_equal.
      unfold build_full_prompt in Hprompt.
      apply bind_ok in Hprompt as (schema_text & _ & Hprompt).
      apply bind_ok in Hprompt as (field_definitions & _ & [= <- _]). reflexivity.
  - intros other_text Hsame. unfold build_full_prompt. by rewrite Hsame.
Qed.

End PromptProperties.

(** ** The requests of the two clients *)

Section BudgetFacts.
Context `{PyText} `{Pydantic} `{JsonLib} `{Provider}.

Lemma sends_ret {A} ok (a : A) : sends 0 ok (mret a).
Proof. intros w. exists []. cbn. by rewrite app_nil_r. Qed.

Lemma sends_lift {A} ok (c : res A) : sends 0 ok (lift c).
Proof. intros w. exists []. cbn. by rewrite app_nil_r. Qed.

Lemma sends_mono {A} k k' ok (c : M A) : (k ≤ k')%nat → sends k ok c → sends k' ok c.
Proof.
  intros Hk Hc w. destruct (Hc w) as (sent_requests & ? & ? & ?).
  exists sent_requests. repeat split; [done | lia | done].
Qed.

Lemma sends_bind {A B} k1 k2 ok (c : M A) (f : A → M B) :
  sends k1 ok c → (∀ a, sends k2 ok (f a)) → sends (k1 + k2) ok (c ≫= f).
Proof.
  intros Hc Hf w. destruct (Hc w) as (sent1 & Hcalls1 & Hlen1 & Hok1).
  unfold mbind, M_mbind, M_bind. destruct (c w) as [[a|e] w1]; cbn [snd] in *.
  - destruct (Hf a w1) as (sent2 & Hcalls2 & Hlen2 & Hok2).
    exists (sent1 ++ sent2)%list. rewrite Hcalls2, Hcalls1, <- app_assoc.
    split; [reflexivity|]. split; [rewrite length_app; lia | by apply Forall_app].
  - exists sent1. repeat split; [done | lia | done].
Qed.

Lemma sends_rewrap {A} k ok prefix (c : M A) : sends k ok c → sends k ok (rewrap prefix c).
Proof.
  intros Hc w. destruct (Hc w) as (sent_requests & Hcalls & Hlen & Hok).
  exists sent_requests. unfold rewrap. by destruct (c w) as [[a|e] w1].
Qed.

Lemma sends_chat_completion (ok : Request → Prop) request :
  ok request → sends 1 ok (chat_completion request).
Proof.
  intros Hok w. exists [request]. unfold chat_completion.
  destruct (complete request (provider_state w)) as [outcome p]. cbn.
  repeat split; [lia | by constructor].
Qed.

Lemma sends_retrying {A} n k ok (c : M A) :
  sends k ok c → sends (S n * k) ok (retrying n c).
Proof.
  intros Hc. induction n as [|n IH]; intros w.
  - destruct (Hc w) as (sent_requests & Hcalls & Hlen & Hok).
    exists sent_requests. cbn [retrying]. destruct (c w) as [[a|e] w1];
      (repeat split; [done | lia | done]).
  - destruct (Hc w) as (sent1 & Hcalls1 & Hlen1 & Hok1). cbn [retrying].
    destruct (c w) as [[a|e] w1]; cbn [snd] in *.
    + exists sent1. repeat split; [done | lia | done].
    + destruct (IH w1) as (sent2 & Hcalls2 & Hlen2 & Hok2).
      exists (sent1 ++ sent2)%list. rewrite Hcalls2, Hcalls1, <- app_assoc.
      split; [reflexivity|]. split; [rewrite length_app; lia | by apply Forall_app].
Qed.

Ltac sends_tail :=
  repeat match goal with
         | |- sends _ _ (match error_text ?e with _ => _ end) => destruct (error_text e)
         | |- context [validate_parsed ?d ?s] =>
             destruct (validate_parsed d s) as [[? ?] ?]
         | |- sends _ _ (if ?c then _ else _) => destruct c
         | |- sends _ _ (lift _) => eapply sends_mono; [|apply sends_lift]; lia
         | |- sends _ _ (mret _) => eapply sends_mono; [|apply sends_ret]; lia
         end.

Lemma openai_retry_sends (self : Client) correction_prompt schema retry_count text cfg :
  sends 1 (of_client self (max_tokens self))
    (OpenAIClient._retry_with_correction self correction_prompt schema retry_count text cfg).
Proof.
  unfold OpenAIClient._retry_with_correction.
  apply (sends_bind 0 1); [apply sends_lift|]. intros [system_prompt user_prompt].
  apply (sends_bind 1 0).
  { apply sends_rewrap, sends_chat_completion. repeat split. by right. }
  intros response_text. apply (sends_bind 0 0); [apply sends_lift|].
  intros [data parse_error]. sends_tail.
Qed.

Lemma openai_request_budget_any (self : Client) text schema cfg :
  sends 2 (of_client self (max_tokens self))
    (OpenAIClient.extract_profile self text schema cfg).
Proof.
  unfold OpenAIClient.extract_profile, retry. cbn [Nat.sub].
  apply (sends_retrying 0 2). unfold OpenAIClient.extract_profile_body.
  apply (sends_bind 0 2); [apply sends_lift|]. intros [system_prompt user_prompt].
  apply (sends_bind 1 1).
  { apply sends_rewrap, sends_chat_completion. repeat split. by left. }
  intros response_text. apply (sends_bind 0 1); [apply sends_lift|].
  intros [data parse_error]. sends_tail; apply openai_retry_sends.
Qed.

(** X14.  Whatever the provider answers or raises, and whatever the
    schema and the text, [OpenAIClient.extract_profile] sends at most two
    requests; each carries the model and the token limit of the client,
    and the temperature of the client or 0.1. *)
Theorem openai_request_budget (self : Client) text schema cfg :
  sends 2 (of_client self (max_tokens self))
    (OpenAIClient.extract_profile self text schema cfg).
Proof. apply openai_request_budget_any. Qed.

Lemma litellm_retry_sends (self : Client) correction_prompt schema retry_count text cfg :
  sends 1 (of_client self (LiteLLMClient.given_max_tokens self))
    (LiteLLMClient._retry_with_correction self correction_prompt schema retry_count
       text cfg).
Proof.
  unfold LiteLLMClient._retry_with_correction.
  apply (sends_bind 0 1); [apply sends_lift|]. intros [system_prompt user_prompt].
  apply (sends_bind 1 0).
  { apply sends_rewrap, sends_chat_completion. repeat split. by right. }
  intros response_text. apply (sends_bind 0 0); [apply sends_lift|].
  intros [data parse_error]. sends_tail.
Qed.

Lemma litellm_request_budget_any (self : Client) text schema cfg :
  sends 6 (of_client self (LiteLLMClient.given_max_tokens self))
    (LiteLLMClient.extract_profile self text schema cfg).
Proof.
  unfold LiteLLMClient.extract_profile, retry. cbn [Nat.sub].
  apply (sends_retrying 2 2). unfold LiteLLMClient.extract_profile_body.
  apply (sends_bind 0 2); [apply sends_lift|]. intros [system_prompt user_prompt].
  apply (sends_bind 1 1).
  { apply sends_rewrap, sends_chat_completion. repeat split. by left. }
  intros response_text. apply (sends_bind 0 1); [apply sends_lift|].
  intros [data parse_error]. sends_tail; apply litellm_retry_sends.
Qed.

(** X15.  [LiteLLMClient.extract_profile], whose decorator retries three
    times, sends at most six requests, whatever the provider answers or
    raises; each carries the model of the client, its token limit when it
    is not zero, and the temperature of the client or 0.1. *)
Theorem litellm_request_budget (self : Client) text schema cfg :
  sends 6 (of_client self (LiteLLMClient.given_max_tokens self))
    (LiteLLMClient.extract_profile self text schema cfg).
Proof. apply litellm_request_budget_any. Qed.

End BudgetFacts.

Section ClientOutcomes.
Context `{PyText} `{Pydantic} `{JsonLib} `{Provider}.

(** X16.  What [OpenAIClient.extract_profile] returns: when the first
    response parses and validates, the validated data of that response,
    after one request; when the first response fails to parse or to
    validate and the response to the correction request (whose prompt
    quotes that failure) parses and validates, the validated data of
    the second response, after two requests. *)
Theorem openai_extract_profile_returns (self : Client) text schema cfg w
    system_prompt user_prompt response1 p1 :
  OpenAIClient._build_extraction_prompt self text schema
    (Some (default create_default_config cfg)) = Ok (system_prompt, user_prompt) →
  complete (first_request self system_prompt user_prompt) (provider_state w)
  = (Ok response1, p1) →
  let first := first_request self system_prompt user_prompt in
  (∀ validated,
     judge schema response1 = Valid validated →
     OpenAIClient.extract_profile self text schema cfg w
     = (Ok validated, sent w first p1)) ∧
  (∀ msg response2 p2 validated,
     invalid_response schema response1 msg →
     let correction :=
       correction_request self system_prompt user_prompt
         (generate_correction_prompt response1 msg schema) in
     complete correction p1 = (Ok response2, p2) →
     judge schema response2 = Valid validated →
     OpenAIClient.extract_profile self text schema cfg w
     = (Ok validated, sent (sent w first p1) correction p2)).
Proof.
  intros Hprompt Hfirst first.
  unfold OpenAIClient.extract_profile, retry. cbn [Nat.sub retrying].
  rewrite extract_profile_body_run. cbn zeta. rewrite Hprompt, Hfirst. split.
  - intros validated ->. reflexivity.
  - intros msg response2 p2 validated Hinvalid Hsecond Hvalid. subst first.
    set (first := first_request self system_prompt user_prompt) in *.
    set (correction := correction_request self system_prompt user_prompt
                         (generate_correction_prompt response1 msg schema)) in *.
    assert (OpenAIClient._retry_with_correction self
              (generate_correction_prompt response1 msg schema) schema (0 + 1) text
              (Some (default create_default_config cfg)) (sent w first p1)
            = (Ok validated, sent (sent w first p1) correction p2)) as Hretry.
    { rewrite retry_with_correction_run, Hprompt. cbn zeta.
      change (provider_state (sent w first p1)) with p1.
      fold correction. by rewrite Hsecond, Hvalid. }
    destruct Hinvalid as [-> | ->]; change (0 <? 1)%nat with true; cbn iota;
      by rewrite Hretry.
Qed.

(** X17.  A failure of the provider on the first request is not retried
    by [OpenAIClient.extract_profile] (its decorator stops after one
    attempt): one request is sent and the exception raised carries the
    text of the failure after the prefix of the client. *)
Theorem openai_transport_failure_not_retried (self : Client) text schema cfg w
    system_prompt user_prompt e p1 :
  OpenAIClient._build_extraction_prompt self text schema
    (Some (default create_default_config cfg)) = Ok (system_prompt, user_prompt) →
  complete (first_request self system_prompt user_prompt) (provider_state w)
  = (Raise e, p1) →
  OpenAIClient.extract_profile self text schema cfg w
  = (raise Exception_ ("Error llamando a OpenAI API: " +:+ exn_str e),
     sent w (first_request self system_prompt user_prompt) p1).
Proof.
  intros Hprompt Hfirst.
  unfold OpenAIClient.extract_profile, retry. cbn [Nat.sub retrying].
  rewrite extract_profile_body_run. cbn zeta. by rewrite Hprompt, Hfirst.
Qed.

(** The first request of the LiteLLM client. *)
Lemma litellm_body_transport_failure (self : Client) text schema cfg w
    system_prompt user_prompt e p1 :
  LiteLLMClient._build_extraction_prompt self text schema
    (Some (default create_default_config cfg)) = Ok (system_prompt, user_prompt) →
  complete (litellm_first_request self system_prompt user_prompt) (provider_state w)
  = (Raise e, p1) →
  LiteLLMClient.extract_profile_body self text schema cfg 0 w
  = (raise Exception_ ("Error llamando a LiteLLM: " +:+ exn_str e),
     sent w (litellm_first_request self system_prompt user_prompt) p1).
Proof.
  intros Hprompt Hfirst.
  unfold LiteLLMClient.extract_profile_body, mbind, M_mbind, M_bind, lift. cbn zeta.
  rewrite Hprompt. unfold rewrap, chat_completion.
  fold (litellm_first_request self system_prompt user_prompt). by rewrite Hfirst.
Qed.

(** X18.  [LiteLLMClient.extract_profile] retries a failing provider: when
    every call of the provider fails, it sends the same first request
    three times and then raises with the text of the third failure. *)
Theorem litellm_transport_failure_retried (self : Client) text schema cfg w
    system_prompt user_prompt :
  LiteLLMClient._build_extraction_prompt self text schema
    (Some (default create_default_config cfg)) = Ok (system_prompt, user_prompt) →
  always_failing →
  let first := litellm_first_request self system_prompt user_prompt in
  ∃ e p,
    LiteLLMClient.extract_profile self text schema cfg w
    = (raise Exception_ ("Error llamando a LiteLLM: " +:+ exn_str e),
       mk_world p (calls w ++ [first; first; first])).
Proof.
  intros Hprompt Hfailing first. subst first.
  unfold LiteLLMClient.extract_profile, retry. cbn [Nat.sub retrying].
  destruct (Hfailing (litellm_first_request self system_prompt user_prompt)
              (provider_state w)) as (e1 & p1 & Hcall1).
  rewrite (litellm_body_transport_failure _ _ _ _ _ _ _ _ _ Hprompt Hcall1).
  unfold raise. cbn beta iota.
  destruct (Hfailing (litellm_first_request self system_prompt user_prompt) p1)
    as (e2 & p2 & Hcall2).
  rewrite (litellm_body_transport_failure _ _ _ _
             (sent w (litellm_first_request self system_prompt user_prompt) p1)
             _ _ _ _ Hprompt Hcall2).
  unfold raise. cbn beta iota.
  destruct (Hfailing (litellm_first_request self system_prompt user_prompt) p2)
    as (e3 & p3 & Hcall3).
  rewrite (litellm_body_transport_failure _ _ _ _
             (sent (sent w (litellm_first_request self system_prompt user_prompt) p1)
                   (litellm_first_request self system_prompt user_prompt) p2)
             _ _ _ _ Hprompt Hcall3).
  unfold raise. cbn beta iota.
  exists e3, p3. unfold sent. cbn [calls]. by rewrite <- !app_assoc.
Qed.

Lemma invalid_response_inv schema response msg :
  invalid_response schema response msg →
  ∃ data parse_error,
    parse_json_safely response = Ok (data, parse_error) ∧
    (error_text parse_error = Some msg ∨
     (error_text parse_error = None ∧
      ∃ validated_data validation_error,
        validate_parsed data schema = (false, validated_data, validation_error) ∧
        msg = py_str (from_option VStr VNone validation_error))).
Proof.
  unfold invalid_response, judge.
  destruct (parse_json_safely response) as [[data parse_error]|e];
    [|intros [?|?]; discriminate].
  destruct (error_text parse_error) as [msg'|] eqn:Herr.
  - intros [[= ->]|?]; [|discriminate]. exists data, parse_error. by eauto.
  - destruct (validate_parsed data schema) as [[is_valid validated_data] validation_error]
      eqn:Hvalid.
    destruct is_valid; cbn [negb]; intros [?|Hjudge]; try discriminate.
    injection Hjudge as <-. exists data, parse_error. split; [reflexivity|].
    right. split; [exact Herr|]. by exists validated_data, validation_error.
Qed.

Lemma litellm_retry_invalid (self : Client) correction_prompt schema retry_count text cfg
    w system_prompt user_prompt response p msg :
  LiteLLMClient._build_extraction_prompt self text schema cfg
  = Ok (system_prompt, user_prompt) →
  complete (litellm_correction_request self system_prompt user_prompt correction_prompt)
           (provider_state w) = (Ok response, p) →
  invalid_response schema response msg →
  ∃ e,
    LiteLLMClient._retry_with_correction self correction_prompt schema retry_count text
      cfg w
    = (Raise e,
       sent w (litellm_correction_request self system_prompt user_prompt
                 correction_prompt) p) ∧
    exn_cls e = ValueError.
Proof.
  intros Hprompt Hcall (data & parse_error & Hparse & Hcases)%invalid_response_inv.
  unfold LiteLLMClient._retry_with_correction, mbind, M_mbind, M_bind, lift.
  rewrite Hprompt. unfold rewrap, chat_completion.
  fold (litellm_correction_request self system_prompt user_prompt correction_prompt).
  rewrite Hcall, Hparse.
  destruct Hcases as [-> | (-> & validated_data & validation_error & -> & _)];
    by eexists.
Qed.

Lemma litellm_body_invalid (self : Client) text schema cfg w system_prompt user_prompt :
  LiteLLMClient._build_extraction_prompt self text schema
    (Some (default create_default_config cfg)) = Ok (system_prompt, user_prompt) →
  always_invalid schema →
  ∃ e p correction,
    LiteLLMClient.extract_profile_body self text schema cfg 0 w
    = (Raise e,
       mk_world p (calls w ++ [litellm_first_request self system_prompt user_prompt;
                               correction])) ∧
    exn_cls e = ValueError ∧ req_temperature correction = float_0_1.
Proof.
  intros Hprompt Hinvalid.
  destruct (Hinvalid (litellm_first_request self system_prompt user_prompt)
              (provider_state w)) as (response1 & p1 & msg1 & Hcall1 & Hinvalid1).
  pose proof Hinvalid1 as (data & parse_error & Hparse & Hcases)%invalid_response_inv.
  assert (∀ correction_prompt, ∃ e p correction,
    LiteLLMClient._retry_with_correction self correction_prompt schema (0 + 1) text
      (Some (default create_default_config cfg))
      (sent w (litellm_first_request self system_prompt user_prompt) p1)
    = (Raise e,
       mk_world p (calls w ++ [litellm_first_request self system_prompt user_prompt;
                               correction])) ∧
    exn_cls e = ValueError ∧ req_temperature correction = float_0_1) as Hretry.
  { intros correction_prompt.
    destruct (Hinvalid (litellm_correction_request self system_prompt user_prompt
                          correction_prompt) p1)
      as (response2 & p2 & msg2 & Hcall2 & Hinvalid2).
    destruct (litellm_retry_invalid self correction_prompt schema (0 + 1) text _
                (sent w (litellm_first_request self system_prompt user_prompt) p1)
                _ _ _ _ _ Hprompt Hcall2 Hinvalid2) as (e & -> & He).
    exists e, p2, (litellm_correction_request self system_prompt user_prompt
                     correction_prompt).
    unfold sent. cbn [calls]. by rewrite <- app_assoc. }
  unfold LiteLLMClient.extract_profile_body, mbind, M_mbind, M_bind, lift. cbn zeta.
  rewrite Hprompt. unfold rewrap, chat_completion.
  fold (litellm_first_request self system_prompt user_prompt).
  rewrite Hcall1, Hparse.
  fold (sent w (litellm_first_request self system_prompt user_prompt) p1).
  destruct Hcases as [-> | (-> & validated_data & validation_error & -> & _)];
    cbn [negb]; change (0 <? 1)%nat with true; cbn iota; apply Hretry.
Qed.

(** X19.  With a provider whose every response fails parsing or
    validation, [LiteLLMClient.extract_profile] sends six requests, not
    two: its decorator repeats three times the attempt made of the first
    request and one correction request, and then the [ValueError] of the
    last correction is raised. *)
Theorem litellm_invalid_responses_six_requests (self : Client) text schema cfg w
    system_prompt user_prompt :
  LiteLLMClient._build_extraction_prompt self text schema
    (Some (default create_default_config cfg)) = Ok (system_prompt, user_prompt) →
  always_invalid schema →
  let first := litellm_first_request self system_prompt user_prompt in
  ∃ e p correction1 correction2 correction3,
    LiteLLMClient.extract_profile self text schema cfg w
    = (Raise e,
       mk_world p (calls w ++ [first; correction1; first; correction2;
                               first; correction3])) ∧
    exn_cls e = ValueError ∧
    req_temperature correction1 = float_0_1 ∧
    req_temperature correction2 = float_0_1 ∧
    req_temperature correction3 = float_0_1.
Proof.
  intros Hprompt Hinvalid first. subst first.
  unfold LiteLLMClient.extract_profile, retry. cbn [Nat.sub retrying].
  destruct (litellm_body_invalid self text schema cfg w _ _ Hprompt Hinvalid)
    as (e1 & p1 & c1 & -> & _ & Hc1).
  destruct (litellm_body_invalid self text schema cfg
              (mk_world p1 (calls w ++ [litellm_first_request self system_prompt
                                          user_prompt; c1]))
              _ _ Hprompt Hinvalid) as (e2 & p2 & c2 & -> & _ & Hc2).
  cbn [calls].
  destruct (litellm_body_invalid self text schema cfg
              (mk_world p2 ((calls w ++ [litellm_first_request self system_prompt
                                           user_prompt; c1]) ++
                            [litellm_first_request self system_prompt user_prompt; c2]))
              _ _ Hprompt Hinvalid) as (e3 & p3 & c3 & -> & He3 & Hc3).
  cbn [calls]. exists e3, p3, c1, c2, c3. by rewrite <- !app_assoc.
Qed.

End ClientOutcomes.

(** ** Derived fields *)

Lemma experiencia_confirmada_of_first before field after result v :
  (∀ f, In f before → result !! f = None) → result !! field = Some v →
  experiencia_confirmada_of (before ++ field :: after) result = to_bool v.
Proof.
  intros Hbefore Hfield. induction before as [|f before IH]; cbn [app experiencia_confirmada_of].
  - rewrite (proj2 (contains_true result field)) by eauto.
    by rewrite (get_some _ _ _ _ Hfield).
  - rewrite (proj2 (contains_false result f)) by (apply Hbefore; by left).
    apply IH. intros f' Hf'. apply Hbefore. by right.
Qed.

Lemma experiencia_confirmada_of_none fields result :
  (∀ f, In f fields → result !! f = None) →
  experiencia_confirmada_of fields result = Ok false.
Proof.
  induction fields as [|f fields IH]; intros Hnone; [reflexivity|].
  cbn [experiencia_confirmada_of].
  rewrite (proj2 (contains_false result f)) by (apply Hnone; by left).
  apply IH. intros f' Hf'. apply Hnone. by right.
Qed.

Lemma experiencia_confirmada_of_not_list fields result :
  (∀ key l, result !! key ≠ Some (VList l)) →
  ∃ b, experiencia_confirmada_of fields result = Ok b.
Proof.
  intros Hlists. induction fields as [|f fields IH]; [by eexists|].
  cbn [experiencia_confirmada_of]. destruct (contains result f) eqn:Hf; [|exact IH].
  apply contains_true in Hf as [v Hv]. rewrite (get_some _ _ _ _ Hv).
  apply to_bool_not_list. destruct v; try reflexivity. by destruct (Hlists f l).
Qed.

Lemma to_bool_get_not_list result key :
  (∀ key l, result !! key ≠ Some (VList l)) →
  ∃ b, to_bool (get result key (VBool false)) = Ok b.
Proof.
  intros Hlists. apply to_bool_not_list. unfold get.
  destruct (result !! key) as [v|] eqn:Hv; [|reflexivity].
  destruct v; try reflexivity. by destruct (Hlists key l).
Qed.

(** X20.  On a record that holds no list, [calculate_derived_fields]
    returns, and the ["preaprobado"] it writes is the conjunction of the
    four normalised signals: true exactly when the age is in range, the
    experience is confirmed, a photo is present and the secondary school
    is technical. *)
Theorem preaprobado_is_conjunction (result : gmap string obj) :
  (∀ key l, result !! key ≠ Some (VList l)) →
  ∃ edad experiencia foto secundaria,
    to_bool (get result "edad_en_rango" (VBool false)) = Ok edad ∧
    experiencia_confirmada_of possible_exp_fields result = Ok experiencia ∧
    to_bool (get result "hay_foto_en_cv" (VBool false)) = Ok foto ∧
    to_bool (get result "secundaria_tecnica" (VBool false)) = Ok secundaria ∧
    calculate_derived_fields result =
    (<["preaprobado" := VBool (edad && experiencia && foto && secundaria)]> result,
     Ok tt) ∧
    (edad && experiencia && foto && secundaria = true ↔
     edad = true ∧ experiencia = true ∧ foto = true ∧ secundaria = true).
Proof.
  intros Hlists.
  destruct (to_bool_get_not_list result "edad_en_rango" Hlists) as [edad He].
  destruct (experiencia_confirmada_of_not_list possible_exp_fields result Hlists)
    as [experiencia Hx].
  destruct (to_bool_get_not_list result "hay_foto_en_cv" Hlists) as [foto Hf].
  destruct (to_bool_get_not_list result "secundaria_tecnica" Hlists) as [secundaria Hs].
  exists edad, experiencia, foto, secundaria. repeat (split; [assumption|]).
  split; [by apply preaprobado_conjunction|].
  apply conjunction_flips.
Qed.

(** X21.  The experience signal is read from the five fixed field names
    only, in their fixed order: the first of them that the record has
    decides, whatever the later ones hold; a record that has none of them
    (its experience field carrying another name, as a personalised
    position allows) is never pre-approved. *)
Theorem experience_signal_fixed_names (result : gmap string obj) :
  (∀ before field after v,
     possible_exp_fields = (before ++ field :: after)%list →
     (∀ f, In f before → result !! f = None) → result !! field = Some v →
     experiencia_confirmada_of possible_exp_fields result = to_bool v) ∧
  ((∀ f, In f possible_exp_fields → result !! f = None) →
   experiencia_confirmada_of possible_exp_fields result = Ok false ∧
   ∀ out, calculate_derived_fields result = (out, Ok tt) →
          out !! "preaprobado" = Some (VBool false)).
Proof.
  split.
  - intros before field after v -> Hbefore Hfield.
    by apply experiencia_confirmada_of_first.
  - intros Hnone.
    pose proof (experiencia_confirmada_of_none possible_exp_fields result Hnone) as Hx.
    split; [exact Hx|]. intros out. unfold calculate_derived_fields, preaprobado_value.
    rewrite Hx.
    destruct (to_bool (get result "edad_en_rango" (VBool false))) as [edad|e];
      [|discriminate].
    rewrite !bind_Ok.
    destruct (to_bool (get result "hay_foto_en_cv" (VBool false))) as [foto|e];
      [|discriminate].
    rewrite bind_Ok.
    destruct (to_bool (get result "secundaria_tecnica" (VBool false))) as [sec|e];
      [|discriminate].
    rewrite bind_Ok. intros [= <-]. rewrite lookup_insert_eq.
    by rewrite andb_false_r.
Qed.

Section Vocabularies.
Context `{PyText}.

(** X22.  The affirmative words of [to_bool] are among those of the
    coercion pass, and fewer: a string that [to_bool] takes as true is
    coerced to true by the pass on a boolean field, but "verdadero", and
    "si" with a space before it, are true for the pass and false for
    [to_bool]. *)
Theorem to_bool_accepts_fewer_words :
  (∀ s, to_bool (VStr s) = Ok true → coerce_boolean s = Ok (VBool true)) ∧
  (coerce_boolean "verdadero" = Ok (VBool true) ∧ to_bool (VStr "verdadero") = Ok false) ∧
  (coerce_boolean " si" = Ok (VBool true) ∧ to_bool (VStr " si") = Ok false).
Proof.
  split; [|by repeat split].
  intros s. unfold to_bool. cbn [eq_str isna_truth is_missing].
  destruct (String.eqb s ""); [discriminate|]. rewrite bind_Ok. intros [= Hin].
  unfold coerce_boolean, str_in in *. cbn [existsb] in Hin.
  rewrite !orb_true_iff, !String.eqb_eq in Hin.
  repeat (destruct Hin as [Hin | Hin]; [by rewrite Hin|]). discriminate Hin.
Qed.

End Vocabularies.

(** ** Parsing and the batch *)

Section PipelineProperties.
Context `{PyText} `{Pydantic} `{JsonLib} `{Provider} `{Libraries}.

Lemma try_except_all_raises {A} (c : res A) (handler : exn → res A) e :
  try_except c [Exception_] handler = Raise e →
  ∃ e', c = Raise e' ∧ handler e' = Raise e.
Proof.
  unfold try_except. destruct c as [a|e']; [discriminate|].
  rewrite caught_by_exception. by exists e'.
Qed.

(** X23.  The parsers raise [ValueError] only: whatever the document
    libraries and the OCR do, an exception of [parse_file], so also of
    [parse_pdf] and [parse_docx], is a [ValueError]. *)
Theorem parse_file_raises_value_error content mime_type use_ocr e :
  parse_file content mime_type use_ocr = Raise e → exn_cls e = ValueError.
Proof.
  unfold parse_file.
  destruct (has_substring "pdf" (lower mime_type)).
  - unfold parse_pdf. destruct (if use_ocr then _ else _); [discriminate|].
    unfold parse_pdf_traditional.
    destruct (try_except _ [Exception_] (λ _, mret None)) as [[text|]|e'] eqn:Hfirst.
    + discriminate.
    + intros (e' & _ & [= <-])%try_except_all_raises. reflexivity.
    + apply try_except_all_raises in Hfirst as (? & _ & [=]).
  - destruct (_ || _); [|by intros [= <-]].
    unfold parse_docx. destruct (if use_ocr then _ else _); [discriminate|].
    intros (e' & _ & [= <-])%try_except_all_raises. reflexivity.
Qed.

(** [process_single_cv] always returns a record. *)
Lemma process_single_cv_returns file_info schema llm_client cfg drive_service use_ocr w :
  ∃ result w',
    process_single_cv file_info schema llm_client cfg drive_service use_ocr w
    = (Ok result, w').
Proof.
  unfold process_single_cv, record_error.
  destruct (obtain_content _ _ _) as [result content].
  destruct (content ≫= _) as [text|e]; [|rewrite caught_by_exception; by eexists _, _].
  destruct (llm_client text schema (Some cfg) w) as [[extracted_data|e] w'];
    [|rewrite caught_by_exception; by eexists _, _].
  destruct (calculate_derived_fields _) as [result' [[]|e]];
    [|rewrite caught_by_exception]; by eexists _, _.
Qed.

Lemma process_batch_collects llm_client schema cfg drive_service use_ocr completed
    results0 errors0 w :
  ∃ results w',
    process_batch completed schema llm_client cfg drive_service use_ocr
      (results0, errors0) w
    = ((results0 ++ results)%list,
       (errors0 ++ omap error_line (zip completed results))%list, w') ∧
    List.length results = List.length completed.
Proof.
  revert results0 errors0 w.
  induction completed as [|file_info rest IH]; intros results0 errors0 w.
  - exists [], w. cbn. by rewrite !app_nil_r.
  - cbn [process_batch].
    destruct (process_single_cv_returns file_info schema llm_client cfg drive_service
                use_ocr w) as (result & w1 & ->).
    cbn [collect].
    destruct (IH (results0 ++ [result])%list
                 (if truthy (get result "error" VNone)
                  then (errors0 ++ ["❌ " +:+ fi_name file_info +:+ ": "
                                    +:+ py_str (get result "error" VNone)])%list
                  else errors0) w1) as (results & w' & -> & Hlen).
    exists (result :: results), w'. split; [|cbn; by rewrite Hlen].
    rewrite <- app_assoc. cbn [zip zip_with omap list_omap]. unfold error_line at 2.
    cbn [fst snd]. destruct (truthy (get result "error" VNone)); [|reflexivity].
    by rewrite <- app_assoc.
Qed.

(** X24.  Whatever the client, the schema and the libraries do, the loop
    of [process_all_cvs] ends with one record per document, in order, and
    with an error list that has, in the same order, one line for each
    record whose ["error"] is not empty, made of the name of the file and
    that error; the handler of the loop for a task that raised never
    runs, since [process_single_cv] always returns. *)
Theorem process_batch_error_list llm_client schema cfg drive_service use_ocr completed w :
  ∃ results w',
    process_batch completed schema llm_client cfg drive_service use_ocr ([], []) w
    = (results, omap error_line (zip completed results), w') ∧
    List.length results = List.length completed.
Proof.
  destruct (process_batch_collects llm_client schema cfg drive_service use_ocr completed
              [] [] w) as (results & w' & Hbatch & Hlen).
  exists results, w'. split; [exact Hbatch | exact Hlen].
Qed.

(** X25.  A local file whose MIME type mentions neither pdf nor word nor
    docx is not sent to the model: [process_single_cv] returns, in the
    state it was called in, the record of the file with the error that
    names the type. *)
Theorem unsupported_type_not_sent file_info schema llm_client cfg drive_service use_ocr w :
  fi_source file_info = "local" →
  has_substring "pdf" (lower (fi_mime_type file_info)) = false →
  has_substring "word" (lower (fi_mime_type file_info)) = false →
  has_substring "docx" (lower (fi_mime_type file_info)) = false →
  process_single_cv file_info schema llm_client cfg drive_service use_ocr w
  = (Ok (<["error" := VStr ("Tipo de archivo no soportado: " +:+ fi_mime_type file_info)]>
           (list_to_map [("archivo", VStr (fi_name file_info));
                         ("fuente", VStr "local");
                         ("link", VStr (default "" (fi_link file_info)));
                         ("error", VStr "")])),
     w).
Proof.
  intros Hsource Hpdf Hword Hdocx. unfold process_single_cv, obtain_content.
  rewrite Hsource. cbn [String.eqb Ascii.eqb Bool.eqb]. cbn [mbind res_mbind res_bind].
  unfold prepare_text, parse_file. rewrite Hpdf, Hword, Hdocx. cbn [orb].
  unfold raise. rewrite bind_Raise. unfold record_error.
  by rewrite caught_by_exception.
Qed.

End PipelineProperties.


(** ** Uploaded files *)


Lemma reversed_app a b : reversed (a +:+ b) = reversed b +:+ reversed a.
Proof.
  induction a as [|c a IH]; [by rewrite append_empty_r|].
  change (String c a +:+ b) with (String c (a +:+ b)). cbn [reversed].
  by rewrite IH, append_assoc.
Qed.

Lemma endswith_app suffix s : endswith suffix (s +:+ suffix) = true.
Proof. unfold endswith. rewrite reversed_app. apply startswith_prefix. Qed.

Lemma after_last_dot_split filename extension :
  after_last_dot filename = Some extension →
  ∃ stem, filename = stem +:+ String "." extension.
Proof.
  induction filename as [|c rest IH]; [discriminate|]. cbn [after_last_dot].
  destruct (after_last_dot rest) as [ext|].
  - intros [= <-]. destruct (IH eq_refl) as [stem ->]. by exists (String c stem).
  - destruct (Ascii.eqb_spec c ".") as [->|]; [|discriminate].
    intros [= <-]. by exists "".
Qed.

Lemma lower_from_dot after_c3 stem extension :
  lower_from after_c3 (stem +:+ String "." extension)
  = lower_from after_c3 stem +:+ String "." (lower extension).
Proof.
  revert after_c3. induction stem as [|c stem IH]; intros after_c3.
  - cbn [String.append lower_from]. by destruct after_c3.
  - change (String c stem +:+ String "." extension)
      with (String c (stem +:+ String "." extension)).
    cbn [lower_from]. by rewrite IH.
Qed.

Section UploadProperties.
Context `{Libraries}.

(** X26.  A file that the upload form accepts is never refused by the
    parser for its type: when the browser gives no MIME type, the type
    inferred from the name sends a name ending in [.pdf] (in any case) to
    [parse_pdf] and one ending in [.docx] to [parse_docx]. *)
Theorem supported_upload_is_parsed filename content type use_ocr :
  is_supported_file filename = true →
  type = None ∨ type = Some "" →
  parse_file (Some content) (process_uploaded_file filename content type).2 use_ocr
  = if String.eqb (get_file_extension filename) "pdf"
    then parse_pdf (Some content) use_ocr
    else parse_docx (Some content) use_ocr.
Proof.
  intros Hsupported Htype.
  assert ((process_uploaded_file filename content type).2 = _infer_mime_type filename)
    as -> by (by destruct Htype as [-> | ->]).
  unfold is_supported_file, get_file_extension in *.
  destruct (after_last_dot filename) as [extension|] eqn:Hdot; [|discriminate].
  apply after_last_dot_split in Hdot as [stem ->].
  unfold _infer_mime_type, lower at 1 2 3 4. rewrite lower_from_dot.
  cbn [str_in existsb] in Hsupported. rewrite !orb_true_iff, !String.eqb_eq in Hsupported.
  destruct Hsupported as [-> | [-> | Hnone]]; [| |discriminate Hnone].
  - rewrite (endswith_app ".pdf"). reflexivity.
  - assert (∀ s, endswith ".pdf" (s +:+ ".docx") = false) as ->.
    { intros s. unfold endswith. by rewrite reversed_app. }
    rewrite (endswith_app ".docx"). reflexivity.
Qed.

End UploadProperties.

(** ** Repeated headers and footers *)


Lemma occurrences_cons content line lines :
  occurrences content (line :: lines)
  = ((if String.eqb (strip line) content then 1 else 0) + occurrences content lines)%nat.
Proof. unfold occurrences. cbn [List.filter]. by destruct (String.eqb _ _). Qed.

(** The dictionary [line_counts] holds, for every content that is not
    empty and occurs, the number of its occurrences, and nothing else. *)
Lemma foldl_count_line lines (m : gmap string nat) content :
  foldl count_line m lines !! content =
  if String.eqb content "" then m !! content
  else if Nat.eqb (occurrences content lines) 0 then m !! content
  else Some (default O (m !! content) + occurrences content lines)%nat.
Proof.
  revert m. induction lines as [|line lines IH]; intros m.
  - cbn. by destruct (String.eqb content "").
  - cbn [foldl]. rewrite IH, occurrences_cons. unfold count_line.
    destruct (String.eqb content "") eqn:Hempty.
    + apply String.eqb_eq in Hempty as ->.
      destruct (String.eqb (strip line) "") eqn:Hline; cbn [negb]; [reflexivity|].
      apply lookup_insert_ne. intros E. by rewrite E, String.eqb_refl in Hline.
    + destruct (String.eqb (strip line) content) eqn:Hline.
      * apply String.eqb_eq in Hline. rewrite Hline, Hempty. cbn [negb].
        rewrite lookup_insert_eq. cbn [default].
        destruct (Nat.eqb (occurrences content lines) 0) eqn:Hzero.
        -- apply Nat.eqb_eq in Hzero. rewrite Hzero. cbn. f_equal; lia.
        -- cbn. f_equal; lia.
      * assert (strip line ≠ content) as Hne
          by (intros E; by rewrite E, String.eqb_refl in Hline).
        cbn [Nat.add].
        destruct (negb (String.eqb (strip line) "")); [|reflexivity].
        by rewrite lookup_insert_ne.
Qed.

Lemma occurrences_member line lines :
  In line lines → (1 ≤ occurrences (strip line) lines)%nat.
Proof.
  induction lines as [|l lines IH]; [intros []|]. rewrite occurrences_cons.
  intros [->|Hin]; [rewrite String.eqb_refl; lia|]. specialize (IH Hin). lia.
Qed.

(** What the set [repeated_lines] holds of the lines of the text. *)
Lemma repeated_lines_member lines min_repetitions line :
  In line lines →
  bool_decide (strip line ∉ repeated_lines_of (line_counts_of lines) min_repetitions)
  || String.eqb (strip line) ""
  = negb (is_repeated lines min_repetitions line).
Proof.
  intros Hin. unfold is_repeated.
  destruct (String.eqb (strip line) "") eqn:Hblank; [by rewrite orb_true_r|].
  rewrite orb_false_r. cbn [negb andb].
  pose proof (occurrences_member line lines Hin) as Hocc.
  assert (line_counts_of lines !! strip line = Some (occurrences (strip line) lines))
    as Hcount.
  { unfold line_counts_of. rewrite foldl_count_line, Hblank.
    destruct (Nat.eqb_spec (occurrences (strip line) lines) 0); [lia|].
    by rewrite lookup_empty. }
  unfold repeated_lines_of.
  destruct (Nat.leb_spec min_repetitions (occurrences (strip line) lines)) as [Hle|Hlt];
    [destruct (Nat.ltb_spec (py_len (strip line)) 100) as [Hshort|Hlong]|]; cbn.
  - apply bool_decide_eq_false. intros Hnot. apply Hnot, elem_of_dom.
    exists (occurrences (strip line) lines). by apply map_lookup_filter_Some.
  - apply bool_decide_eq_true. intros [n [Hn [_ Hlen]]%map_lookup_filter_Some]%elem_of_dom.
    cbn in Hlen. lia.
  - apply bool_decide_eq_true. intros [n [Hn [Hrep _]]%map_lookup_filter_Some]%elem_of_dom.
    cbn in Hrep. assert (n = occurrences (strip line) lines) by congruence. lia.
Qed.

(** The lines [_remove_repeated_patterns] keeps. *)
Lemma remove_repeated_patterns_kept text min_repetitions :
  _remove_repeated_patterns text min_repetitions
  = join newline
      (List.filter (λ line, negb (is_repeated (split_lines text) min_repetitions line))
                   (split_lines text)).
Proof.
  unfold _remove_repeated_patterns. f_equal. apply filter_ext_in.
  intros line Hin. by apply repeated_lines_member.
Qed.

(** X27.  [_remove_repeated_patterns] removes exactly the lines that
    repeat: the text it returns is made of the lines of its input, in
    order, without those that are not blank and whose stripped content,
    shorter than 100 characters, is the content of at least
    [min_repetitions] lines; blank lines and long lines always stay. *)
Theorem remove_repeated_patterns_lines text min_repetitions :
  _remove_repeated_patterns text min_repetitions
  = join newline
      (List.filter (λ line, negb (is_repeated (split_lines text) min_repetitions line))
                   (split_lines text)).
Proof. apply remove_repeated_patterns_kept. Qed.

Lemma split_lines_from_one_line current s :
  one_line current → Forall one_line (split_lines_from current s).
Proof.
  revert current. induction s as [|c s IH]; intros current Hcurrent.
  - by repeat constructor.
  - cbn [split_lines_from]. destruct (Ascii.eqb c LF) eqn:Hc.
    + constructor; [exact Hcurrent | by apply IH].
    + apply IH, one_line_app; [exact Hcurrent|].
      unfold one_line, has_char. by rewrite (Ascii.eqb_sym LF c), Hc.
Qed.

Lemma occurrences_filter content keep lines :
  (occurrences content (List.filter keep lines) ≤ occurrences content lines)%nat.
Proof.
  induction lines as [|line lines IH]; [reflexivity|]. cbn [List.filter].
  destruct (keep line); rewrite !occurrences_cons; lia.
Qed.

Lemma filter_all {A} (keep : A → bool) l :
  (∀ x, In x l → keep x = true) → List.filter keep l = l.
Proof.
  induction l as [|x l IH]; intros Hall; [reflexivity|]. cbn [List.filter].
  rewrite (Hall x) by (by left). f_equal. apply IH. intros y Hy. apply Hall. by right.
Qed.

(** X28.  [_remove_repeated_patterns] is idempotent: cleaning a cleaned
    text, with the same threshold, changes nothing. *)
Theorem remove_repeated_patterns_idempotent text min_repetitions :
  _remove_repeated_patterns (_remove_repeated_patterns text min_repetitions)
    min_repetitions
  = _remove_repeated_patterns text min_repetitions.
Proof.
  rewrite !remove_repeated_patterns_kept.
  set (lines := split_lines text).
  set (kept := List.filter (λ line, negb (is_repeated lines min_repetitions line)) lines).
  destruct kept as [|first rest] eqn:Hkept; [reflexivity|]. rewrite <- Hkept.
  assert (split_lines (join newline kept) = kept) as ->.
  { apply split_lines_join; [by rewrite Hkept|].
    apply List.Forall_forall. intros line [Hin _]%filter_In.
    pose proof (split_lines_from_one_line "" text eq_refl) as Hlines.
    by apply (proj1 (List.Forall_forall _ _) Hlines). }
  f_equal. apply filter_all. intros line Hline.
  apply filter_In in Hline as [Hin Hnot]. apply negb_true_iff in Hnot.
  apply negb_true_iff.
  pose proof (occurrences_filter (strip line)
                (λ line, negb (is_repeated lines min_repetitions line)) lines) as Hfewer.
  fold kept in Hfewer. unfold is_repeated in Hnot |- *.
  destruct (negb (String.eqb (strip line) "")); [|reflexivity].
  destruct (Nat.ltb (py_len (strip line)) 100); [|by rewrite andb_false_r].
  cbn [andb] in Hnot |- *. rewrite andb_true_r in Hnot |- *.
  apply Nat.leb_gt in Hnot. apply Nat.leb_gt. lia.
Qed.

(** Lines that hold a no-break space only are blank and stay, however
    often they occur; a footer that occurs three times goes. *)
Example blank_lines_kept :
  _remove_repeated_patterns
    (join newline [utf8 160; "pie"; utf8 160; " pie "; utf8 160; "pie"; "texto"]) 3
  = join newline [utf8 160; utf8 160; utf8 160; "texto"].
Proof. vm_refl. Qed.

(** ** The requests of a batch *)

Section BatchBudget.
Context `{PyText} `{Pydantic} `{JsonLib} `{Provider} `{Libraries}.

Lemma process_single_cv_sends budget ok llm_client file_info schema cfg drive_service
    use_ocr :
  (∀ text, sends budget ok (llm_client text schema (Some cfg))) →
  sends budget ok
    (process_single_cv file_info schema llm_client cfg drive_service use_ocr).
Proof.
  intros Hclient w. unfold process_single_cv, record_error.
  assert (∃ sent_requests : list Request,
            calls w = (calls w ++ sent_requests)%list ∧
            (List.length sent_requests ≤ budget)%nat ∧ Forall ok sent_requests) as Hnone.
  { exists []. rewrite app_nil_r. repeat split; [cbn; lia | constructor]. }
  destruct (obtain_content _ _ _) as [result content].
  destruct (content ≫= _) as [text|e]; [|by rewrite caught_by_exception].
  specialize (Hclient text w).
  destruct (llm_client text schema (Some cfg) w) as [[extracted_data|e] w'];
    [|by rewrite caught_by_exception].
  destruct (calculate_derived_fields _) as [result' [[]|e]];
    [|rewrite caught_by_exception]; exact Hclient.
Qed.

Lemma process_batch_sends budget llm_client schema cfg drive_service use_ocr completed
    acc w :
  (∀ text, sends budget (λ _, True) (llm_client text schema (Some cfg))) →
  ∃ sent_requests,
    calls (process_batch completed schema llm_client cfg drive_service use_ocr acc w).2
    = (calls w ++ sent_requests)%list ∧
    (List.length sent_requests ≤ budget * List.length completed)%nat.
Proof.
  intros Hclient. revert acc w.
  induction completed as [|file_info rest IH]; intros acc w.
  - exists []. cbn. rewrite app_nil_r. split; [reflexivity | lia].
  - cbn [process_batch].
    destruct (process_single_cv_sends budget (λ _, True) llm_client file_info schema cfg
                drive_service use_ocr Hclient w) as (sent1 & Hcalls1 & Hlen1 & _).
    destruct (process_single_cv file_info schema llm_client cfg drive_service use_ocr w)
      as [outcome w1]. cbn [snd] in Hcalls1.
    destruct (IH (collect file_info outcome acc) w1) as (sent2 & Hcalls2 & Hlen2).
    exists (sent1 ++ sent2)%list. rewrite Hcalls2, Hcalls1, <- app_assoc.
    split; [reflexivity|]. rewrite length_app. cbn [List.length]. lia.
Qed.

(** X29.  A batch has a request budget: with the client the application
    creates, the loop of [process_all_cvs] over n documents sends at most
    2n requests when the provider is OpenAI and at most 6n otherwise,
    whatever the provider answers and whatever the documents hold. *)
Theorem batch_request_budget provider_name model_name temperature_option
    max_tokens_option completed schema cfg drive_service use_ocr w :
  ∃ sent_requests,
    calls (process_batch completed schema
             (create_llm_client provider_name model_name temperature_option
                                max_tokens_option)
             cfg drive_service use_ocr ([], []) w).2
    = (calls w ++ sent_requests)%list ∧
    (List.length sent_requests
     ≤ (if String.eqb provider_name "OpenAI" then 2 else 6) * List.length completed)%nat.
Proof.
  apply process_batch_sends. intros text. unfold create_llm_client.
  destruct (String.eqb provider_name "OpenAI"); intros w0.
  - destruct (openai_request_budget_any
                (mk_client model_name temperature_option (Some max_tokens_option))
                text schema (Some cfg) w0) as (sent_requests & ? & ? & _).
    exists sent_requests. repeat split; [done | done |].
    apply List.Forall_forall. done.
  - destruct (litellm_request_budget_any
                (mk_client model_name temperature_option (Some max_tokens_option))
                text schema (Some cfg) w0) as (sent_requests & ? & ? & _).
    exists sent_requests. repeat split; [done | done |].
    apply List.Forall_forall. done.
Qed.

End BatchBudget.


(** ** Worked instances of the further properties *)

Lemma preprocess_data_changes_strings_only_witness :
  dom mixed_coerced = dom mixed_data ∧
  ∀ key value, mixed_data !! key = Some value → (∀ s, value ≠ VStr s) →
               mixed_coerced !! key = Some value.
Proof.
  apply (@preprocess_data_changes_strings_only Sample.sample_text mixed_data
           Sample.scenario_schema mixed_coerced).
  vm_refl.
Defined.

Lemma preprocess_data_idempotent_witness :
  @_preprocess_data Sample.sample_text mixed_coerced Sample.scenario_schema
  = Ok mixed_coerced.
Proof.
  apply (@preprocess_data_idempotent Sample.sample_text mixed_data
           Sample.scenario_schema mixed_coerced).
  vm_refl.
Defined.

Lemma sample_validate_reports a v : Sample.sample_validate a v ≠ inl [].
Proof.
  revert v. induction a; intros v; destruct v; cbn; try discriminate;
    try apply IHa; by destruct (existsb _ _).
Qed.

Lemma sample_pydantic_reports a config v :
  @validate_field Sample.sample_pydantic a config v ≠ inl [].
Proof.
  cbn. pose proof (sample_validate_reports a v) as Hreports.
  destruct (Sample.sample_validate a v) as [[|e errors]|v']; [done|discriminate|].
  destruct config as [f|]; [|discriminate]. by destruct (_ && _).
Qed.

Lemma pydantic_validated_fields_witness :
  (∀ key, is_Some (minimal_validated !! key) ↔
          (∃ ty, declares Sample.scenario_schema key ty)
          ∧ @is_field_name Sample.sample_pydantic key = true) ∧
  (∀ key ty, declares Sample.scenario_schema key ty →
             @is_field_name Sample.sample_pydantic key = true →
             minimal_data !! key = None → minimal_validated !! key = Some VNone).
Proof.
  apply (@pydantic_validated_fields Sample.sample_text Sample.sample_pydantic
           Sample.sample_json (Ok (VDict Sample.scenario_schema)) Sample.scenario_schema
           minimal_data minimal_validated).
  - exact sample_pydantic_reports.
  - vm_refl.
  - vm_refl.
Defined.

Lemma missing_required_field_rejected_witness :
  ∃ message,
    @validate_extraction Sample.sample_text Sample.sample_pydantic Sample.sample_json
      nameless_data Sample.scenario_schema true = (false, None, Some message).
Proof.
  apply (@missing_required_field_rejected Sample.sample_text Sample.sample_pydantic
           Sample.sample_json (Ok (VDict Sample.scenario_schema)) Sample.scenario_schema
           scenario_variables
           (list_to_map [("name", VStr "nombre"); ("type", VStr "string");
                         ("required", VBool true)])
           "nombre" nameless_data true).
  - vm_refl.
  - vm_refl.
  - left. reflexivity.
  - vm_refl.
  - vm_refl.
  - vm_refl.
  - reflexivity.
Defined.

(** With the stand-in for pydantic, a required field whose name has a
    leading underscore is not asked of the record on the pydantic path,
    and is on the jsonschema path. *)
Example private_name_not_checked :
  @validate_extraction Sample.sample_text Sample.sample_pydantic Sample.sample_json
    ∅ private_name_schema true = (true, Some ∅, None)
  ∧ @validate_extraction Sample.sample_text Sample.sample_pydantic Sample.sample_json
      ∅ private_name_schema false
    = (false, None,
       Some "Error de validación en '$': '_interno' is a required property").
Proof. split; vm_refl. Qed.

Lemma jsonschema_accepts_as_given_witness :
  minimal_data = minimal_data ∧
  ∀ key, is_Some (minimal_data !! key) → ∃ ty, declares Sample.scenario_schema key ty.
Proof.
  apply (@jsonschema_accepts_as_given Sample.sample_text Sample.sample_pydantic
           Sample.sample_json (Ok (VDict Sample.scenario_schema)) Sample.scenario_schema
           minimal_data minimal_data).
  - vm_refl.
  - vm_refl.
Defined.

Lemma schema_to_json_schema_shape_witness :
  ∃ vars js,
    Sample.scenario_schema !! "variables" = Some (VList vars) ∧
    schema_to_json_schema Sample.scenario_schema = Ok js ∧
    js_additional_properties js = false ∧
    Forall2 property_entry vars (js_properties js) ∧
    js_required js = required_names vars.
Proof.
  apply (@schema_to_json_schema_shape Sample.sample_text
           (Ok (VDict Sample.scenario_schema)) Sample.scenario_schema).
  vm_refl.
Defined.

Lemma parse_json_safely_fenced_witness :
  @parse_json_safely Sample.sample_json (join newline ([fence +:+ "json"] ++ ["{}"] ++ [fence]))
  = @parse_json_safely Sample.sample_json (join newline ["{}"]).
Proof.
  apply (@parse_json_safely_fenced Sample.sample_json "json" ["{}"]).
  - reflexivity.
  - by repeat constructor.
  - discriminate.
  - reflexivity.
  - reflexivity.
Defined.

Lemma build_full_prompt_returns_witness :
  let cfg := PromptConfig_init "electricista" "Lanús" 15 None None in
  (∃ user_prompt,
     @build_full_prompt Sample.sample_text cfg "Ana Gomez" Sample.scenario_schema
     = Ok (get_system_prompt cfg, user_prompt)) ∧
  ∀ other_text,
    slice_to (Z.to_nat 10000) other_text = slice_to (Z.to_nat 10000) "Ana Gomez" →
    @build_full_prompt Sample.sample_text cfg other_text Sample.scenario_schema
    = @build_full_prompt Sample.sample_text cfg "Ana Gomez" Sample.scenario_schema.
Proof.
  apply (@build_full_prompt_returns Sample.sample_text "electricista" "Lanús" 15 None None
           (Ok (VDict Sample.scenario_schema)) Sample.scenario_schema "Ana Gomez").
  - vm_refl.
  - intros campos value [=].
Defined.

Lemma optional_prompts_built :
  @OpenAIClient._build_extraction_prompt Sample.sample_text sample_client "Ana Gomez"
    Sample.optional_schema (Some (default create_default_config None))
  = Ok (optional_prompts.1, optional_prompts.2).
Proof. vm_refl. Qed.

Lemma openai_extract_profile_returns_witness :
  let first := first_request sample_client optional_prompts.1 optional_prompts.2 in
  let correction :=
    correction_request sample_client optional_prompts.1 optional_prompts.2
      (generate_correction_prompt "no puedo ayudar con eso"
         "Error parseando JSON: Expecting value: line 1 column 1 (char 0)"
         Sample.optional_schema) in
  @OpenAIClient.extract_profile Sample.sample_text Sample.sample_pydantic
    Sample.sample_json empty_object sample_client "Ana Gomez" Sample.optional_schema
    None (@mk_world empty_object 0%nat [])
  = (Ok {[ "nombre" := VNone ]}, @mk_world empty_object 1%nat [first])
  ∧ @OpenAIClient.extract_profile Sample.sample_text Sample.sample_pydantic
      Sample.sample_json corrected_answer sample_client "Ana Gomez"
      Sample.optional_schema None (@mk_world corrected_answer 0%nat [])
    = (Ok {[ "nombre" := VNone ]}, @mk_world corrected_answer 2%nat [first; correction]).
Proof.
  intros first correction. split.
  - apply (proj1 (@openai_extract_profile_returns Sample.sample_text
                    Sample.sample_pydantic Sample.sample_json empty_object sample_client
                    "Ana Gomez" Sample.optional_schema None
                    (@mk_world empty_object 0%nat [])
                    optional_prompts.1 optional_prompts.2 "{}" 1%nat
                    optional_prompts_built eq_refl)).
    vm_refl.
  - apply (proj2 (@openai_extract_profile_returns Sample.sample_text
                    Sample.sample_pydantic Sample.sample_json corrected_answer
                    sample_client "Ana Gomez" Sample.optional_schema None
                    (@mk_world corrected_answer 0%nat [])
                    optional_prompts.1 optional_prompts.2 "no puedo ayudar con eso"
                    1%nat optional_prompts_built eq_refl)
             "Error parseando JSON: Expecting value: line 1 column 1 (char 0)" "{}"
             2%nat).
    + left. vm_refl.
    + reflexivity.
    + vm_refl.
Defined.

Lemma openai_transport_failure_not_retried_witness :
  @OpenAIClient.extract_profile Sample.sample_text Sample.sample_pydantic
    Sample.sample_json Sample.failing_provider sample_client "Ana Gomez"
    Sample.optional_schema None (@mk_world Sample.failing_provider 0%nat [])
  = (raise Exception_ "Error llamando a OpenAI API: Connection error.",
     @sent Sample.failing_provider (@mk_world Sample.failing_provider 0%nat [])
       (first_request sample_client optional_prompts.1 optional_prompts.2) 1%nat).
Proof.
  apply (@openai_transport_failure_not_retried Sample.sample_text Sample.sample_pydantic
           Sample.sample_json Sample.failing_provider sample_client "Ana Gomez"
           Sample.optional_schema None (@mk_world Sample.failing_provider 0%nat [])
           optional_prompts.1 optional_prompts.2
           (mk_exn Exception_ "Connection error.") 1%nat).
  - exact optional_prompts_built.
  - reflexivity.
Defined.

Lemma litellm_optional_prompts_built :
  @LiteLLMClient._build_extraction_prompt Sample.sample_text sample_client "Ana Gomez"
    Sample.optional_schema (Some (default create_default_config None))
  = Ok (optional_prompts.1, optional_prompts.2).
Proof. vm_refl. Qed.

Lemma failing_provider_always_failing : @always_failing Sample.failing_provider.
Proof. intros request state. by eexists _, _. Qed.

Lemma litellm_transport_failure_retried_witness :
  let first := litellm_first_request sample_client optional_prompts.1 optional_prompts.2 in
  ∃ e p,
    @LiteLLMClient.extract_profile Sample.sample_text Sample.sample_pydantic
      Sample.sample_json Sample.failing_provider sample_client "Ana Gomez"
      Sample.optional_schema None (@mk_world Sample.failing_provider 0%nat [])
    = (raise Exception_ ("Error llamando a LiteLLM: " +:+ exn_str e),
       @mk_world Sample.failing_provider p ([] ++ [first; first; first])).
Proof.
  apply (@litellm_transport_failure_retried Sample.sample_text Sample.sample_pydantic
           Sample.sample_json Sample.failing_provider sample_client "Ana Gomez"
           Sample.optional_schema None (@mk_world Sample.failing_provider 0%nat [])
           optional_prompts.1 optional_prompts.2).
  - exact litellm_optional_prompts_built.
  - exact failing_provider_always_failing.
Defined.

Lemma litellm_scenario_prompts_built :
  @LiteLLMClient._build_extraction_prompt Sample.sample_text sample_client "Ana Gomez"
    Sample.scenario_schema (Some (default create_default_config None))
  = Ok (scenario_prompts.1, scenario_prompts.2).
Proof. vm_refl. Qed.

Lemma litellm_invalid_responses_six_requests_witness :
  let first := litellm_first_request sample_client scenario_prompts.1 scenario_prompts.2 in
  ∃ e p correction1 correction2 correction3,
    @LiteLLMClient.extract_profile Sample.sample_text Sample.sample_pydantic
      Sample.sample_json not_json sample_client "Ana Gomez" Sample.scenario_schema None
      (@mk_world not_json 0%nat [])
    = (Raise e,
       @mk_world not_json p ([] ++ [first; correction1; first; correction2;
                                    first; correction3])) ∧
    exn_cls e = ValueError ∧
    req_temperature correction1 = float_0_1 ∧
    req_temperature correction2 = float_0_1 ∧
    req_temperature correction3 = float_0_1.
Proof.
  apply (@litellm_invalid_responses_six_requests Sample.sample_text Sample.sample_pydantic
           Sample.sample_json not_json sample_client "Ana Gomez" Sample.scenario_schema
           None (@mk_world not_json 0%nat []) scenario_prompts.1 scenario_prompts.2).
  - exact litellm_scenario_prompts_built.
  - exact not_json_always_invalid.
Defined.

Lemma approved_record_no_list key l : Sample.approved_record !! key ≠ Some (VList l).
Proof.
  intros Hkey. apply elem_of_list_to_map_2 in Hkey.
  repeat (apply elem_of_cons in Hkey as [[= ]|Hkey]). by apply elem_of_nil in Hkey.
Qed.

Lemma preaprobado_is_conjunction_witness :
  ∃ edad experiencia foto secundaria,
    to_bool (get Sample.approved_record "edad_en_rango" (VBool false)) = Ok edad ∧
    experiencia_confirmada_of possible_exp_fields Sample.approved_record = Ok experiencia ∧
    to_bool (get Sample.approved_record "hay_foto_en_cv" (VBool false)) = Ok foto ∧
    to_bool (get Sample.approved_record "secundaria_tecnica" (VBool false)) = Ok secundaria ∧
    calculate_derived_fields Sample.approved_record =
    (<["preaprobado" := VBool (edad && experiencia && foto && secundaria)]>
       Sample.approved_record, Ok tt) ∧
    (edad && experiencia && foto && secundaria = true ↔
     edad = true ∧ experiencia = true ∧ foto = true ∧ secundaria = true).
Proof.
  apply (preaprobado_is_conjunction Sample.approved_record).
  exact approved_record_no_list.
Defined.

Lemma experience_signal_fixed_names_witness :
  experiencia_confirmada_of possible_exp_fields Sample.approved_record
  = to_bool (VStr "Sí").
Proof.
  apply (proj1 (experience_signal_fixed_names Sample.approved_record) []
           "experiencia_electricista_confirmada"
           ["experiencia_electromecanico_confirmada";
            "experiencia_mecanico_industrial_confirmada";
            "experiencia_pañol_depositos_confirmada";
            "experiencia_confirmada"]).
  - reflexivity.
  - intros f [].
  - vm_refl.
Defined.

Lemma unsupported_type_not_sent_witness :
  @process_single_cv Sample.sample_text Sample.second_call_fails sample_documents
    uploaded_image Sample.scenario_schema stub_client create_default_config None false
    (@mk_world Sample.second_call_fails 0%nat [])
  = (Ok (<["error" := VStr ("Tipo de archivo no soportado: " +:+ "image/png")]>
           (list_to_map [("archivo", VStr "foto.png");
                         ("fuente", VStr "local");
                         ("link", VStr (default "" None));
                         ("error", VStr "")])),
     @mk_world Sample.second_call_fails 0%nat []).
Proof.
  apply (@unsupported_type_not_sent Sample.sample_text Sample.second_call_fails
           sample_documents uploaded_image Sample.scenario_schema stub_client
           create_default_config None false (@mk_world Sample.second_call_fails 0%nat []));
    reflexivity.
Defined.

Lemma parse_file_raises_value_error_witness :
  exn_cls (mk_exn ValueError
             "Error parseando PDF con ambos métodos: No /Root object") = ValueError.
Proof.
  apply (@parse_file_raises_value_error failing_libraries (Some "%PDF")
           "application/pdf" true).
  reflexivity.
Defined.

Lemma supported_upload_is_parsed_witness :
  @parse_file sample_documents (Some "%PDF")
    (LocalFiles.process_uploaded_file "CV_Ana.PDF" "%PDF" None).2 false
  = if String.eqb (LocalFiles.get_file_extension "CV_Ana.PDF") "pdf"
    then @parse_pdf sample_documents (Some "%PDF") false
    else @parse_docx sample_documents (Some "%PDF") false.
Proof.
  apply (@supported_upload_is_parsed sample_documents "CV_Ana.PDF" "%PDF" None false).
  - reflexivity.
  - by left.
Defined.
